(** * Outsmartly CLI, [deploy] command: a shallow embedding and its properties

    Source: packages/cli/src/commands/deploy.ts.

    The file has three parts.  Part I embeds the code: JavaScript string
    primitives, Node's [path] interface, the bundler-warning triage
    ([onwarn], [handleRollupError]), the virtual-module resolver
    ([resolveId]), the analysis assembler ([bundleAnalysis]), the
    configuration evaluator, the deploy orchestrator ([run], the watch
    handler and [deploy]), the lookup of the configuration file and of the
    access token, the watched files ([setupWatchers]) and the cancellable
    timer ([sleep]).  Part II states and proves the properties of the
    specification.  Part III proves further properties of the code: of the
    lookups, the watcher, the timer, the orchestrator, the assembler, the
    resolver and the warning printer.

    Modelling conventions.
    - JavaScript strings are [string]s (code units below 256).
    - An object used as a dictionary is kept by its own properties, a
      [gmap string _].  The test [k in obj] also holds for the names
      inherited from [Object.prototype] ([Js.has]), and the assignment
      [obj[k] = v] makes no own property under [__proto__] ([Js.assign]).
    - An optional string field is an [option string]; [None] is [undefined].
    - [chalk] only styles text; its functions are the identity here.
    - Effects are kept in a log ([list Effect]) next to the outcome of a
      computation, which is a value, a thrown error or a process exit. *)

From Stdlib Require Import String Ascii ZArith List Bool Lia.
From stdpp Require Import base strings pretty gmap list.
Import ListNotations.
Open Scope string_scope.
Open Scope Z_scope.
Open Scope list_scope.

(** * Part I: the embedding *)

(** ** JavaScript string primitives *)
Module Js.

(** [`${x}`] for a value that is a string or [undefined]. *)
Definition tpl (o : option string) : string :=
  match o with Some s => s | None => "undefined" end.

(** Truthiness of a value that is a string or [undefined]. *)
Definition truthy (o : option string) : bool :=
  match o with Some s => negb (s =? "")%string | None => false end.

(** [a || b] on values that are strings or [undefined]. *)
Definition or_else (a b : option string) : option string :=
  if truthy a then a else b.

Fixpoint indexOf_from (c : ascii) (s : string) (i : Z) : Z :=
  match s with
  | EmptyString => -1
  | String a s' => if Ascii.eqb a c then i else indexOf_from c s' (i + 1)
  end.

(** [s.indexOf(c)] for a one-character [c]: [-1] when absent. *)
Definition indexOf (s : string) (c : ascii) : Z := indexOf_from c s 0.

Fixpoint lastIndexOf_from (c : ascii) (s : string) (i acc : Z) : Z :=
  match s with
  | EmptyString => acc
  | String a s' => lastIndexOf_from c s' (i + 1) (if Ascii.eqb a c then i else acc)
  end.

(** [s.lastIndexOf(c)]: [-1] when absent. *)
Definition lastIndexOf (s : string) (c : ascii) : Z := lastIndexOf_from c s 0 (-1).

Definition len (s : string) : Z := Z.of_nat (String.length s).

(** [s.slice(b, e)], negative indices counting from the end. *)
Definition slice (s : string) (b e : Z) : string :=
  let from := if b <? 0 then Z.max (len s + b) 0 else Z.min b (len s) in
  let to := if e <? 0 then Z.max (len s + e) 0 else Z.min e (len s) in
  substring (Z.to_nat from) (Z.to_nat (Z.max (to - from) 0)) s.

(** [s.slice(b)]. *)
Definition slice_from (s : string) (b : Z) : string := slice s b (len s).

Definition startsWith (s p : string) : bool := String.prefix p s.

Definition endsWith (s p : string) : bool :=
  (String.length p <=? String.length s)%nat &&
  (substring (String.length s - String.length p) (String.length p) s =? p)%string.

(** The characters [.] of a regular expression does not match. *)
Definition isLineTerminator (a : ascii) : bool :=
  Ascii.eqb a "010" || Ascii.eqb a "013".

Definition no_line_terminator (s : string) : bool :=
  forallb (fun a => negb (isLineTerminator a)) (list_ascii_of_string s).

(** [s.match(/^\/\/ (.+)$/)]: the first capture group, [None] for [null]. *)
Definition match_path_comment (s : string) : option string :=
  if String.prefix "// " s then
    let rest := substring 3 (String.length s - 3) s in
    if negb (rest =? "")%string && no_line_terminator rest then Some rest else None
  else None.

(** [s.match(/^[/.]/)] as a boolean. *)
Definition starts_slash_or_dot (s : string) : bool :=
  match s with
  | String a _ => Ascii.eqb a "/" || Ascii.eqb a "."
  | EmptyString => false
  end.

(** *** Plain objects used as dictionaries

    An object created by [{}] and filled by assignments [obj[k] = v] is
    kept by its own properties, a [gmap].  Its prototype is
    [Object.prototype], whose properties it inherits: these are the names
    below (V8, the engine of Node). *)
Definition object_prototype_names : list string :=
  ["constructor"; "__defineGetter__"; "__defineSetter__"; "hasOwnProperty";
   "__lookupGetter__"; "__lookupSetter__"; "isPrototypeOf"; "propertyIsEnumerable";
   "toString"; "valueOf"; "__proto__"; "toLocaleString"].

Definition inherited (k : string) : bool :=
  existsb (String.eqb k) object_prototype_names.

(** [k in obj]: an own property, or one inherited from [Object.prototype]. *)
Definition has {V : Type} (obj : gmap string V) (k : string) : bool :=
  bool_decide (is_Some (obj !! k)) || inherited k.

(** [obj[k] = v].  Every inherited name but one is a writable data
    property, so the assignment makes an own property.  [__proto__] is an
    accessor: its setter replaces the prototype when [v] is an object or
    [null] and does nothing for any other value; in neither case does the
    object get an own property.  The values assigned to the dictionaries of
    [bundleAnalysis] are strings or [undefined], which leave the prototype
    as it is, except those of [components], which are objects: of
    [components] only the own properties are kept. *)
Definition assign {V : Type} (obj : gmap string V) (k : string) (v : V) : gmap string V :=
  if (k =? "__proto__")%string then obj else <[k := v]> obj.

(** [obj[k]] read: [Inherited] stands for the function or object that
    [Object.prototype] holds under [k]. *)
Inductive Lookup (V : Type) :=
| Own (v : V)
| Inherited (k : string)
| Missing.
Arguments Own {V} v.
Arguments Inherited {V} k.
Arguments Missing {V}.

Definition get {V : Type} (obj : gmap string V) (k : string) : Lookup V :=
  match obj !! k with
  | Some v => Own v
  | None => if inherited k then Inherited k else Missing
  end.

End Js.

(** ** Errors, effects and outcomes *)

(** A thrown JavaScript value: [new Error(message)] or an error object of
    another origin (file system, JSON parser, bundler), kept by its name
    and message. *)
Record JsError := mkError { err_name : string; err_message : string }.

Definition Error (msg : string) : JsError := mkError "Error" msg.

#[global] Instance JsError_eq_dec : EqDecision JsError.
Proof. solve_decision. Defined.

Inductive Effect :=
| ConsoleError (line : string)          (* console.error of a string *)
| ConsoleErrorObj (e : JsError)         (* console.error of a caught error *)
| RollupCall (input : gmap string string).  (* rollup({ input, ... }) *)

Inductive Outcome (A : Type) :=
| Ret (a : A)
| Throw (e : JsError)
| Exit (code : Z).
Arguments Ret {A} a.
Arguments Throw {A} e.
Arguments Exit {A} code.

(** A computation: what it printed or called, and how it ended. *)
Definition M (A : Type) : Type := list Effect * Outcome A.

Definition ret {A} (a : A) : M A := ([], Ret a).
Definition throw {A} (e : JsError) : M A := ([], Throw e).
Definition exit {A} (code : Z) : M A := ([], Exit code).
Definition console_error (line : string) : M unit := ([ConsoleError line], Ret tt).

Definition bind {A B} (m : M A) (k : A -> M B) : M B :=
  match m with
  | (l, Ret a) => let '(l', o) := k a in (l ++ l', o)
  | (l, Throw e) => (l, Throw e)
  | (l, Exit c) => (l, Exit c)
  end.

(** [try { m } catch (e) { h e }]: a process exit is not caught. *)
Definition try_catch {A} (m : M A) (h : JsError -> M A) : M A :=
  match m with
  | (l, Throw e) => let '(l', o) := h e in (l ++ l', o)
  | other => other
  end.

(** [line.includes(sub)]. *)
Definition includes (line sub : string) : bool :=
  match String.index 0 sub line with Some _ => true | None => false end.

(** Whether some printed line contains both [a] and [b]. *)
Definition prints_both (l : list Effect) (a b : string) : bool :=
  existsb (fun e => match e with
                    | ConsoleError line => includes line a && includes line b
                    | _ => false
                    end) l.

(** Whether the bundler was called. *)
Definition calls_rollup (l : list Effect) : bool :=
  existsb (fun e => match e with RollupCall _ => true | _ => false end) l.

Declare Scope m_scope.
Delimit Scope m_scope with M.
Notation "x <- m ;; k" := (bind m (fun x => k))
  (at level 100, m at next level, right associativity) : m_scope.
Notation "m ;;; k" := (bind m (fun _ => k))
  (at level 100, right associativity) : m_scope.

(** ** Node's [path] module

    [path] and [process.cwd()] belong to the platform, not to the
    repository.  The code is embedded over this interface; [Posix] below is
    a model of Node's POSIX implementation used to run concrete cases. *)
Class PathOps := {
  process_cwd : string;
  path_join : string -> string -> string;        (* path.join(a, b) *)
  path_dirname : string -> string;               (* path.dirname(p) *)
  path_resolve : string -> string -> string;     (* path.resolve(a, b) *)
  path_relative : string -> string -> string;    (* path.relative(from, to) *)
  path_parse_name : string -> string             (* path.parse(p).name *)
}.

Module Posix.

Fixpoint split (s : string) : list string :=
  match s with
  | EmptyString => [""]
  | String a s' =>
      match split s' with
      | seg :: rest => if Ascii.eqb a "/" then "" :: seg :: rest else String a seg :: rest
      | [] => [String a ""]
      end
  end.

(** Node's [normalizeString] on segments; [stack] is the reversed result. *)
Fixpoint normalize_segs (allowAboveRoot : bool) (segs stack : list string) : list string :=
  match segs with
  | [] => rev stack
  | seg :: rest =>
      if (seg =? "")%string || (seg =? ".")%string then normalize_segs allowAboveRoot rest stack
      else if (seg =? "..")%string then
        match stack with
        | top :: below =>
            if (top =? "..")%string
            then normalize_segs allowAboveRoot rest (if allowAboveRoot then ".." :: stack else stack)
            else normalize_segs allowAboveRoot rest below
        | [] => normalize_segs allowAboveRoot rest (if allowAboveRoot then [".."] else [])
        end
      else normalize_segs allowAboveRoot rest (seg :: stack)
  end.

Definition normalizeString (p : string) (allowAboveRoot : bool) : string :=
  String.concat "/" (normalize_segs allowAboveRoot (split p) []).

Definition isAbsolute (p : string) : bool := String.prefix "/" p.

Definition normalize (p : string) : string :=
  if (p =? "")%string then "." else
  let abs := isAbsolute p in
  let trailing := Js.endsWith p "/" in
  let q := normalizeString p (negb abs) in
  if (q =? "")%string then (if abs then "/" else if trailing then "./" else ".")
  else let q := if trailing then q +:+ "/" else q in
       if abs then "/" +:+ q else q.

Definition join (a b : string) : string :=
  if (a =? "")%string && (b =? "")%string then "."
  else normalize (if (a =? "")%string then b else if (b =? "")%string then a else a +:+ "/" +:+ b).

(** [path.resolve(a, b)]: arguments are taken from the right until the
    path is absolute, the working directory last. *)
Definition resolve (cwd a b : string) : string :=
  let r1 := if (b =? "")%string then "" else b +:+ "/" in
  let abs1 := isAbsolute b in
  let r2 := if abs1 || (a =? "")%string then r1 else a +:+ "/" +:+ r1 in
  let abs2 := abs1 || isAbsolute a in
  let r3 := if abs2 then r2 else cwd +:+ "/" +:+ r2 in
  let abs3 := abs2 || isAbsolute cwd in
  let q := normalizeString r3 (negb abs3) in
  if abs3 then "/" +:+ q else if (q =? "")%string then "." else q.

Fixpoint strip_common (xs ys : list string) : list string * list string :=
  match xs, ys with
  | x :: xs', y :: ys' => if (x =? y)%string then strip_common xs' ys' else (xs, ys)
  | _, _ => (xs, ys)
  end.

Definition segments (p : string) : list string :=
  filter (fun s => s ≠ "") (split p).

Definition relative (cwd from to : string) : string :=
  if (from =? to)%string then "" else
  let f := resolve cwd "" from in
  let t := resolve cwd "" to in
  if (f =? t)%string then "" else
  let '(fs, ts) := strip_common (segments f) (segments t) in
  String.concat "/" (map (fun _ => "..") fs ++ ts).

Fixpoint dirname_scan (p : string) (i : nat) (matchedSlash : bool) : option nat :=
  match i with
  | O => None
  | S i' =>
      match String.get i p with
      | Some "/"%char => if matchedSlash then dirname_scan p i' true else Some i
      | _ => dirname_scan p i' false
      end
  end.

Definition dirname (p : string) : string :=
  if (p =? "")%string then "." else
  match dirname_scan p (String.length p - 1) true with
  | None => if isAbsolute p then "/" else "."
  | Some e => if isAbsolute p && (e =? 1)%nat then "//" else substring 0 e p
  end.

(** The variables of the scan of [path.parse]. *)
Record ParseScan := {
  startDot : Z;
  startPart : Z;
  scan_end : Z;
  matchedSlash : bool;
  preDotState : Z }.

(** The [for] loop of [path.parse], from the index [start + n - 1] down to
    [start]; it is left at the separator before the last component. *)
Fixpoint parse_scan (p : string) (start n : nat) (st : ParseScan) : ParseScan :=
  match n with
  | O => st
  | S n' =>
      let i := (start + n')%nat in
      match String.get i p with
      | None => st
      | Some code =>
          if Ascii.eqb code "/" then
            if matchedSlash st then parse_scan p start n' st
            else {| startDot := startDot st; startPart := Z.of_nat i + 1;
                    scan_end := scan_end st; matchedSlash := matchedSlash st;
                    preDotState := preDotState st |}
          else
            let st :=
              if scan_end st =? -1
              then {| startDot := startDot st; startPart := startPart st;
                      scan_end := Z.of_nat i + 1; matchedSlash := false;
                      preDotState := preDotState st |}
              else st in
            let st :=
              if Ascii.eqb code "." then
                if startDot st =? -1
                then {| startDot := Z.of_nat i; startPart := startPart st;
                        scan_end := scan_end st; matchedSlash := matchedSlash st;
                        preDotState := preDotState st |}
                else if negb (preDotState st =? 1)
                then {| startDot := startDot st; startPart := startPart st;
                        scan_end := scan_end st; matchedSlash := matchedSlash st;
                        preDotState := 1 |}
                else st
              else if negb (startDot st =? -1)
              then {| startDot := startDot st; startPart := startPart st;
                      scan_end := scan_end st; matchedSlash := matchedSlash st;
                      preDotState := -1 |}
              else st in
            parse_scan p start n' st
      end
  end.

(** [path.parse(p).name], by the algorithm of Node. *)
Definition parse_name (p : string) : string :=
  if (p =? "")%string then "" else
  let start := if isAbsolute p then 1%nat else 0%nat in
  let st :=
    parse_scan p start (String.length p - start)
      {| startDot := -1; startPart := 0; scan_end := -1; matchedSlash := true;
         preDotState := 0 |} in
  if scan_end st =? -1 then "" else
  let from := if (startPart st =? 0) && isAbsolute p then 1 else startPart st in
  if (startDot st =? -1) || (preDotState st =? 0) ||
     ((preDotState st =? 1) && (startDot st =? scan_end st - 1) &&
      (startDot st =? startPart st + 1))
  then Js.slice p from (scan_end st)
  else Js.slice p from (startDot st).

Definition ops (cwd : string) : PathOps := {|
  process_cwd := cwd;
  path_join := join;
  path_dirname := dirname;
  path_resolve := resolve cwd;
  path_relative := relative cwd;
  path_parse_name := parse_name |}.

End Posix.

(** ** Bundler warnings: [onwarn] and [handleRollupError] *)
Module Warn.

Record Loc := { file : option string; line : Z; column : Z }.

(** The fields of a [RollupWarning] that the code reads. *)
Record RollupWarning := {
  code : option string;
  message : string;
  name : option string;
  plugin : option string;
  url : option string;
  loc : option Loc;
  id : option string;
  frame : option string;
  source : option string;
  importer : option string }.

(** [warning.message = m]. *)
Definition set_message (w : RollupWarning) (m : string) : RollupWarning :=
  {| code := code w; message := m; name := name w; plugin := plugin w;
     url := url w; loc := loc w; id := id w; frame := frame w;
     source := source w; importer := importer w |}.

Definition chalk_bold (s : string) : string := s.
Definition chalk_red (s : string) : string := s.
Definition chalk_cyan (s : string) : string := s.
Definition chalk_dim (s : string) : string := s.

Definition is_letter (a : ascii) : bool :=
  let n := nat_of_ascii a in
  ((65 <=? n) && (n <=? 90) || (97 <=? n) && (n <=? 122))%nat.

Definition is_sep (a : ascii) : bool :=
  Ascii.eqb a "\" || Ascii.eqb a "|" || Ascii.eqb a "/".

(** [absolutePath.test(path)] for [/^(?:\/|(?:[A-Za-z]:)?[\\|/])/]. *)
Definition isAbsolute (path : string) : bool :=
  match path with
  | String a rest =>
      is_sep a ||
      (is_letter a &&
       match rest with
       | String ":" (String b _) => is_sep b
       | _ => false
       end)
  | EmptyString => false
  end.

(** A warning handed to [onwarn] is a plain object. *)
Definition toString (w : RollupWarning) : string := "[object Object]".

Section WithPath.
Context `{PathOps}.

Definition relativeId (id : string) : string :=
  if negb (isAbsolute id) then id else path_relative process_cwd id.

(** The text printed after [[!]]: [err.message || err], prefixed by the
    name and the plugin when the warning has them. *)
Definition describe (err : RollupWarning) : string :=
  let description := if (message err =? "")%string then toString err else message err in
  let description :=
    if Js.truthy (name err) then Js.tpl (name err) +:+ ": " +:+ description else description in
  if Js.truthy (plugin err)
  then "(plugin " +:+ Js.tpl (plugin err) +:+ ") " +:+ description
  else description.

Definition when (b : bool) (m : M unit) : M unit := if b then m else ret tt.

Definition handleRollupError (err : RollupWarning) (fatal : bool) : M unit :=
  (console_error (chalk_bold (chalk_red ("[!] " +:+ chalk_bold (describe err)))) ;;;
   when (Js.truthy (url err)) (console_error (chalk_cyan (Js.tpl (url err)))) ;;;
   match loc err with
   | Some l =>
       console_error
         (Js.tpl (relativeId <$> Js.or_else (file l) (id err)) +:+
          " (" +:+ pretty (line l) +:+ ":" +:+ pretty (column l) +:+ ")")
   | None => when (Js.truthy (id err)) (console_error (relativeId (Js.tpl (id err))))
   end ;;;
   when (Js.truthy (frame err)) (console_error (chalk_dim (Js.tpl (frame err)))) ;;;
   console_error "" ;;;
   if fatal then exit 1 else ret tt)%M.

Definition code_is (w : RollupWarning) (c : string) : bool :=
  match code w with Some c' => (c' =? c)%string | None => false end.

(** The [onwarn] option of both [rollup] calls. *)
Definition onwarn (warning : RollupWarning) : M unit :=
  if code_is warning "CIRCULAR_DEPENDENCY" || code_is warning "THIS_IS_UNDEFINED" then ret tt
  else if code_is warning "NON_EXISTENT_EXPORT" then handleRollupError warning true
  else if code_is warning "UNRESOLVED_IMPORT" then
    handleRollupError
      (set_message warning
         ("'" +:+ Js.tpl (source warning) +:+ "' is imported by " +:+
          Js.tpl (importer warning) +:+ ", but could not be resolved"))
      true
  else
    handleRollupError
      (set_message warning ("Rollup Bundler Warning: " +:+ message warning)) false.

End WithPath.

(** The name and plugin that [describe] puts before a message. *)
Definition label (w : RollupWarning) : string :=
  (if Js.truthy (plugin w) then "(plugin " +:+ Js.tpl (plugin w) +:+ ") " else "") +:+
  (if Js.truthy (name w) then Js.tpl (name w) +:+ ": " else "").

(** The codes [onwarn] has a [case] for. *)
Definition known_code (c : option string) : bool :=
  match c with
  | Some c =>
      (c =? "CIRCULAR_DEPENDENCY")%string || (c =? "THIS_IS_UNDEFINED")%string ||
      (c =? "NON_EXISTENT_EXPORT")%string || (c =? "UNRESOLVED_IMPORT")%string
  | None => false
  end.

End Warn.

(** ** The virtual-module resolver: plugin [custom-outsmartly-virtual] *)
Module Resolve.

Definition SUPPORTED_EXTENSIONS : list string :=
  [".js"; ".jsx"; ".mjs"; ".mjsx"; ".cjs"; ".cjsx"; ".ts"; ".tsx"].

Section WithVfs.
Context `{PathOps} {V : Type}.
Variable vfsForRollup : gmap string V.

(** [k in vfsForRollup]. *)
Definition in_vfs (k : string) : bool := Js.has vfsForRollup k.

(** The [for (const ext of SUPPORTED_EXTENSIONS)] loop of [resolveId]. *)
Fixpoint probe (resolved name : string) (exts : list string) : option string :=
  match exts with
  | [] => None
  | ext :: rest =>
      if in_vfs (resolved +:+ ext) then Some (resolved +:+ ext)
      else
        let indexNamed := path_join resolved ("index" +:+ ext) in
        if in_vfs indexNamed then Some indexNamed
        else
          let doubleNamed := path_join resolved (name +:+ ext) in
          if in_vfs doubleNamed then Some doubleNamed
          else probe resolved name rest
  end.

(** [path.relative(process.cwd(), path.resolve(path.dirname(importer), id))]. *)
Definition resolved_of (id importer : string) : string :=
  path_relative process_cwd (path_resolve (path_dirname importer) id).

(** [resolveId(id, importer)]; [None] is the hook returning [undefined]. *)
Definition resolveId (id : string) (importer : option string) : option string :=
  if in_vfs id then Some id
  else if Js.starts_slash_or_dot id && Js.truthy importer then
    let name := path_parse_name id in
    let resolved := resolved_of id (Js.tpl importer) in
    if in_vfs resolved then Some resolved
    else probe resolved name SUPPORTED_EXTENSIONS
  else None.

(** [load(id)]: [vfsForRollup[id]]. *)
Definition load (id : string) : Js.Lookup V := Js.get vfsForRollup id.

(** The candidates of the loop in the order the code tries them. *)
Definition code_candidates (resolved name : string) (exts : list string) : list string :=
  flat_map
    (fun ext => [resolved +:+ ext;
                 path_join resolved ("index" +:+ ext);
                 path_join resolved (name +:+ ext)])
    exts.

(** The order the specification words: the bare path with each extension,
    then [path/index.<ext>], then [path/<basename>.<ext>]. *)
Definition spec_candidates (resolved name : string) (exts : list string) : list string :=
  map (fun ext => resolved +:+ ext) exts ++
  map (fun ext => path_join resolved ("index" +:+ ext)) exts ++
  map (fun ext => path_join resolved (name +:+ ext)) exts.

(** The virtual file system contains [k], as the specification has it: the
    path is one of its entries. *)
Definition contains (k : string) : bool := bool_decide (is_Some (vfsForRollup !! k)).

(** The resolver as the specification words it. *)
Definition resolveId_spec (id : string) (importer : option string) : option string :=
  if contains id then Some id
  else if Js.starts_slash_or_dot id && Js.truthy importer then
    find contains
      (resolved_of id (Js.tpl importer) ::
       spec_candidates (resolved_of id (Js.tpl importer)) (path_parse_name id)
         SUPPORTED_EXTENSIONS)
  else None.

End WithVfs.
End Resolve.

(** ** The analysis assembler: [Deploy.bundleAnalysis] *)
Module Assemble.

(** The three [fs] calls of the function; the last two throw. *)
Class FileSystem := {
  existsSync : string -> bool;
  readdirSync : string -> JsError + list string;
  readFileSync : string -> JsError + string   (* with encoding 'utf-8' *)
}.

(** A component descriptor, by the fields the code reads, with the types
    the interface [ComponentAnalysis] gives them: [scope] and [filename]
    are strings, [moduleThunkRaw] is a string or is missing ([None]);
    [rest] stands for the other fields, none of which is named
    [__proto__].  Descriptors of another shape are outside the model.
    [moduleThunkRaw] is also [None] once the code has set it to [null]. *)
Record ComponentAnalysis := {
  scope : string;
  filename : string;
  moduleThunkRaw : option string;
  rest : string }.

(** The returned object, each dictionary by its own properties. *)
Record Analysis := {
  components : gmap string ComponentAnalysis;
  vfs : gmap string string }.

Definition empty_analysis : Analysis := {| components := ∅; vfs := ∅ |}.

(** [entry.source] of an asset: [string | Uint8Array]. *)
Inductive AssetSource :=
| SourceString (s : string)
| SourceBytes (bytes : list Z).

(** An element of [output], by its [type]. *)
Inductive OutputEntry :=
| chunk (fileName code : string)
| asset (fileName : string) (source : AssetSource)
| unhandled (type : string).

Definition lift {A} (r : JsError + A) : M A :=
  match r with inl e => throw e | inr a => ret a end.

(** The accumulators of the descriptor loop. *)
Record Acc := {
  input : gmap string string;
  vfsForRollup : gmap string (option string);
  acc_components : gmap string ComponentAnalysis;
  hasAnalysis : bool }.

Definition nl : string := String "010" "".

Definition not_serializable (fileName : string) : string :=
  "Unable to bundle this project's analysis results due to a dependency of your component that is not currently serializable."
  +:+ nl +:+
  "Feel free to reach out to discuss, if you think this is a mistake or you want support!"
  +:+ nl +:+ nl +:+ "Asset: " +:+ fileName.

(** [content.slice(0, content.indexOf('\n'))]: without a newline the index
    is [-1] and the slice drops the last character. *)
Definition firstLine (content : string) : string :=
  Js.slice content 0 (Js.indexOf content "010").

Section WithEnv.
Context `{PathOps} `{FileSystem}.
(** [JSON.parse] followed by the reads of [scope], [filename] and
    [moduleThunkRaw]; an error is a [SyntaxError] of the parser or the
    [TypeError] of [filename.slice] on a descriptor without file name. *)
Variable JSON_parse : string -> JsError + ComponentAnalysis.
(** [rollup({ input, ... })] and [bundle.generate(...)] with the plugins
    and [onwarn] of the source: the entries of [output], a thrown error, or
    the process exit of a warning that [onwarn] makes fatal. *)
Variable rollup_generate :
  gmap string string -> gmap string (option string) -> M (list OutputEntry).

(** The body of the loop over [modules/]. *)
Definition read_module (dependenciesDir : string)
    (vfsForRollup : gmap string (option string)) (filename : string)
  : M (gmap string (option string)) :=
  (content <- lift (readFileSync (path_join dependenciesDir filename)) ;;
   let indexOfFirstNewline := Js.indexOf content "010" in
   match Js.match_path_comment (firstLine content) with
   | None => throw (Error ("Malformed path for module: " +:+ firstLine content))
   | Some originalRelativePath =>
       if Js.startsWith originalRelativePath "node_modules/" then ret vfsForRollup
       else
         let originalModuleContent := Js.slice_from content (indexOfFirstNewline + 1) in
         ret (Js.assign vfsForRollup originalRelativePath (Some originalModuleContent))
   end)%M.

Fixpoint read_modules (dependenciesDir : string) (filenames : list string)
    (vfsForRollup : gmap string (option string)) : M (gmap string (option string)) :=
  match filenames with
  | [] => ret vfsForRollup
  | filename :: more =>
      (v <- read_module dependenciesDir vfsForRollup filename ;;
       read_modules dependenciesDir more v)%M
  end.

(** The [if (fs.existsSync(dependenciesDir))] block. *)
Definition read_all_modules (dependenciesDir : string) : M (gmap string (option string)) :=
  if existsSync dependenciesDir
  then (filenames <- lift (readdirSync dependenciesDir) ;;
        read_modules dependenciesDir filenames ∅)%M
  else ret ∅.

(** [component.moduleThunkRaw = null]. *)
Definition clear_thunk (c : ComponentAnalysis) : ComponentAnalysis :=
  {| scope := scope c; filename := filename c; moduleThunkRaw := None; rest := rest c |}.

(** The body of the loop over the entries of the analysis directory. *)
Definition read_component (analysisDir : string) (acc : Acc) (filePath : string) : M Acc :=
  if Js.endsWith filePath ".json" then
    (content <- lift (readFileSync (path_join analysisDir filePath)) ;;
     component <- lift (JSON_parse content) ;;
     let virtualFilePath := filename component in
     let filenameWithOutExt :=
       Js.slice (filename component) 0 (Js.lastIndexOf (filename component) ".") in
     ret {| input := Js.assign (input acc) filenameWithOutExt (filename component);
            vfsForRollup :=
              Js.assign (vfsForRollup acc) virtualFilePath (moduleThunkRaw component);
            acc_components :=
              Js.assign (acc_components acc) (scope component) (clear_thunk component);
            hasAnalysis := true |})%M
  else ret acc.

Fixpoint read_components (analysisDir : string) (filePaths : list string) (acc : Acc) : M Acc :=
  match filePaths with
  | [] => ret acc
  | filePath :: more =>
      (a <- read_component analysisDir acc filePath ;;
       read_components analysisDir more a)%M
  end.

(** The loop over [output]. *)
Fixpoint collect (output : list OutputEntry) (vfs : gmap string string) : M (gmap string string) :=
  match output with
  | [] => ret vfs
  | chunk fileName code :: more => collect more (Js.assign vfs fileName code)
  | asset fileName (SourceString s) :: more => collect more (Js.assign vfs fileName s)
  | asset fileName (SourceBytes _) :: _ => throw (Error (not_serializable fileName))
  | unhandled type :: _ =>
      throw (Error ("Unhandled rollup chunk entry type " +:+ type +:+
                    ". This is a bug with Outsmartly."))
  end.

(** The [try] block. *)
Definition bundleAnalysis_try (tmpDir : string) : M Analysis :=
  (let analysisDir := path_join tmpDir "analysis" in
   componentAnalysisFilePaths <- lift (readdirSync analysisDir) ;;
   vfsForRollup <- read_all_modules (path_join analysisDir "modules") ;;
   acc <- read_components analysisDir componentAnalysisFilePaths
            {| input := ∅; vfsForRollup := vfsForRollup;
               acc_components := ∅; hasAnalysis := false |} ;;
   if negb (hasAnalysis acc) then ret empty_analysis
   else
     output <- (([RollupCall (input acc)], Ret tt) ;;;
                rollup_generate (input acc) (Assemble.vfsForRollup acc)) ;;
     vfs <- collect output ∅ ;;
     ret {| components := acc_components acc; vfs := vfs |})%M.

Definition unexpected (tmpDir : string) : JsError :=
  Error ("Unexpected analysis results in " +:+ tmpDir +:+ ".").

(** The [catch] block: [console.error(e)], then the replacement error. *)
Definition bundleAnalysis_catch (tmpDir : string) (e : JsError) : M Analysis :=
  ([ConsoleErrorObj e], Throw (unexpected tmpDir)).

Definition bundleAnalysis (tmpDir : string) : M Analysis :=
  if negb (existsSync tmpDir) then ret empty_analysis
  else try_catch (bundleAnalysis_try tmpDir) (bundleAnalysis_catch tmpDir).

End WithEnv.

(** A file system without links, for concrete cases: its nodes by their
    absolute path ([/] for the root), and the working directory. *)
Inductive Node :=
| FileNode (content : string)
| DirNode (entries : list string).

(** What the resolution of a path ends in. *)
Inductive Found :=
| FoundNode (n : Node)
| NoEntry         (* ENOENT *)
| NotDirectory.   (* ENOTDIR *)

(** The path of the directory reached, from its components, innermost first. *)
Definition node_key (stack : list string) : string :=
  "/" +:+ String.concat "/" (rev stack).

Definition node_at (nodes : list (string * Node)) (stack : list string) : option Node :=
  snd <$> find (fun kv => (fst kv =? node_key stack)%string) nodes.

(** Path resolution, component by component: a component is looked up in
    a directory only, [..] leads to the parent, and the root is its own. *)
Fixpoint walk (nodes : list (string * Node)) (segs stack : list string) (here : Node) : Found :=
  match segs with
  | [] => FoundNode here
  | seg :: rest =>
      match here with
      | FileNode _ => NotDirectory
      | DirNode _ =>
          if (seg =? "")%string || (seg =? ".")%string then walk nodes rest stack here
          else
            let stack' := if (seg =? "..")%string then tl stack else seg :: stack in
            match node_at nodes stack' with
            | Some n => walk nodes rest stack' n
            | None => NoEntry
            end
      end
  end.

Definition locate (cwd : string) (nodes : list (string * Node)) (p : string) : Found :=
  if (p =? "")%string then NoEntry else
  let stack := if Posix.isAbsolute p then [] else rev (Posix.segments cwd) in
  match node_at nodes stack with
  | Some n => walk nodes (Posix.split p) stack n
  | None => NoEntry
  end.

Definition fs_of (cwd : string) (nodes : list (string * Node)) : FileSystem := {|
  existsSync p :=
    match locate cwd nodes p with FoundNode _ => true | _ => false end;
  readdirSync p :=
    match locate cwd nodes p with
    | FoundNode (DirNode entries) => inr entries
    | FoundNode (FileNode _) | NotDirectory =>
        inl (Error ("ENOTDIR: not a directory, scandir '" +:+ p +:+ "'"))
    | NoEntry => inl (Error ("ENOENT: no such file or directory, scandir '" +:+ p +:+ "'"))
    end;
  readFileSync p :=
    match locate cwd nodes p with
    | FoundNode (FileNode content) => inr content
    | FoundNode (DirNode _) => inl (Error "EISDIR: illegal operation on a directory, read")
    | NotDirectory => inl (Error ("ENOTDIR: not a directory, open '" +:+ p +:+ "'"))
    | NoEntry => inl (Error ("ENOENT: no such file or directory, open '" +:+ p +:+ "'"))
    end |}.

End Assemble.

(** ** The configuration evaluator: the [vm] block of [Deploy.deploy] *)
Module Evaluate.

(** The values a field of the exported object is modelled to hold. *)
Inductive JsVal :=
| JUndefined
| JNull
| JBool (b : bool)
| JNum (n : Z)
| JStr (s : string).

#[global] Instance JsVal_eq_dec : EqDecision JsVal.
Proof. solve_decision. Defined.

Definition truthy (v : JsVal) : bool :=
  match v with
  | JUndefined | JNull => false
  | JBool b => b
  | JNum n => negb (n =? 0)
  | JStr s => negb (s =? "")%string
  end.

(** [module.exports.default], by the two fields the code reads; a field
    the object does not have is [JUndefined]. *)
Record DefaultExport := { host : JsVal; tmpDir : JsVal }.

Definition wrap (code : string) : string :=
  "(function (module, exports) { " +:+ code +:+ " });".

Definition no_default : JsError :=
  mkError "TypeError" "Cannot destructure property 'host' of 'module.exports.default' as it is undefined.".

Section WithVm.
(** [vm.runInNewContext(source, context, { filename })], the call of the
    function it returns on a fresh [module], and the read of
    [module.exports.default]: [None] when nothing was exported as default,
    an error when the evaluated code throws. *)
Variable runInNewContext : string -> string -> JsError + option DefaultExport.

(** From [const context] to the [host] check: the pair [(host, tmpDir)]. *)
Definition evaluate (code configPath : string) : JsError + (JsVal * JsVal) :=
  match runInNewContext (wrap code) configPath with
  | inl e => inl e
  | inr None => inl no_default
  | inr (Some d) =>
      let host := host d in
      let tmpDir := match tmpDir d with JUndefined => JStr "./.outsmartly/" | v => v end in
      if negb (truthy host) then inl (Error ("Missing 'host' field in " +:+ configPath))
      else inr (host, tmpDir)
  end.

End WithVm.
End Evaluate.

(** ** The deploy orchestrator: [Deploy.run], the watch handler, [Deploy.deploy]

    [deploy] is an [async] function: it runs until an [await], and goes on
    when the awaited call settles.  A watch event is handled in between.
    The embedding is the transition function of that control flow: a state
    holds the fields of the [Deploy] object and the [await] the attempt is
    suspended at; an event is a file change or the settling of the awaited
    call. *)
Module Orchestrator.
Import Evaluate.

(** What a [catch (e)] of [deploy] tells apart. *)
Inductive Thrown :=
| AbortError
| APIError (errors : list string)
| OtherError (e : JsError).

(** How an awaited call settles; a fatal bundler warning ends the process
    inside the call. *)
Inductive Settled (A : Type) :=
| Resolved (a : A)
| Rejected (e : Thrown)
| ProcessExit.
Arguments Resolved {A} a.
Arguments Rejected {A} e.
Arguments ProcessExit {A}.

(** [new Date(x.updatedAt).getTime()]: [None] is [NaN]. *)
Definition Time : Type := option Z.

(** [a <= b] on the results of [getTime()]: false when either is [NaN]. *)
Definition time_le (a b : Time) : bool :=
  match a, b with
  | Some x, Some y => x <=? y
  | _, _ => false
  end.

Inductive Event :=
| Change                                    (* chokidar's 'change' *)
| Bundled (r : Settled (list string))       (* rollup and generate: the code of each element of output *)
| Assembled (r : Settled Assemble.Analysis) (* bundleAnalysis *)
| Patched (r : Settled Time)                (* patchSite: the deployment's time *)
| Fetched (r : Settled Time)                (* fetchManifest: the manifest's time *)
| Slept.                                    (* the timer of sleep fires *)

(** The [await] an attempt is suspended at, with the locals alive there. *)
Inductive Phase :=
| Idle
| Bundling
| Assembling (code : string) (host : JsVal)
| Uploading (signal : nat) (host : JsVal)
| Fetching (signal : nat) (host : JsVal) (deployTime : Time) (fetchManifestCount : Z)
| Sleeping (signal : nat) (host : JsVal) (deployTime : Time) (fetchManifestCount : Z)
| Exited.

(** Calls and messages of an execution, oldest first. *)
Inductive Obs :=
| DeployCall                                  (* this.deploy(...) is entered *)
| SetupWatchers
| BundleAnalysisCall (tmpDir : JsVal)
| PatchSite (host : JsVal) (configRaw : string) (analysis : Assemble.Analysis) (signal : nat)
| FetchManifest (host : JsVal) (signal : nat)
| Sleep (ms : Z) (signal : nat)
| Deployed (host : JsVal)                     (* spinner.stopAndPersist *)
| DetectedChanges
| WatchingForChanges
| Failed (e : Thrown).                        (* spinner.fail, then panic or handleRollupError *)

(** [abortController] is the identity of the current controller: the
    handler aborts it and installs the next one, so a signal is aborted
    exactly when it is older than the current controller. *)
Record State := {
  phase : Phase;
  pendingDeployCount : Z;
  abortController : nat;
  watcher : bool;
  trace : list Obs }.

Definition set_phase (p : Phase) (s : State) : State :=
  {| phase := p; pendingDeployCount := pendingDeployCount s;
     abortController := abortController s; watcher := watcher s; trace := trace s |}.

Definition set_pending (n : Z) (s : State) : State :=
  {| phase := phase s; pendingDeployCount := n;
     abortController := abortController s; watcher := watcher s; trace := trace s |}.

Definition log (o : list Obs) (s : State) : State :=
  {| phase := phase s; pendingDeployCount := pendingDeployCount s;
     abortController := abortController s; watcher := watcher s; trace := trace s ++ o |}.

(** [this.abortController.abort(); this.abortController = new AbortController()]. *)
Definition swap_controller (s : State) : State :=
  {| phase := phase s; pendingDeployCount := pendingDeployCount s;
     abortController := S (abortController s); watcher := watcher s; trace := trace s |}.

(** How an attempt ends when it ends without ending the process. *)
Inductive Ending :=
| Success        (* the loop was left by [break] *)
| GuardedAbort   (* one of the three [return]s under [pendingDeployCount > 1] *)
| Aborted.       (* an [AbortError] was caught *)

Inductive Status :=
| Suspended                 (* at an [await], or nothing to run *)
| Completed (how : Ending)  (* the [try] or the [catch] block returned *)
| Fatal.                    (* the [catch] block ended the process *)

(** [this.deploy(...)] from its call to its first [await]. *)
Definition deploy_enter (s : State) : State := set_phase Bundling (log [DeployCall] s).

(** The [finally] block. *)
Definition finally_ (s : State) : State :=
  if pendingDeployCount s >? 1 then deploy_enter (set_pending 1 s)
  else
    let s := set_phase Idle (set_pending 0 s) in
    if watcher s then log [WatchingForChanges] s else s.

(** Modelled from the spec: [panic] of ../panic, which is not among the
    sources, reports its argument and terminates the process, as
    [handleRollupError(e, true)] does; so the [catch] block returns for an
    [AbortError] and ends the process for every other value. *)
Definition catch_ (e : Thrown) (s : State) : State * Status :=
  match e with
  | AbortError => (s, Completed Aborted)
  | _ => (log [Failed e] s, Fatal)
  end.

(** [rollupOutsmartlyConfigFile] once [rollup] and [bundle.generate] have
    settled: the chunk when output has one element, an error otherwise. *)
Definition rollupOutsmartlyConfigFile (generated : Settled (list string)) : Settled string :=
  match generated with
  | Resolved [code] => Resolved code
  | Resolved output =>
      Rejected
        (OtherError
           (Error ("Rollup generate() returned " +:+ pretty (Z.of_nat (length output)) +:+
                   " assets, but we expected only 1.")))
  | Rejected e => Rejected e
  | ProcessExit => ProcessExit
  end.

Section WithConfig.
Variable runInNewContext : string -> string -> JsError + option DefaultExport.
Variable configPath : string.

(** After [await rollupOutsmartlyConfigFile]: the watchers, the first
    guard, the evaluation of the chunk, the call of [bundleAnalysis]. *)
Definition after_bundle (code : string) (s : State) : State * Status :=
  let s := if watcher s then log [SetupWatchers] s else s in
  if pendingDeployCount s >? 1 then (s, Completed GuardedAbort)
  else
    match evaluate runInNewContext code configPath with
    | inl e => catch_ (OtherError e) s
    | inr (host, tmpDir) =>
        (set_phase (Assembling code host) (log [BundleAnalysisCall tmpDir] s), Suspended)
    end.

(** After [await this.bundleAnalysis]: the call of [patchSite]. *)
Definition after_assemble (code : string) (host : JsVal) (analysis : Assemble.Analysis)
    (s : State) : State * Status :=
  (set_phase (Uploading (abortController s) host)
     (log [PatchSite host code analysis (abortController s)] s), Suspended).

(** One turn of [while (true)] up to [await this.fetchManifest]. *)
Definition poll (host : JsVal) (deployTime : Time) (fetchManifestCount : Z) (s : State)
  : State * Status :=
  if pendingDeployCount s >? 1 then (s, Completed GuardedAbort)
  else
    (set_phase (Fetching (abortController s) host deployTime (fetchManifestCount + 1))
       (log [FetchManifest host (abortController s)] s), Suspended).

(** After [await patchSite]: the second guard, then the loop. *)
Definition after_patch (host : JsVal) (deployTime : Time) (s : State) : State * Status :=
  if pendingDeployCount s >? 1 then (s, Completed GuardedAbort)
  else poll host deployTime 0 s.

(** After [await this.fetchManifest]: [break], or the call of [sleep]. *)
Definition after_fetch (host : JsVal) (deployTime : Time) (fetchManifestCount : Z)
    (lastUpdatedTime : Time) (s : State) : State * Status :=
  if time_le deployTime lastUpdatedTime then (log [Deployed host] s, Completed Success)
  else
    (set_phase (Sleeping (abortController s) host deployTime fetchManifestCount)
       (log [Sleep (1000 * fetchManifestCount) (abortController s)] s), Suspended).

Definition settle {A} (r : Settled A) (k : A -> State -> State * Status) (s : State)
  : State * Status :=
  match r with
  | Resolved a => k a s
  | Rejected e => catch_ e s
  | ProcessExit => (s, Fatal)
  end.

(** The body of the watch handler up to its [return] or its call of [deploy]. *)
Definition onChange (s : State) : State :=
  let s := log [DetectedChanges] (set_pending (pendingDeployCount s + 1) s) in
  if pendingDeployCount s >? 1 then swap_controller s else deploy_enter s.

(** The [abort] listener of [sleep]: a pending sleep whose signal was just
    aborted rejects with an [AbortError]. *)
Definition abort_sleep (s : State) : State * Status :=
  match phase s with
  | Sleeping signal _ _ _ =>
      if (signal <? abortController s)%nat then catch_ AbortError s else (s, Suspended)
  | _ => (s, Suspended)
  end.

(** The [try] and [catch] blocks from one event to the next [await]. *)
Definition resume (s : State) (ev : Event) : State * Status :=
  match phase s, ev with
  | Exited, _ => (s, Suspended)
  | _, Change => if watcher s then abort_sleep (onChange s) else (s, Suspended)
  | Bundling, Bundled r => settle (rollupOutsmartlyConfigFile r) after_bundle s
  | Assembling code host, Assembled r => settle r (after_assemble code host) s
  | Uploading _ host, Patched r => settle r (after_patch host) s
  | Fetching _ host deployTime n, Fetched r => settle r (after_fetch host deployTime n) s
  | Sleeping _ host deployTime n, Slept => poll host deployTime n s
  | _, _ => (s, Suspended)
  end.

(** [try], [catch] and [finally]. *)
Definition step (s : State) (ev : Event) : State :=
  match resume s ev with
  | (s', Suspended) => s'
  | (s', Completed _) => finally_ s'
  | (s', Fatal) => set_phase Exited s'
  end.

Definition exec (evs : list Event) (s : State) : State := fold_left step evs s.

End WithConfig.

Definition init : State :=
  {| phase := Idle; pendingDeployCount := 0; abortController := 0%nat;
     watcher := false; trace := [] |}.

(** [Deploy.run] once the token and the configuration path are found: the
    watcher (under [--watch]), the increment, the first [deploy]. *)
Definition run (watch : bool) : State :=
  deploy_enter
    {| phase := Idle; pendingDeployCount := pendingDeployCount init + 1;
       abortController := abortController init; watcher := watch; trace := [] |}.

Definition is_deploy_call (o : Obs) : bool :=
  match o with DeployCall => true | _ => false end.

Definition is_upload (o : Obs) : bool :=
  match o with PatchSite _ _ _ _ => true | _ => false end.

Definition is_fetch (o : Obs) : bool :=
  match o with FetchManifest _ _ => true | _ => false end.

(** The attempts started so far. *)
Definition deployCalls (s : State) : nat := length (List.filter is_deploy_call (trace s)).

(** The upload calls made so far. *)
Definition uploads (s : State) : nat := length (List.filter is_upload (trace s)).

Definition fetches (s : State) : nat := length (List.filter is_fetch (trace s)).

Definition in_flight (s : State) : bool :=
  match phase s with Idle | Exited => false | _ => true end.

Definition is_change (ev : Event) : bool :=
  match ev with Change => true | _ => false end.

(** The states of an execution of [run]. *)
Inductive reachable (runInNewContext : string -> string -> JsError + option DefaultExport)
    (configPath : string) : State -> Prop :=
| reach_run (watch : bool) : reachable runInNewContext configPath (run watch)
| reach_step (s : State) (ev : Event) :
    reachable runInNewContext configPath s ->
    reachable runInNewContext configPath (step runInNewContext configPath s ev).

(** An execution that, left without further file changes, has made [n]
    attempts when it comes to rest: it is over, or at rest after [n]
    attempts, or in its [n]-th attempt with nothing pending, or in the
    attempt before with a change pending. *)
Definition settles_to (n : nat) (s : State) : Prop :=
  phase s = Exited \/
  (phase s = Idle /\ pendingDeployCount s = 0 /\ deployCalls s = n) \/
  (in_flight s = true /\ pendingDeployCount s = 1 /\ deployCalls s = n) \/
  (in_flight s = true /\ pendingDeployCount s > 1 /\ S (deployCalls s) = n).

Definition no_change (evs : list Event) : bool :=
  forallb (fun ev => negb (is_change ev)) evs.

(** The events of a poll: each manifest of [reads] is fetched and slept
    on, then [last] is fetched. *)
Definition poll_events (reads : list Time) (last : Time) : list Event :=
  flat_map (fun t => [Fetched (Resolved t); Slept]) reads ++ [Fetched (Resolved last)].

(** What a poll does for [reads]: after the [n]-th fetch a sleep of [n]
    seconds, then the next fetch. *)
Fixpoint backoff (host : JsVal) (signal : nat) (n : Z) (reads : list Time) : list Obs :=
  match reads with
  | [] => []
  | _ :: more =>
      Sleep (1000 * n) signal :: FetchManifest host signal :: backoff host signal (n + 1) more
  end.

(** Each attempt has at most one upload call, and none while it bundles or
    assembles. *)
Definition one_upload_each (s : State) : Prop :=
  match phase s with
  | Bundling | Assembling _ _ => (uploads s < deployCalls s)%nat
  | _ => (uploads s <= deployCalls s)%nat
  end.

(** A trace in which no attempt uploads twice: read from the oldest
    observation on, with [uploaded] telling whether the attempt at hand has
    made its upload call; a [DeployCall] starts the next attempt. *)
Fixpoint single_upload (uploaded : bool) (tr : list Obs) : bool :=
  match tr with
  | [] => true
  | o :: more =>
      if is_deploy_call o then single_upload false more
      else if is_upload o then negb uploaded && single_upload true more
      else single_upload uploaded more
  end.

(** Whether the attempt at hand at the end of [tr] has made its upload call. *)
Fixpoint uploaded_after (uploaded : bool) (tr : list Obs) : bool :=
  match tr with
  | [] => uploaded
  | o :: more =>
      uploaded_after
        (if is_deploy_call o then false else if is_upload o then true else uploaded) more
  end.

(** No attempt has uploaded twice, and the current one has not uploaded
    while it bundles or assembles. *)
Definition uploads_once (s : State) : Prop :=
  single_upload false (trace s) = true /\
  match phase s with
  | Bundling | Assembling _ _ => uploaded_after false (trace s) = false
  | _ => True
  end.

(** A sleep that is pending holds the signal of the current controller. *)
Definition sleep_signal_live (s : State) : Prop :=
  match phase s with
  | Sleeping signal _ _ _ => signal = abortController s
  | _ => True
  end.

End Orchestrator.


(** ** Concrete cases *)
Module Cases.

(** The working directory of the concrete cases. *)
Definition cwd : string := "/home/dev/site".

Definition posix : PathOps := Posix.ops cwd.

(** The project directory with [entries], and [nodes] below it. *)
Definition site (entries : list string) (nodes : list (string * Assemble.Node))
  : Assemble.FileSystem :=
  Assemble.fs_of cwd
    ([("/", Assemble.DirNode ["home"]);
      ("/home", Assemble.DirNode ["dev"]);
      ("/home/dev", Assemble.DirNode ["site"]);
      ("/home/dev/site", Assemble.DirNode entries)] ++ nodes).

(** A warning about an export that does not exist, as the engine words it. *)
Definition missing_export : Warn.RollupWarning := {|
  Warn.code := Some "NON_EXISTENT_EXPORT";
  Warn.message := "Non-existent export 'Card' is imported from components/ui.js";
  Warn.name := None; Warn.plugin := None; Warn.url := None; Warn.loc := None;
  Warn.id := None; Warn.frame := None;
  Warn.source := Some "./ui"; Warn.importer := Some "pages/home.js" |}.

Definition unresolved_import : Warn.RollupWarning := {|
  Warn.code := Some "UNRESOLVED_IMPORT";
  Warn.message := "'./ui' is imported by pages/home.js, but could not be resolved - treating it as an external dependency";
  Warn.name := None; Warn.plugin := None; Warn.url := None; Warn.loc := None;
  Warn.id := None; Warn.frame := None;
  Warn.source := Some "./ui"; Warn.importer := Some "pages/home.js" |}.

End Cases.

Module ResolveCases.

(** The virtual file system of the two imports [./Foo] and [./Bar]. *)
Definition vfs_foo_bar : gmap string string :=
  <["components/Foo.tsx" := "export const Foo = 1;"]>
    (<["components/Bar/index.ts" := "export const Bar = 2;"]> ∅).


(** The importing module, in [components/]. *)
Definition importer : option string := Some "components/App.tsx".

End ResolveCases.

Module EvaluateCases.
Import Evaluate.

(** [export default { host: '' }]. *)
Definition exports_empty_host (source filename : string) : JsError + option DefaultExport :=
  inr (Some {| host := JStr ""; tmpDir := JUndefined |}).

(** [export default { host: 'shop.example.com' }]. *)
Definition exports_host (source filename : string) : JsError + option DefaultExport :=
  inr (Some {| host := JStr "shop.example.com"; tmpDir := JUndefined |}).

(** [export default { tmpDir: './out/' }]. *)
Definition exports_no_host (source filename : string) : JsError + option DefaultExport :=
  inr (Some {| host := JUndefined; tmpDir := JStr "./out/" |}).

End EvaluateCases.

Module AssembleCases.
Import Assemble.

Definition JSON_parse (content : string) : JsError + ComponentAnalysis :=
  inl (mkError "SyntaxError" "Unexpected end of JSON input").

(** A bundler that emits one chunk per entry would do; none is needed. *)
Definition rollup_generate (input : gmap string string)
    (vfsForRollup : gmap string (option string)) : M (list OutputEntry) :=
  ret [].

(** A bundler that fails. *)
Definition rollup_fails (input : gmap string string)
    (vfsForRollup : gmap string (option string)) : M (list OutputEntry) :=
  throw (mkError "Error" "Could not resolve entry module").

(** No [.outsmartly] directory at all. *)
Definition fs_fresh : FileSystem := Cases.site ["package.json"]
  [("/home/dev/site/package.json", FileNode "{}")].

(** [.outsmartly] exists, without an [analysis] directory in it. *)
Definition fs_tmp_only : FileSystem :=
  Cases.site [".outsmartly"]
    [("/home/dev/site/.outsmartly", DirNode ["cache"]);
     ("/home/dev/site/.outsmartly/cache", DirNode [])].

(** No descriptor, and a module snapshot without its header line. *)
Definition fs_bad_module : FileSystem :=
  Cases.site [".outsmartly"]
    [("/home/dev/site/.outsmartly", DirNode ["analysis"]);
     ("/home/dev/site/.outsmartly/analysis", DirNode ["modules"]);
     ("/home/dev/site/.outsmartly/analysis/modules", DirNode ["0.js"]);
     ("/home/dev/site/.outsmartly/analysis/modules/0.js",
      FileNode ("export const a = 1;" +:+ nl))].

(** No descriptor, and two well-formed module snapshots. *)
Definition fs_modules_only : FileSystem :=
  Cases.site [".outsmartly"]
    [("/home/dev/site/.outsmartly", DirNode ["analysis"]);
     ("/home/dev/site/.outsmartly/analysis", DirNode ["modules"]);
     ("/home/dev/site/.outsmartly/analysis/modules", DirNode ["0.js"; "1.js"]);
     ("/home/dev/site/.outsmartly/analysis/modules/0.js",
      FileNode ("// src/util.js" +:+ nl +:+ "export const a = 1;" +:+ nl));
     ("/home/dev/site/.outsmartly/analysis/modules/1.js",
      FileNode ("// node_modules/react/index.js" +:+ nl +:+ "module.exports = {};" +:+ nl))].

Definition tmpDir : string := "./.outsmartly/".

End AssembleCases.

Module DescriptorCases.
Import Assemble.

(** One descriptor, [Hero.json], and no [modules/] directory. *)
Definition fs_component : FileSystem :=
  Cases.site [".outsmartly"]
    [("/home/dev/site/.outsmartly", DirNode ["analysis"]);
     ("/home/dev/site/.outsmartly/analysis", DirNode ["Hero.json"]);
     ("/home/dev/site/.outsmartly/analysis/Hero.json",
      FileNode "{ scope, filename, moduleThunkRaw }")].

Definition hero : ComponentAnalysis := {|
  scope := "a1b2c3";
  filename := "components/Hero.tsx";
  moduleThunkRaw := Some "export default () => null;";
  rest := "" |}.

Definition JSON_parse (content : string) : JsError + ComponentAnalysis := inr hero.

(** A bundler that emits a binary asset. *)
Definition rollup_binary (input : gmap string string)
    (vfsForRollup : gmap string (option string)) : M (list OutputEntry) :=
  ret [chunk "components/Hero.js" "exports.default = () => null;";
       asset "logo.png" (SourceBytes [137; 80; 78; 71])].

End DescriptorCases.

Module OrchestratorCases.
Import Evaluate Orchestrator.

Definition configPath : string := "/home/dev/site/outsmartly.config.js".

Definition host : JsVal := JStr "shop.example.com".

(** The bundle of a configuration that exports [host]. *)
Definition bundled : Event :=
  Bundled (Resolved ["exports.default = { host: 'shop.example.com' };"]).

Definition assembled : Event := Assembled (Resolved Assemble.empty_analysis).

(** An execution under [--watch] in which the file changes while the
    analysis is assembled. *)
Definition change_while_assembling : list Event := [bundled; Change; assembled].

(** The first attempt up to its upload call, without [--watch]. *)
Definition uploading : State :=
  exec EvaluateCases.exports_host configPath [bundled; assembled] (run false).

(** What follows the change of [change_while_assembling] when no other
    change arrives: the upload returns, the second attempt runs and its
    deployment is confirmed at the first fetch. *)
Definition second_attempt : list Event :=
  [assembled; Patched (Resolved (Some 1700000000000));
   bundled; assembled; Patched (Resolved (Some 1700000060000));
   Fetched (Resolved (Some 1700000060000))].

End OrchestratorCases.

(** ** The configuration path and the access token:
    [Deploy.findOutsmartlyConfigPath] and [Deploy.findBearerToken] *)
Module Config.

(** [a ?? b] on values that are strings or [undefined]. *)
Definition nullish_or (a b : option string) : option string :=
  match a with Some _ => a | None => b end.

Definition invalid_token : string :=
  "That doesn't seem to be a valid access token. If you're having trouble, contact support@outsmartly.com.".

(** The [validate] option of the prompt: it throws the string
    [invalid_token], or returns [true]. *)
Definition validate (bearerToken : option string) : string + bool :=
  if negb (Js.truthy bearerToken) || (Js.len (Js.tpl bearerToken) <? 36)
  then inl invalid_token
  else inr true.

(** What [findBearerToken] does besides computing the token. *)
Inductive Io :=
| Prompt                                       (* prompt({ ... }) *)
| OutputFile (path : string) (data : string)   (* fs.outputFileSync(path, data) *)
| Print (line : string)                        (* console.error of a string *)
| PrintError (e : JsError).                    (* console.error(e) *)

Definition dq : string := String (ascii_of_nat 34) EmptyString.

Section WithEnv.
Context `{PathOps} `{Assemble.FileSystem}.

(** [path.resolve(process.cwd(), `outsmartly.config${ext}`)]. *)
Definition config_candidate (ext : string) : string :=
  path_resolve process_cwd ("outsmartly.config" +:+ ext).

(** The [for (const ext of SUPPORTED_EXTENSIONS)] loop. *)
Fixpoint probe_config (exts : list string) : option string :=
  match exts with
  | [] => None
  | ext :: rest =>
      let fullPath := config_candidate ext in
      if Assemble.existsSync fullPath then Some fullPath else probe_config rest
  end.

Definition findOutsmartlyConfigPath (customConfigPath : option string) : JsError + string :=
  if Js.truthy customConfigPath then
    let fullPath := path_resolve process_cwd (Js.tpl customConfigPath) in
    if negb (Assemble.existsSync fullPath) then
      inl (Error ("No config file could be found at the provided custom path: " +:+
                  Js.tpl customConfigPath))
    else inr fullPath
  else
    match probe_config Resolve.SUPPORTED_EXTENSIONS with
    | Some fullPath => inr fullPath
    | None =>
        inl (Error ("No Outsmartly config file could be found at " +:+
                    path_resolve process_cwd "outsmartly.config.js"))
    end.

(** [os.homedir()]. *)
Variable homedir : string.
(** [JSON.stringify] of a string: the quoted, escaped literal. *)
Variable JSON_string : string -> string.
(** What [fs.outputFileSync] does with the file: [Some e] when it throws. *)
Variable outputFileSync : string -> string -> option JsError.

(** [path.join(os.homedir(), '.config', 'outsmartly', 'config.json')]. *)
Definition configFilePath : string :=
  path_join (path_join (path_join homedir ".config") "outsmartly") "config.json".

(** [JSON.stringify({ cli: { bearerToken } }, null, 2)]. *)
Definition config_json (bearerToken : string) : string :=
  "{" +:+ Assemble.nl +:+
  "  " +:+ dq +:+ "cli" +:+ dq +:+ ": {" +:+ Assemble.nl +:+
  "    " +:+ dq +:+ "bearerToken" +:+ dq +:+ ": " +:+ JSON_string bearerToken +:+ Assemble.nl +:+
  "  }" +:+ Assemble.nl +:+
  "}".

(** [findBearerToken(flags)] for [flags.token = token], the environment
    variable [OUTSMARTLY_TOKEN = env], and [answer] the text the prompt
    returns when it is shown. *)
Definition findBearerToken (token env : option string) (answer : string)
  : list Io * string :=
  let bearerToken := nullish_or token env in
  if negb (Js.truthy bearerToken) then
    let bearerToken := answer in
    let json := config_json bearerToken in
    match outputFileSync configFilePath json with
    | None => ([Prompt; OutputFile configFilePath json], bearerToken)
    | Some e =>
        ([Prompt; OutputFile configFilePath json;
          Print ("Unable to write outsmartly configuration file to: " +:+ configFilePath);
          PrintError e], bearerToken)
    end
  else ([], Js.tpl bearerToken).

End WithEnv.
End Config.

(** ** The watched files: [Deploy.setupWatchers] *)
Module Watchers.

(** [watchedFiles] is the field of [Deploy]; [watched] is the set of paths
    the [FSWatcher] watches: [add] puts a path in, [unwatch] takes it out. *)
Record State := {
  watchedFiles : gset string;
  watched : gset string }.

(** The loop over [this.cache.modules], on the field, the copy
    [prevWatchedFiles] and the watcher. *)
Fixpoint add_modules (modules : list string) (watchedFiles prevWatchedFiles watched : gset string)
  : gset string * gset string * gset string :=
  match modules with
  | [] => (watchedFiles, prevWatchedFiles, watched)
  | id :: more =>
      add_modules more ({[id]} ∪ watchedFiles) (prevWatchedFiles ∖ {[id]}) ({[id]} ∪ watched)
  end.

(** The loop over what is left of [prevWatchedFiles]. *)
Definition unwatch_all (filePaths : list string) (watched : gset string) : gset string :=
  fold_left (fun w filePath => w ∖ {[filePath]}) filePaths watched.

(** [setupWatchers()] for [this.cache.modules] with the ids [modules]. *)
Definition setupWatchers (modules : list string) (s : State) : State :=
  let '(watchedFiles, prevWatchedFiles, watched) :=
    add_modules modules (watchedFiles s) (watchedFiles s) (watched s) in
  {| watchedFiles := watchedFiles;
     watched := unwatch_all (elements prevWatchedFiles) watched |}.

(** The bundling passes of an execution, from the state [run] leaves:
    nothing recorded, and [initial] watched. *)
Definition passes (initial : gset string) (bundles : list (list string)) : State :=
  fold_left (fun s modules => setupWatchers modules s) bundles
    {| watchedFiles := ∅; watched := initial |}.

End Watchers.

(** ** The cancellable timer: [sleep] *)
Module Sleep.

Inductive Event :=
| TimerFired       (* the callback of [setTimeout] is due *)
| AbortSignalled.  (* [abort()] is called on the controller of the signal *)

Inductive Settlement :=
| Fulfilled
| RejectedWith (abortError : string).   (* new AbortError(message) *)

(** The timer (set and not cleared), the [abort] listener (added and not
    removed), and the state of the promise. *)
Record State := {
  timer : bool;
  listener : bool;
  promise : option Settlement }.

(** [resolve()] and [reject(e)] settle a promise that is pending. *)
Definition settle (p : option Settlement) (v : Settlement) : option Settlement :=
  match p with None => Some v | Some _ => p end.


(** The callback of the timer: the listener is removed, the promise resolved. *)
Definition on_timer (s : State) : State :=
  if timer s
  then {| timer := false; listener := false; promise := settle (promise s) Fulfilled |}
  else s.

(** The listener [abort], added with [once]: the timer is cleared, the
    promise rejected. *)
Definition on_abort (s : State) : State :=
  if listener s
  then {| timer := false; listener := false;
          promise := settle (promise s) (RejectedWith "aborting sleep") |}
  else s.

Definition step (s : State) (ev : Event) : State :=
  match ev with
  | TimerFired => on_timer s
  | AbortSignalled => on_abort s
  end.

Definition run (evs : list Event) (s : State) : State := fold_left step evs s.

End Sleep.

Module ConfigCases.
Import Assemble.

(** A project with [outsmartly.config.ts] and [outsmartly.config.js]. *)
Definition fs_ts_and_js : FileSystem :=
  Cases.site ["outsmartly.config.js"; "outsmartly.config.ts"]
    [("/home/dev/site/outsmartly.config.ts", FileNode "export default { host: 'a' };");
     ("/home/dev/site/outsmartly.config.js", FileNode "export default { host: 'b' };")].

(** A project with [outsmartly.config.ts] only. *)
Definition fs_ts : FileSystem :=
  Cases.site ["outsmartly.config.ts"]
    [("/home/dev/site/outsmartly.config.ts", FileNode "export default { host: 'a' };")].

Definition JSON_string (s : string) : string := Config.dq +:+ s +:+ Config.dq.

(** A home directory that cannot be written. *)
Definition read_only (path data : string) : option JsError :=
  Some (Error "EACCES: permission denied").

Definition writable (path data : string) : option JsError := None.

Definition token : string := "0123456789abcdef0123456789abcdef0123".

(** What the user pastes at the prompt. *)
Definition pasted : string := "fedcba9876543210fedcba9876543210fedc".

End ConfigCases.

(** ** Vocabulary of the further properties *)
Module Text.

(** The character [c] does not occur in [s]. *)
Definition absent (c : ascii) (s : string) : bool :=
  forallb (fun a => negb (Ascii.eqb a c)) (list_ascii_of_string s).

End Text.

Module Output.
Import Assemble.

(** An element of [output] that the loop copies: a chunk, or an asset whose
    source is a string. *)
Definition is_text (entry : OutputEntry) : bool :=
  match entry with
  | chunk _ _ | asset _ (SourceString _) => true
  | _ => false
  end.

Definition text_names (output : list OutputEntry) : list string :=
  flat_map (fun entry =>
              match entry with
              | chunk fileName _ | asset fileName _ => [fileName]
              | unhandled _ => []
              end) output.

(** A stored component is filed under its scope and has no raw thunk. *)
Definition stored (k : string) (c : ComponentAnalysis) : Prop :=
  scope c = k /\ moduleThunkRaw c = None.

(** The names under which the loop over [output] makes an entry: the
    assignment under [__proto__] makes none. *)
Definition stored_names (output : list OutputEntry) : list string :=
  List.filter (fun fileName => negb (fileName =? "__proto__")%string) (text_names output).

(** The accumulators of the descriptor loop agree: every entry point
    passes the test [in vfsForRollup], there is no entry point before a
    descriptor is seen, and the components are stored. *)
Definition consistent (acc : Acc) : Prop :=
  (forall k f, input acc !! k = Some f -> Js.has (vfsForRollup acc) f = true) /\
  (hasAnalysis acc = false -> input acc = ∅) /\
  map_Forall stored (acc_components acc).

End Output.

Module OutputCases.
Import Assemble.


(** A snapshot that is a marker line without its newline. *)
Definition fs_no_newline : FileSystem :=
  Cases.site [".outsmartly"]
    [("/home/dev/site/.outsmartly", DirNode ["analysis"]);
     ("/home/dev/site/.outsmartly/analysis", DirNode ["modules"]);
     ("/home/dev/site/.outsmartly/analysis/modules", DirNode ["0.js"]);
     ("/home/dev/site/.outsmartly/analysis/modules/0.js", FileNode "// src/util.js")].

(** A descriptor whose file name is [__proto__.js]. *)
Definition JSON_parse_proto (content : string) : JsError + ComponentAnalysis :=
  inr {| scope := "a1b2c3"; filename := "__proto__.js";
         moduleThunkRaw := Some "export default () => null;"; rest := "" |}.

(** The accumulators before the first descriptor, with one snapshot read. *)
Definition acc0 : Acc := {|
  input := ∅;
  vfsForRollup := {["lib/theme.ts" := Some "export const theme = {};"]};
  acc_components := ∅;
  hasAnalysis := false |}.

(** An output of two chunks and a text asset, one file name emitted twice. *)
Definition output_text : list OutputEntry :=
  [chunk "components/Hero.js" "exports.default = () => null;";
   asset "styles.css" (SourceString "body {}");
   chunk "components/Hero.js" "exports.default = () => 1;"].

End OutputCases.

(** * Part II: properties *)

(** ** Strings and computations *)

Lemma append_assoc (a b c : string) : (a +:+ b) +:+ c = a +:+ b +:+ c.
Proof.
  induction a as [|x a IH]; [reflexivity|].
  change (String x ((a +:+ b) +:+ c) = String x (a +:+ b +:+ c)).
  by rewrite IH.
Qed.

Lemma bind_ret_l {A B} (a : A) (k : A -> M B) : bind (ret a) k = k a.
Proof. unfold bind, ret. by destruct (k a). Qed.

(** ** Bundler warnings *)
Section WarnFacts.
Context `{PathOps}.
Import Warn.

(** What [handleRollupError] prints first, and how it ends. *)
Lemma handleRollupError_shape (err : RollupWarning) (fatal : bool) :
  exists more,
    handleRollupError err fatal =
      (ConsoleError ("[!] " +:+ describe err) :: more,
       if fatal then Exit 1 else Ret tt).
Proof.
  unfold handleRollupError, when, console_error, chalk_bold, chalk_red.
  destruct (Js.truthy (url err)), (loc err), (Js.truthy (id err)),
    (Js.truthy (frame err)), fatal; simpl; eauto.
Qed.

Lemma describe_set_message (w : RollupWarning) (m : string) :
  (m =? "")%string = false ->
  describe (set_message w m) = label w +:+ m.
Proof.
  intros Hm. unfold describe, label; simpl. rewrite Hm.
  destruct (Js.truthy (plugin w)), (Js.truthy (name w));
    rewrite ?append_assoc; reflexivity.
Qed.

Lemma code_is_known (w : RollupWarning) :
  known_code (code w) =
    code_is w "CIRCULAR_DEPENDENCY" || code_is w "THIS_IS_UNDEFINED" ||
    code_is w "NON_EXISTENT_EXPORT" || code_is w "UNRESOLVED_IMPORT".
Proof. unfold known_code, code_is. by destruct (code w). Qed.

(** C6, as the code has it: a dependency-cycle or loose-this warning prints
    nothing and ends nothing; a non-existent-export warning is fatal and is
    printed with the engine's own message; an unresolved-import warning is
    fatal and its message is rewritten to name the source and the importer;
    any other warning is printed with the prefix [Rollup Bundler Warning: ]
    and is not fatal. *)
Theorem onwarn_triage (w : RollupWarning) :
  (code w = Some "CIRCULAR_DEPENDENCY" \/ code w = Some "THIS_IS_UNDEFINED" ->
   onwarn w = ([], Ret tt)) /\
  (code w = Some "NON_EXISTENT_EXPORT" ->
   exists more, onwarn w = (ConsoleError ("[!] " +:+ describe w) :: more, Exit 1)) /\
  (code w = Some "UNRESOLVED_IMPORT" ->
   exists more,
     onwarn w =
       (ConsoleError
          ("[!] " +:+ label w +:+ "'" +:+ Js.tpl (source w) +:+ "' is imported by " +:+
           Js.tpl (importer w) +:+ ", but could not be resolved") :: more,
        Exit 1)) /\
  (known_code (code w) = false ->
   exists more,
     onwarn w =
       (ConsoleError ("[!] " +:+ label w +:+ "Rollup Bundler Warning: " +:+ message w) :: more,
        Ret tt)).
Proof.
  repeat split.
  - intros [Hc|Hc]; unfold onwarn, code_is; rewrite Hc; reflexivity.
  - intros Hc. unfold onwarn, code_is. rewrite Hc. simpl.
    destruct (handleRollupError_shape w true) as [more Hm]. eauto.
  - intros Hc. unfold onwarn, code_is. rewrite Hc. simpl.
    match goal with |- context [handleRollupError ?e true] =>
      destruct (handleRollupError_shape e true) as [more Hm] end.
    exists more. rewrite Hm. by rewrite describe_set_message.
  - intros Hk. rewrite code_is_known in Hk.
    apply orb_false_elim in Hk as [Hk H4]. apply orb_false_elim in Hk as [Hk H3].
    unfold onwarn. rewrite Hk, H3, H4.
    match goal with |- context [handleRollupError ?e false] =>
      destruct (handleRollupError_shape e false) as [more Hm] end.
    exists more. rewrite Hm. by rewrite describe_set_message.
Qed.

End WarnFacts.

(** C6 fails as worded for a non-existent-export warning: it is fatal, but
    the line printed is the engine's message, which names neither the
    source nor the importer of the warning. *)
Lemma onwarn_missing_export_not_annotated :
  @Warn.onwarn Cases.posix Cases.missing_export =
    ([ConsoleError "[!] Non-existent export 'Card' is imported from components/ui.js";
      ConsoleError ""], Exit 1) /\
  prints_both (fst (@Warn.onwarn Cases.posix Cases.missing_export))
    "./ui" "pages/home.js" = false.
Proof. split; vm_compute; reflexivity. Qed.

Lemma onwarn_triage_witness :
  Warn.code Cases.unresolved_import = Some "UNRESOLVED_IMPORT" /\
  exists more,
    @Warn.onwarn Cases.posix Cases.unresolved_import =
      (ConsoleError
         ("[!] " +:+ Warn.label Cases.unresolved_import +:+ "'" +:+
          Js.tpl (Warn.source Cases.unresolved_import) +:+ "' is imported by " +:+
          Js.tpl (Warn.importer Cases.unresolved_import) +:+
          ", but could not be resolved") :: more,
       Exit 1).
Proof.
  split; [reflexivity|].
  apply (proj1 (proj2 (proj2 (@onwarn_triage Cases.posix Cases.unresolved_import)))).
  reflexivity.
Defined.

(** ** The virtual-module resolver *)
Section ResolveFacts.
Context `{PathOps} {V : Type}.
Variable vfsForRollup : gmap string V.
Import Resolve.

(** The loop returns the first candidate, in the order of the code, that
    the virtual file system has. *)
Lemma probe_find (resolved name : string) (exts : list string) :
  probe vfsForRollup resolved name exts =
    find (in_vfs vfsForRollup) (code_candidates resolved name exts).
Proof.
  induction exts as [|ext exts IH]; [reflexivity|].
  cbn [probe code_candidates flat_map app find].
  destruct (in_vfs vfsForRollup (resolved +:+ ext)); [reflexivity|].
  destruct (in_vfs vfsForRollup (path_join resolved ("index" +:+ ext))); [reflexivity|].
  destruct (in_vfs vfsForRollup (path_join resolved (name +:+ ext))); [reflexivity|].
  exact IH.
Qed.


Lemma find_in_vfs (l : list string) (r : string) :
  find (in_vfs vfsForRollup) l = Some r -> in_vfs vfsForRollup r = true /\ In r l.
Proof. intros Hf. apply find_some in Hf as [Hin Hr]. done. Qed.


Lemma resolveId_candidates (id : string) (importer : option string) :
  resolveId vfsForRollup id importer =
    if in_vfs vfsForRollup id then Some id
    else if Js.starts_slash_or_dot id && Js.truthy importer then
      find (in_vfs vfsForRollup)
        (resolved_of id (Js.tpl importer) ::
         code_candidates (resolved_of id (Js.tpl importer)) (path_parse_name id)
           SUPPORTED_EXTENSIONS)
    else None.
Proof.
  unfold resolveId.
  destruct (in_vfs vfsForRollup id); [reflexivity|].
  destruct (Js.starts_slash_or_dot id && Js.truthy importer); [|reflexivity].
  cbn [find]. destruct (in_vfs vfsForRollup (resolved_of id (Js.tpl importer))); [reflexivity|].
  apply probe_find.
Qed.

(** What the resolver answers has passed the test [in vfsForRollup]. *)
Lemma resolveId_in_vfs (id : string) (importer : option string) (r : string) :
  resolveId vfsForRollup id importer = Some r -> in_vfs vfsForRollup r = true.
Proof.
  rewrite resolveId_candidates.
  destruct (in_vfs vfsForRollup id) eqn:Hid.
  - by intros [= <-].
  - destruct (Js.starts_slash_or_dot id && Js.truthy importer); [|discriminate].
    intros Hf. by apply find_in_vfs in Hf as [Hr _].
Qed.

End ResolveFacts.


(** The test of the code is [in], which also holds for the names every
    object inherits: with nothing in the virtual file system the specifier
    [toString] is answered, and so is [./constructor] imported from a
    module at the top of the project. *)
Example resolveId_answers_inherited_names :
  @Resolve.resolveId Cases.posix string ∅ "toString" None = Some "toString" /\
  @Resolve.resolveId Cases.posix string ∅ "./constructor" (Some "App.tsx")
    = Some "constructor" /\
  @Resolve.resolveId_spec Cases.posix string ∅ "toString" None = None.
Proof. repeat split; vm_compute; reflexivity. Qed.



(** ** The configuration evaluator *)

(** C9 fails as worded for a host that is present but falsy: the check is
    [!host], so the empty string is reported as a missing field. *)
Lemma evaluate_empty_host_is_missing :
  EvaluateCases.exports_empty_host
    (Evaluate.wrap "exports.default = { host: '' };") "/home/dev/site/outsmartly.config.js"
    = inr (Some {| Evaluate.host := Evaluate.JStr ""; Evaluate.tmpDir := Evaluate.JUndefined |}) /\
  Evaluate.evaluate EvaluateCases.exports_empty_host "exports.default = { host: '' };"
    "/home/dev/site/outsmartly.config.js"
  = inl (Error "Missing 'host' field in /home/dev/site/outsmartly.config.js").
Proof. split; reflexivity. Qed.

(** C9, as the code has it: when the default export has a truthy [host],
    evaluation yields exactly that host, with [./.outsmartly/] for an
    omitted [tmpDir] and the given [tmpDir] otherwise; when [host] is
    missing or falsy, evaluation fails with the error that names the
    configuration path. *)
Theorem evaluate_host_and_tmpDir
    (runInNewContext : string -> string -> JsError + option Evaluate.DefaultExport)
    (code configPath : string) (d : Evaluate.DefaultExport) :
  runInNewContext (Evaluate.wrap code) configPath = inr (Some d) ->
  (Evaluate.truthy (Evaluate.host d) = true ->
   (Evaluate.tmpDir d = Evaluate.JUndefined ->
    Evaluate.evaluate runInNewContext code configPath
      = inr (Evaluate.host d, Evaluate.JStr "./.outsmartly/")) /\
   (Evaluate.tmpDir d <> Evaluate.JUndefined ->
    Evaluate.evaluate runInNewContext code configPath
      = inr (Evaluate.host d, Evaluate.tmpDir d))) /\
  (Evaluate.truthy (Evaluate.host d) = false ->
   Evaluate.evaluate runInNewContext code configPath
     = inl (Error ("Missing 'host' field in " +:+ configPath))).
Proof.
  intros Hrun. unfold Evaluate.evaluate. rewrite Hrun. split.
  - intros Hh. rewrite Hh. simpl. split.
    + intros ->. reflexivity.
    + intros Hne. by destruct (Evaluate.tmpDir d).
  - intros Hh. rewrite Hh. reflexivity.
Qed.

Lemma evaluate_host_and_tmpDir_witness :
  Evaluate.evaluate EvaluateCases.exports_host "exports.default = { host: 'shop.example.com' };"
    "outsmartly.config.ts"
    = inr (Evaluate.JStr "shop.example.com", Evaluate.JStr "./.outsmartly/") /\
  Evaluate.evaluate EvaluateCases.exports_no_host "exports.default = { tmpDir: './out/' };"
    "outsmartly.config.ts"
    = inl (Error "Missing 'host' field in outsmartly.config.ts").
Proof.
  split.
  - apply (proj1 (proj1 (evaluate_host_and_tmpDir EvaluateCases.exports_host
                           "exports.default = { host: 'shop.example.com' };"
                           "outsmartly.config.ts" _ eq_refl) eq_refl) eq_refl).
  - apply (proj2 (evaluate_host_and_tmpDir EvaluateCases.exports_no_host
                    "exports.default = { tmpDir: './out/' };"
                    "outsmartly.config.ts" _ eq_refl) eq_refl).
Defined.

(** ** The analysis assembler *)
Section AssembleFacts.
Context `{PathOps} `{Assemble.FileSystem}.
Variable JSON_parse : string -> JsError + Assemble.ComponentAnalysis.
Variable rollup_generate :
  gmap string string -> gmap string (option string) -> M (list Assemble.OutputEntry).
Import Assemble.

Lemma read_module_log dir v f : fst (read_module dir v f) = [].
Proof.
  unfold read_module.
  destruct (readFileSync (path_join dir f)) as [e|content]; [reflexivity|].
  cbn [lift]. rewrite bind_ret_l.
  destruct (Js.match_path_comment (firstLine content)) as [p|]; [|reflexivity].
  by destruct (Js.startsWith p "node_modules/").
Qed.

Lemma read_modules_log dir fs v : fst (read_modules dir fs v) = [].
Proof.
  revert v. induction fs as [|f fs IH]; intros v; [reflexivity|].
  cbn [read_modules]. pose proof (read_module_log dir v f) as Hf.
  destruct (read_module dir v f) as [l [v'|e|c]]; simpl in Hf; subst l; try reflexivity.
  simpl. specialize (IH v'). by destruct (read_modules dir fs v').
Qed.

Lemma read_all_modules_log dir : fst (read_all_modules dir) = [].
Proof.
  unfold read_all_modules. destruct (existsSync dir); [|reflexivity].
  destruct (readdirSync dir) as [e|fs]; [reflexivity|].
  cbn [lift]. rewrite bind_ret_l. apply read_modules_log.
Qed.

Lemma read_modules_app dir xs ys v :
  read_modules dir (xs ++ ys) v = bind (read_modules dir xs v) (read_modules dir ys).
Proof.
  revert v. induction xs as [|x xs IH]; intros v.
  - cbn [read_modules app]. by rewrite bind_ret_l.
  - cbn [read_modules app].
    destruct (read_module dir v x) as [l [v'|e|c]]; try reflexivity.
    simpl. rewrite IH.
    destruct (read_modules dir xs v') as [l1 [v1|e1|c1]]; try reflexivity.
    simpl. destruct (read_modules dir ys v1) as [l2 o2]. by rewrite app_assoc.
Qed.

(** A snapshot without the marker makes its turn of the loop throw. *)
Lemma read_module_malformed dir v f content :
  readFileSync (path_join dir f) = inr content ->
  Js.match_path_comment (firstLine content) = None ->
  read_module dir v f = ([], Throw (Error ("Malformed path for module: " +:+ firstLine content))).
Proof.
  intros Hr Hm. unfold read_module. rewrite Hr. cbn [lift].
  rewrite bind_ret_l, Hm. reflexivity.
Qed.

(** Wherever the snapshot stands in the listing, the loop throws. *)
Lemma read_modules_malformed dir fs f content :
  In f fs ->
  readFileSync (path_join dir f) = inr content ->
  Js.match_path_comment (firstLine content) = None ->
  forall v, exists e, read_modules dir fs v = ([], Throw e).
Proof.
  intros Hin Hr Hm. induction fs as [|x fs IH]; [destruct Hin|]. intros v.
  cbn [read_modules]. pose proof (read_module_log dir v x) as Hlog.
  destruct Hin as [->|Hin].
  - rewrite (read_module_malformed _ _ _ _ Hr Hm). eauto.
  - destruct (read_module dir v x) as [l [v'|e|c]] eqn:Hx; simpl in Hlog; subst l.
    + simpl. destruct (IH Hin v') as [e He]. rewrite He. eauto.
    + eauto.
    + exfalso. unfold read_module in Hx.
      destruct (readFileSync (path_join dir x)) as [e|cx]; [discriminate|].
      cbn [lift] in Hx. rewrite bind_ret_l in Hx.
      destruct (Js.match_path_comment (firstLine cx)) as [p|]; [|discriminate].
      by destruct (Js.startsWith p "node_modules/").
Qed.

(** Without a [.json] entry the descriptor loop changes nothing. *)
Lemma read_components_no_json dir paths acc :
  forallb (fun p => negb (Js.endsWith p ".json")) paths = true ->
  read_components JSON_parse dir paths acc = ret acc.
Proof.
  induction paths as [|p paths IH]; [reflexivity|].
  cbn [forallb]. intros [Hp Hps]%andb_true_iff.
  cbn [read_components]. unfold read_component.
  apply negb_true_iff in Hp. rewrite Hp, bind_ret_l. by apply IH.
Qed.

End AssembleFacts.

Section AssembleClaims.
Context `{PathOps} `{Assemble.FileSystem}.
Variable JSON_parse : string -> JsError + Assemble.ComponentAnalysis.
Variable rollup_generate :
  gmap string string -> gmap string (option string) -> M (list Assemble.OutputEntry).
Import Assemble.

(** C3, as the code has it: when the directory passed to [bundleAnalysis]
    (the [tmpDir] of the configuration) does not exist, the result is the
    empty analysis; nothing is printed and nothing is thrown. *)
Theorem bundleAnalysis_missing_tmpDir (tmpDir : string) :
  existsSync tmpDir = false ->
  bundleAnalysis JSON_parse rollup_generate tmpDir = ([], Ret empty_analysis).
Proof. intros He. unfold bundleAnalysis. rewrite He. reflexivity. Qed.

(** C10: an error thrown in the [try] block is printed and replaced, so
    whatever [bundleAnalysis] throws is the one error
    [Unexpected analysis results in <tmpDir>.]. *)
Theorem bundleAnalysis_failure_is_generic (tmpDir : string) :
  (forall l e,
     bundleAnalysis JSON_parse rollup_generate tmpDir = (l, Throw e) ->
     e = unexpected tmpDir) /\
  (existsSync tmpDir = true ->
   forall l e,
     bundleAnalysis_try JSON_parse rollup_generate tmpDir = (l, Throw e) ->
     bundleAnalysis JSON_parse rollup_generate tmpDir
       = (l ++ [ConsoleErrorObj e], Throw (unexpected tmpDir))).
Proof.
  split.
  - intros l e. unfold bundleAnalysis.
    destruct (existsSync tmpDir); [|discriminate]. cbn [negb].
    destruct (bundleAnalysis_try JSON_parse rollup_generate tmpDir) as [l0 [a|e0|c]];
      cbn; congruence.
  - intros He l e Ht. unfold bundleAnalysis. rewrite He, Ht. reflexivity.
Qed.

(** The [try] block with no descriptor in the listing, in terms of the
    block that reads [modules/]. *)
Lemma bundleAnalysis_try_no_json (tmpDir : string) (filePaths : list string) :
  readdirSync (path_join tmpDir "analysis") = inr filePaths ->
  forallb (fun p => negb (Js.endsWith p ".json")) filePaths = true ->
  bundleAnalysis_try JSON_parse rollup_generate tmpDir =
    bind (read_all_modules (path_join (path_join tmpDir "analysis") "modules"))
         (fun _ => ret empty_analysis).
Proof.
  intros Hd Hj. unfold bundleAnalysis_try. rewrite Hd. cbn [lift]. rewrite bind_ret_l.
  destruct (read_all_modules _) as [l [v|e|c]]; try reflexivity.
  cbn [bind]. rewrite (read_components_no_json JSON_parse _ _ _ Hj). reflexivity.
Qed.

(** C7, as the code has it: with no [.json] entry in the analysis
    directory the bundler is never called, and when the snapshots under
    [modules/] are read without an error the result is the empty analysis,
    with nothing printed. *)
Theorem bundleAnalysis_no_descriptors (tmpDir : string) (filePaths : list string) :
  existsSync tmpDir = true ->
  readdirSync (path_join tmpDir "analysis") = inr filePaths ->
  forallb (fun p => negb (Js.endsWith p ".json")) filePaths = true ->
  calls_rollup (fst (bundleAnalysis JSON_parse rollup_generate tmpDir)) = false /\
  (forall l v,
     read_all_modules (path_join (path_join tmpDir "analysis") "modules") = (l, Ret v) ->
     bundleAnalysis JSON_parse rollup_generate tmpDir = ([], Ret empty_analysis)).
Proof.
  intros He Hd Hj. unfold bundleAnalysis. rewrite He. cbn [negb].
  rewrite (bundleAnalysis_try_no_json _ _ Hd Hj).
  pose proof (read_all_modules_log (path_join (path_join tmpDir "analysis") "modules")) as Hl.
  destruct (read_all_modules _) as [l [v|e|c]]; simpl in Hl; subst l.
  - split; [reflexivity|]. intros; reflexivity.
  - split; [reflexivity|]. intros; discriminate.
  - split; [reflexivity|]. intros; discriminate.
Qed.

(** C8, as the code has it: a snapshot under [modules/] whose first line is
    not a marker makes [bundleAnalysis] throw the generic error and return
    no analysis; when the snapshots listed before it are read without an
    error, what is printed is the malformed-path error of that snapshot.
    A snapshot whose marker starts with [node_modules/] leaves the virtual
    file system as it was. *)
Theorem bundleAnalysis_malformed_module (tmpDir : string) (filePaths : list string)
    (before after : list string) (filename content : string) :
  let dependenciesDir := path_join (path_join tmpDir "analysis") "modules" in
  readFileSync (path_join dependenciesDir filename) = inr content ->
  (existsSync tmpDir = true ->
   readdirSync (path_join tmpDir "analysis") = inr filePaths ->
   existsSync dependenciesDir = true ->
   readdirSync dependenciesDir = inr (before ++ filename :: after) ->
   Js.match_path_comment (firstLine content) = None ->
   (exists e,
      bundleAnalysis JSON_parse rollup_generate tmpDir
        = ([ConsoleErrorObj e], Throw (unexpected tmpDir))) /\
   (forall v,
      read_modules dependenciesDir before ∅ = ([], Ret v) ->
      bundleAnalysis JSON_parse rollup_generate tmpDir
        = ([ConsoleErrorObj (Error ("Malformed path for module: " +:+ firstLine content))],
           Throw (unexpected tmpDir)))) /\
  (forall originalRelativePath vfsForRollup,
     Js.match_path_comment (firstLine content) = Some originalRelativePath ->
     Js.startsWith originalRelativePath "node_modules/" = true ->
     read_module dependenciesDir vfsForRollup filename = ([], Ret vfsForRollup)).
Proof.
  intros dependenciesDir Hr. split.
  - intros He Hd Hde Hdd Hm.
    assert (Htry : forall e,
      read_modules dependenciesDir (before ++ filename :: after) ∅ = ([], Throw e) ->
      bundleAnalysis JSON_parse rollup_generate tmpDir
        = ([ConsoleErrorObj e], Throw (unexpected tmpDir))).
    { intros e Hrm. unfold bundleAnalysis, bundleAnalysis_try. rewrite He, Hd.
      cbn [negb lift]. rewrite bind_ret_l. fold dependenciesDir.
      unfold read_all_modules. rewrite Hde, Hdd. cbn [lift].
      rewrite bind_ret_l, Hrm. reflexivity. }
    split.
    + destruct (read_modules_malformed dependenciesDir (before ++ filename :: after)
                  filename content) with (v := (∅ : gmap string (option string)))
        as [e Hrm]; try assumption.
      * apply in_or_app. right. by left.
      * exists e. by apply Htry.
    + intros v Hb. apply Htry.
      rewrite read_modules_app, Hb. change ([], Ret v) with (ret v).
      rewrite bind_ret_l. cbn [read_modules].
      by rewrite (read_module_malformed _ _ _ _ Hr Hm).
  - intros p v Hm Hs. unfold read_module. rewrite Hr. cbn [lift].
    rewrite bind_ret_l, Hm, Hs. reflexivity.
Qed.

End AssembleClaims.

(** C3 fails as worded when [tmpDir] exists and its [analysis] directory
    does not: the listing of the directory throws, and [bundleAnalysis]
    throws the generic error. *)
Lemma bundleAnalysis_missing_analysis_dir_throws :
  @Assemble.existsSync AssembleCases.fs_tmp_only
    (@path_join Cases.posix AssembleCases.tmpDir "analysis") = false /\
  @Assemble.bundleAnalysis Cases.posix AssembleCases.fs_tmp_only
    AssembleCases.JSON_parse AssembleCases.rollup_generate AssembleCases.tmpDir
  = ([ConsoleErrorObj
        (Error "ENOENT: no such file or directory, scandir '.outsmartly/analysis'")],
     Throw (Error "Unexpected analysis results in ./.outsmartly/.")).
Proof. split; vm_compute; reflexivity. Qed.

Lemma bundleAnalysis_missing_tmpDir_witness :
  @Assemble.bundleAnalysis Cases.posix AssembleCases.fs_fresh
    AssembleCases.JSON_parse AssembleCases.rollup_generate AssembleCases.tmpDir
  = ([], Ret Assemble.empty_analysis).
Proof.
  apply (@bundleAnalysis_missing_tmpDir Cases.posix AssembleCases.fs_fresh).
  vm_compute; reflexivity.
Defined.

(** C7 fails as worded when a snapshot under [modules/] has no marker: the
    analysis directory exists and lists no [.json] entry, and
    [bundleAnalysis] throws instead of returning the empty analysis. *)
Lemma bundleAnalysis_no_descriptors_bad_module_throws :
  @Assemble.readdirSync AssembleCases.fs_bad_module
    (@path_join Cases.posix AssembleCases.tmpDir "analysis") = inr ["modules"] /\
  forallb (fun p => negb (Js.endsWith p ".json")) ["modules"] = true /\
  @Assemble.bundleAnalysis Cases.posix AssembleCases.fs_bad_module
    AssembleCases.JSON_parse AssembleCases.rollup_generate AssembleCases.tmpDir
  = ([ConsoleErrorObj (Error "Malformed path for module: export const a = 1;")],
     Throw (Error "Unexpected analysis results in ./.outsmartly/.")).
Proof. repeat split; vm_compute; reflexivity. Qed.

Lemma bundleAnalysis_no_descriptors_witness :
  calls_rollup
    (fst (@Assemble.bundleAnalysis Cases.posix AssembleCases.fs_modules_only
            AssembleCases.JSON_parse AssembleCases.rollup_fails AssembleCases.tmpDir)) = false /\
  @Assemble.bundleAnalysis Cases.posix AssembleCases.fs_modules_only
    AssembleCases.JSON_parse AssembleCases.rollup_fails AssembleCases.tmpDir
  = ([], Ret Assemble.empty_analysis).
Proof.
  pose proof (@bundleAnalysis_no_descriptors Cases.posix AssembleCases.fs_modules_only
                AssembleCases.JSON_parse AssembleCases.rollup_fails
                AssembleCases.tmpDir ["modules"] eq_refl eq_refl eq_refl) as [Hc Hr].
  split; [exact Hc|].
  eapply (Hr [] (<["src/util.js" := Some ("export const a = 1;" +:+ Assemble.nl)]> ∅)).
  vm_compute; reflexivity.
Defined.

(** C8 fails as worded on the error: what [bundleAnalysis] throws for a
    snapshot without marker is the generic error; the malformed-path error
    is printed and dropped. *)
Lemma bundleAnalysis_malformed_error_is_replaced :
  @Assemble.bundleAnalysis Cases.posix AssembleCases.fs_bad_module
    AssembleCases.JSON_parse AssembleCases.rollup_generate AssembleCases.tmpDir
  = ([ConsoleErrorObj (Error "Malformed path for module: export const a = 1;")],
     Throw (Error "Unexpected analysis results in ./.outsmartly/.")) /\
  Error "Unexpected analysis results in ./.outsmartly/."
    <> Error "Malformed path for module: export const a = 1;".
Proof. split; [vm_compute; reflexivity | discriminate]. Qed.

Lemma bundleAnalysis_malformed_module_witness :
  @Assemble.bundleAnalysis Cases.posix AssembleCases.fs_bad_module
    AssembleCases.JSON_parse AssembleCases.rollup_generate AssembleCases.tmpDir
  = ([ConsoleErrorObj
        (Error ("Malformed path for module: " +:+
                Assemble.firstLine ("export const a = 1;" +:+ Assemble.nl)))],
     Throw (Assemble.unexpected AssembleCases.tmpDir)).
Proof.
  refine (proj2 (proj1 (@bundleAnalysis_malformed_module Cases.posix
            AssembleCases.fs_bad_module AssembleCases.JSON_parse
            AssembleCases.rollup_generate AssembleCases.tmpDir ["modules"] [] []
            "0.js" ("export const a = 1;" +:+ Assemble.nl) eq_refl)
          eq_refl eq_refl eq_refl eq_refl eq_refl) ∅ eq_refl).
Defined.

Lemma bundleAnalysis_failure_is_generic_witness :
  @Assemble.bundleAnalysis Cases.posix AssembleCases.fs_bad_module
    AssembleCases.JSON_parse AssembleCases.rollup_generate AssembleCases.tmpDir
  = ([] ++ [ConsoleErrorObj (Error "Malformed path for module: export const a = 1;")],
     Throw (Assemble.unexpected AssembleCases.tmpDir)).
Proof.
  apply (proj2 (@bundleAnalysis_failure_is_generic Cases.posix AssembleCases.fs_bad_module
                  AssembleCases.JSON_parse AssembleCases.rollup_generate
                  AssembleCases.tmpDir)).
  - vm_compute; reflexivity.
  - vm_compute; reflexivity.
Defined.

(** The other kinds of failure end in the same error: a descriptor that
    does not parse, a bundler that fails, an asset that is not a string. *)
Example bundleAnalysis_invalid_descriptor :
  @Assemble.bundleAnalysis Cases.posix DescriptorCases.fs_component
    AssembleCases.JSON_parse AssembleCases.rollup_generate AssembleCases.tmpDir
  = ([ConsoleErrorObj (mkError "SyntaxError" "Unexpected end of JSON input")],
     Throw (Assemble.unexpected AssembleCases.tmpDir)).
Proof. vm_compute; reflexivity. Qed.

Example bundleAnalysis_bundler_failure :
  @Assemble.bundleAnalysis Cases.posix DescriptorCases.fs_component
    DescriptorCases.JSON_parse AssembleCases.rollup_fails AssembleCases.tmpDir
  = ([RollupCall {["components/Hero" := "components/Hero.tsx"]};
      ConsoleErrorObj (mkError "Error" "Could not resolve entry module")],
     Throw (Assemble.unexpected AssembleCases.tmpDir)).
Proof. vm_compute; reflexivity. Qed.

Example bundleAnalysis_binary_asset :
  snd (@Assemble.bundleAnalysis Cases.posix DescriptorCases.fs_component
         DescriptorCases.JSON_parse DescriptorCases.rollup_binary AssembleCases.tmpDir)
  = Throw (Assemble.unexpected AssembleCases.tmpDir).
Proof. vm_compute; reflexivity. Qed.

(** ** The deploy orchestrator *)
Section OrchestratorFacts.
Import Evaluate Orchestrator.
Variable runInNewContext : string -> string -> JsError + option DefaultExport.
Variable configPath : string.

#[local] Abbreviation resume := (Orchestrator.resume runInNewContext configPath).
#[local] Abbreviation step := (Orchestrator.step runInNewContext configPath).
#[local] Abbreviation exec := (Orchestrator.exec runInNewContext configPath).
#[local] Abbreviation reachable := (Orchestrator.reachable runInNewContext configPath).

Lemma count_app (f : Obs -> bool) (l l' : list Obs) :
  length (List.filter f (l ++ l')) = (length (List.filter f l) + length (List.filter f l'))%nat.
Proof. by rewrite List.filter_app, length_app. Qed.

Ltac count := unfold deployCalls, uploads, fetches; cbn; rewrite ?count_app; cbn; try lia.

(** *** The [finally] block *)

Lemma finally_retry (s : State) :
  pendingDeployCount s > 1 ->
  finally_ s = deploy_enter (set_pending 1 s).
Proof. intros Hp. unfold finally_. by rewrite (proj2 (Z.gtb_lt _ _)) by lia. Qed.

Lemma finally_rest (s : State) :
  pendingDeployCount s <= 1 ->
  finally_ s =
    let s' := set_phase Idle (set_pending 0 s) in
    if watcher s then log [WatchingForChanges] s' else s'.
Proof.
  intros Hp. unfold finally_.
  destruct (pendingDeployCount s >? 1) eqn:Hg; [apply Z.gtb_lt in Hg; lia|reflexivity].
Qed.

Lemma finally_set_phase (p : Phase) (s : State) : finally_ (set_phase p s) = finally_ s.
Proof. unfold finally_. cbn. by destruct (pendingDeployCount s >? 1), (watcher s). Qed.

(** What the [finally] block leaves: one more attempt with the counter at 1,
    or no attempt with the counter at 0. *)
Lemma finally_spec (s : State) :
  (pendingDeployCount s > 1 ->
   pendingDeployCount (finally_ s) = 1 /\ phase (finally_ s) = Bundling /\
   trace (finally_ s) = trace s ++ [DeployCall] /\
   deployCalls (finally_ s) = S (deployCalls s)) /\
  (pendingDeployCount s <= 1 ->
   pendingDeployCount (finally_ s) = 0 /\ phase (finally_ s) = Idle /\
   deployCalls (finally_ s) = deployCalls s).
Proof.
  split; intros Hp.
  - rewrite finally_retry by done. repeat split. count.
  - rewrite finally_rest by done. cbn. destruct (watcher s); repeat split; count.
Qed.

Lemma finally_keeps (s : State) :
  uploads (finally_ s) = uploads s /\ fetches (finally_ s) = fetches s /\
  watcher (finally_ s) = watcher s /\ abortController (finally_ s) = abortController s /\
  phase (finally_ s) <> Exited.
Proof.
  unfold finally_. destruct (pendingDeployCount s >? 1).
  - cbn. repeat split; first [done | count].
  - cbn. destruct (watcher s) eqn:Hw; cbn; repeat split; first [done | count].
Qed.

(** *** Events other than a file change *)

Ltac break_resume :=
  repeat match goal with
  | |- context [match ?r with Resolved _ => _ | Rejected _ => _ | ProcessExit => _ end] =>
      destruct r
  | |- context [catch_ ?e _] => destruct e; cbn
  | |- context [rollupOutsmartlyConfigFile ?r] => destruct r as [[|? [|? ?]]|?|]; cbn
  | |- context [if ?b then _ else _] => destruct b eqn:?; cbn
  | |- context [match evaluate ?a ?b ?c with _ => _ end] =>
      destruct (evaluate a b c) as [?|[? ?]]; cbn
  end.

(** Such an event leaves the counter, the controller and the number of
    attempts to the [finally] block, and a suspended attempt in flight. *)
Lemma resume_quiet (s s1 : State) (ev : Event) (st : Status) :
  is_change ev = false ->
  resume s ev = (s1, st) ->
  pendingDeployCount s1 = pendingDeployCount s /\
  deployCalls s1 = deployCalls s /\
  watcher s1 = watcher s /\
  abortController s1 = abortController s /\
  (in_flight s = false -> s1 = s /\ st = Suspended) /\
  (in_flight s = true -> st = Suspended -> in_flight s1 = true).
Proof.
  intros Hev. destruct s as [ph pend ac w tr].
  unfold Orchestrator.resume, settle, after_bundle, after_assemble, after_patch,
    after_fetch, poll, in_flight.
  destruct ph, ev; try discriminate Hev; cbn; break_resume;
    intros [= <- <-]; cbn; repeat split; try done; try count.
Qed.


Lemma step_quiet (s : State) (ev : Event) :
  is_change ev = false ->
  (in_flight s = false -> step s ev = s) /\
  (in_flight s = true ->
   phase (step s ev) = Exited \/
   (in_flight (step s ev) = true /\
    pendingDeployCount (step s ev) = pendingDeployCount s /\
    deployCalls (step s ev) = deployCalls s) \/
   (exists s1, step s ev = finally_ s1 /\
               pendingDeployCount s1 = pendingDeployCount s /\
               deployCalls s1 = deployCalls s)).
Proof.
  intros Hev. unfold Orchestrator.step.
  destruct (resume s ev) as [s1 st] eqn:Hr.
  destruct (resume_quiet _ _ _ _ Hev Hr) as (Hp & Hc & _ & _ & Hidle & Hfly).
  split.
  - intros Hf. destruct (Hidle Hf) as [-> ->]. reflexivity.
  - intros Hf. destruct st as [|how|].
    + right; left. auto.
    + right; right. eauto.
    + left. reflexivity.
Qed.

Lemma watcher_step (s : State) (ev : Event) : watcher (step s ev) = watcher s.
Proof.
  destruct (is_change ev) eqn:Hev.
  - destruct ev; try discriminate. unfold Orchestrator.step, Orchestrator.resume.
    destruct s as [ph pend ac w tr]. unfold onChange, abort_sleep, finally_.
    destruct ph, w; cbn; break_resume; reflexivity.
  - unfold Orchestrator.step. destruct (resume s ev) as [s1 st] eqn:Hr.
    destruct (resume_quiet _ _ _ _ Hev Hr) as (_ & _ & Hw & _).
    destruct st; [done| |done]. by destruct (finally_keeps s1) as (_ & _ & -> & _).
Qed.

Lemma exec_cons (ev : Event) (evs : list Event) (s : State) :
  exec (ev :: evs) s = exec evs (step s ev).
Proof. reflexivity. Qed.

Lemma watcher_exec (evs : list Event) (s : State) : watcher (exec evs s) = watcher s.
Proof.
  revert s. induction evs as [|ev evs IH]; intros s; [reflexivity|].
  rewrite exec_cons, IH. apply watcher_step.
Qed.

Lemma quiet_pending (s : State) (ev : Event) :
  is_change ev = false ->
  pendingDeployCount s <= 1 -> pendingDeployCount (step s ev) <= 1.
Proof.
  intros Hev Hp. unfold Orchestrator.step. destruct (resume s ev) as [s1 st] eqn:Hr.
  destruct (resume_quiet _ _ _ _ Hev Hr) as (Hp1 & _).
  destruct st; cbn; try lia.
  destruct (finally_spec s1) as [_ Hrest]. destruct Hrest as (-> & _); lia.
Qed.

Lemma settles_step (n : nat) (s : State) (ev : Event) :
  is_change ev = false -> settles_to n s -> settles_to n (step s ev).
Proof.
  intros Hev Hs. destruct (step_quiet s ev Hev) as [Hidle Hfly].
  assert (Hfin : forall s1,
            pendingDeployCount s1 = pendingDeployCount s ->
            deployCalls s1 = deployCalls s ->
            (pendingDeployCount s = 1 /\ deployCalls s = n \/
             pendingDeployCount s > 1 /\ S (deployCalls s) = n) ->
            settles_to n (finally_ s1)).
  { intros s1 Hp Hc [[H1 H2]|[H1 H2]].
    - destruct (finally_spec s1) as [_ Hrest]. destruct Hrest as (? & ? & ?); [lia|].
      right; left. repeat split; congruence.
    - destruct (finally_spec s1) as [Hretry _]. destruct Hretry as (? & Hph & _ & ?); [lia|].
      right; right; left. unfold in_flight. rewrite Hph. repeat split; [done|lia]. }
  destruct Hs as [Hx|[(Hi & Hp & Hc)|[(Hf & Hp & Hc)|(Hf & Hp & Hc)]]].
  - left. rewrite Hidle; [done|]. unfold in_flight. by rewrite Hx.
  - right; left. rewrite Hidle; [done|]. unfold in_flight. by rewrite Hi.
  - destruct (Hfly Hf) as [Hx|[(Hf' & Hp' & Hc')|(s1 & -> & Hp1 & Hc1)]].
    + by left.
    + right; right; left. repeat split; congruence.
    + apply Hfin; auto.
  - destruct (Hfly Hf) as [Hx|[(Hf' & Hp' & Hc')|(s1 & -> & Hp1 & Hc1)]].
    + by left.
    + right; right; right. repeat split; [done|lia|congruence].
    + apply Hfin; auto.
Qed.

Lemma settles_exec (n : nat) (evs : list Event) (s : State) :
  no_change evs = true -> settles_to n s ->
  settles_to n (exec evs s) /\
  (pendingDeployCount s <= 1 -> pendingDeployCount (exec evs s) <= 1).
Proof.
  revert s. induction evs as [|ev evs IH]; intros s Hq Hs; [done|].
  cbn in Hq. apply andb_true_iff in Hq as [Hev Hq]. apply negb_true_iff in Hev.
  rewrite exec_cons. destruct (IH (step s ev) Hq (settles_step _ _ _ Hev Hs)) as [H1 H2].
  split; [done|]. intros Hp. apply H2. by apply quiet_pending.
Qed.

(** *** A file change *)

(** The handler while an attempt is in flight: the counter goes up, the
    controller is replaced, and a pending sleep is rejected. *)
Lemma change_in_flight (s : State) :
  watcher s = true -> in_flight s = true -> pendingDeployCount s >= 1 ->
  pendingDeployCount (onChange s) = pendingDeployCount s + 1 /\
  phase (onChange s) = phase s /\
  (step s Change = onChange s \/ step s Change = finally_ (onChange s)) /\
  deployCalls (onChange s) = deployCalls s /\
  uploads (onChange s) = uploads s.
Proof.
  intros Hw Hf Hp. destruct s as [ph pend ac w tr]. cbn in *. subst w.
  unfold Orchestrator.step, Orchestrator.resume, onChange, abort_sleep, in_flight in *.
  cbn in *. assert (Hg : (pend + 1 >? 1) = true) by (apply Z.gtb_lt; lia). rewrite Hg.
  destruct ph; try discriminate Hf; cbn; rewrite ?Hg; cbn;
    repeat split; try count; auto.
  all: match goal with |- context [if ?b then _ else _] => destruct b end; cbn; auto.
Qed.

Lemma reachable_pending (s : State) :
  reachable s ->
  (phase s = Idle -> pendingDeployCount s = 0) /\
  (in_flight s = true -> pendingDeployCount s >= 1).
Proof.
  induction 1 as [watch|s ev Hs [IHi IHf]].
  - cbn. split; [discriminate|lia].
  - destruct (is_change ev) eqn:Hev.
    + destruct ev; try discriminate. clear Hev.
      destruct (watcher s) eqn:Hw.
      * destruct (in_flight s) eqn:Hf.
        -- destruct (change_in_flight s Hw Hf (IHf eq_refl)) as (Hp & Hph & [->| ->] & _).
           ++ unfold in_flight. rewrite Hph. fold (in_flight s). split; [|lia].
              intros Hi. unfold in_flight in Hf. by rewrite Hi in Hf.
           ++ destruct (finally_spec (onChange s)) as [Hretry _].
              destruct Hretry as (-> & Hb & _); [lia|].
              unfold in_flight. rewrite Hb. split; [discriminate|lia].
        -- destruct s as [ph pend ac w tr]. cbn in *. subst w.
           unfold Orchestrator.step, Orchestrator.resume, onChange, abort_sleep, in_flight in *.
           destruct ph; try discriminate Hf; cbn in *; [|done].
           rewrite (IHi eq_refl). change (0 + 1 >? 1) with false. cbn.
           split; [discriminate|lia].
      * assert (step s Change = s) as ->; [|by split].
        unfold Orchestrator.step, Orchestrator.resume. rewrite Hw.
        by destruct (phase s).
    + destruct (step_quiet s ev Hev) as [Hidle Hfly].
      destruct (in_flight s) eqn:Hf.
      * destruct (Hfly eq_refl) as [Hx|[(Hf' & Hp' & _)|(s1 & -> & Hp1 & _)]].
        -- unfold in_flight. rewrite Hx. split; discriminate.
        -- split; [|intros _; rewrite Hp'; auto].
           intros Hi. unfold in_flight in Hf'. by rewrite Hi in Hf'.
        -- destruct (finally_spec s1) as [Hretry Hrest].
           destruct (Z_gt_le_dec (pendingDeployCount s1) 1) as [Hgt|Hle].
           ++ destruct (Hretry Hgt) as (-> & Hb & _). unfold in_flight. rewrite Hb.
              split; [discriminate|lia].
           ++ destruct (Hrest Hle) as (-> & Hb & _). unfold in_flight. rewrite Hb.
              split; [done|discriminate].
      * rewrite (Hidle eq_refl). by rewrite Hf.
Qed.

(** C2: every attempt that ends without ending the process (by success,
    by a guard, by a caught abort) runs the [finally] block, which starts
    exactly one more attempt with the counter at 1 when the counter is
    above 1, and leaves the counter at 0 otherwise.  A single change during
    the first attempt takes the counter from 1 to 2, and the execution
    comes to rest after exactly two attempts, with the counter at 0. *)
Theorem single_flight_retry :
  (forall s ev s1 how,
     resume s ev = (s1, Completed how) ->
     step s ev = finally_ s1 /\
     (pendingDeployCount s1 > 1 ->
      pendingDeployCount (step s ev) = 1 /\ phase (step s ev) = Bundling /\
      trace (step s ev) = trace s1 ++ [DeployCall] /\
      deployCalls (step s ev) = S (deployCalls s1)) /\
     (pendingDeployCount s1 <= 1 ->
      pendingDeployCount (step s ev) = 0 /\ phase (step s ev) = Idle /\
      deployCalls (step s ev) = deployCalls s1)) /\
  (forall evs1 evs2,
     no_change evs1 = true -> no_change evs2 = true ->
     in_flight (exec evs1 (run true)) = true ->
     pendingDeployCount (exec evs1 (run true)) = 1 /\
     pendingDeployCount (onChange (exec evs1 (run true))) = 2 /\
     settles_to 2 (exec evs2 (step (exec evs1 (run true)) Change)) /\
     (phase (exec evs2 (step (exec evs1 (run true)) Change)) = Idle ->
      deployCalls (exec evs2 (step (exec evs1 (run true)) Change)) = 2%nat /\
      pendingDeployCount (exec evs2 (step (exec evs1 (run true)) Change)) = 0)).
Proof.
  split.
  - intros s ev s1 how Hr.
    assert (Hstep : step s ev = finally_ s1) by (unfold Orchestrator.step; by rewrite Hr).
    rewrite Hstep. split; [done|]. apply finally_spec.
  - intros evs1 evs2 Hq1 Hq2 Hf.
    assert (Hrun : settles_to 1 (run true)).
    { right; right; left. by cbn. }
    destruct (settles_exec 1 evs1 (run true) Hq1 Hrun) as [Hs1 Hp1].
    set (s1 := exec evs1 (run true)) in *.
    assert (Hw : watcher s1 = true) by (unfold s1; by rewrite watcher_exec).
    assert (Hone : pendingDeployCount s1 = 1 /\ deployCalls s1 = 1%nat).
    { specialize (Hp1 ltac:(cbn; lia)).
      destruct Hs1 as [Hx|[(Hi & _)|[(_ & Hp & Hc)|(_ & Hp & _)]]]; [| |done|lia];
        unfold in_flight in Hf; [rewrite Hx in Hf|rewrite Hi in Hf]; discriminate. }
    destruct Hone as [Hp Hc].
    destruct (change_in_flight s1 Hw Hf ltac:(lia)) as (Hp' & Hph & Hstep & Hc' & _).
    assert (Hs2 : settles_to 2 (step s1 Change)).
    { destruct Hstep as [-> | ->].
      - right; right; right. unfold in_flight. rewrite Hph. fold (in_flight s1).
        repeat split; [done|lia|congruence].
      - destruct (finally_spec (onChange s1)) as [Hretry _].
        destruct Hretry as (? & Hb & _ & ?); [lia|].
        right; right; left. unfold in_flight. rewrite Hb. repeat split; [done|congruence]. }
    destruct (settles_exec 2 evs2 _ Hq2 Hs2) as [Hfinal _].
    split; [done|]. split; [lia|]. split; [done|].
    intros Hi. destruct Hfinal as [Hx|[(_ & ? & ?)|[(Hf2 & _)|(Hf2 & _)]]];
      [congruence|done| |]; unfold in_flight in Hf2; by rewrite Hi in Hf2.
Qed.

(** *** The guards *)

(** Changes while the configuration is bundled only count up. *)
Lemma changes_while_bundling (k : nat) (s : State) :
  watcher s = true -> phase s = Bundling -> pendingDeployCount s >= 1 ->
  phase (exec (repeat Change k) s) = Bundling /\
  pendingDeployCount (exec (repeat Change k) s) = pendingDeployCount s + Z.of_nat k /\
  uploads (exec (repeat Change k) s) = uploads s /\
  deployCalls (exec (repeat Change k) s) = deployCalls s.
Proof.
  revert s. induction k as [|k IH]; intros s Hw Hb Hp.
  - cbn [repeat]. unfold Orchestrator.exec. cbn [fold_left]. repeat split; [done|lia].
  - cbn [repeat]. rewrite exec_cons.
    assert (Hstep : step s Change = onChange s).
    { destruct s as [ph pend ac w tr]. cbn in *. subst.
      unfold Orchestrator.step, Orchestrator.resume, onChange, abort_sleep. cbn.
      assert (Hg : (pend + 1 >? 1) = true) by (apply Z.gtb_lt; lia). by rewrite Hg. }
    destruct (change_in_flight s Hw) as (Hp' & Hph & _ & Hc & Hu);
      [unfold in_flight; by rewrite Hb|done|].
    rewrite Hstep. destruct (IH (onChange s)) as (H1 & H2 & H3 & H4).
    + rewrite <- Hstep, watcher_step. done.
    + congruence.
    + lia.
    + repeat split; [done|lia|congruence|congruence].
Qed.

(** The end of bundling with a change pending: no upload; the process
    ends on a failure, and otherwise the next attempt starts. *)
Lemma bundled_superseded (s : State) (r : Settled (list string)) :
  phase s = Bundling -> pendingDeployCount s > 1 ->
  uploads (step s (Bundled r)) = uploads s /\
  (phase (step s (Bundled r)) = Exited \/
   (phase (step s (Bundled r)) = Bundling /\
    pendingDeployCount (step s (Bundled r)) = 1 /\
    deployCalls (step s (Bundled r)) = S (deployCalls s))).
Proof.
  intros Hb Hp. destruct s as [ph pend ac w tr]. cbn in *. subst ph.
  assert (Hg : (pend >? 1) = true) by (apply Z.gtb_lt; lia).
  unfold Orchestrator.step, Orchestrator.resume, settle, after_bundle, finally_.
  destruct r as [[|code [|? ?]]|[| |]|]; destruct w;
    unfold uploads, deployCalls; repeat (cbn; rewrite ?Hg);
    (split; [count|]); first [by left | right; repeat split; count].
Qed.

(** A guard that fires ends the attempt as it is: nothing is called, and
    the [finally] block runs. *)
Lemma guarded_abort_is_quiet (s s1 : State) (ev : Event) :
  resume s ev = (s1, Completed GuardedAbort) ->
  step s ev = finally_ s1 /\
  phase (step s ev) <> Exited /\
  uploads (step s ev) = uploads s /\
  fetches (step s ev) = fetches s.
Proof.
  intros Hr.
  assert (Hstep : step s ev = finally_ s1) by (unfold Orchestrator.step; by rewrite Hr).
  rewrite Hstep. destruct (finally_keeps s1) as (-> & -> & _ & _ & Hx).
  repeat split; [done|..]; revert Hr; clear;
    destruct s as [ph pend ac w tr];
    unfold Orchestrator.resume, settle, after_bundle, after_assemble, after_patch,
      after_fetch, poll, onChange, abort_sleep;
    destruct ph, ev; cbn; break_resume; intros [= <-]; count.
Qed.

(** C1, as the code has it: [pendingDeployCount > 1] is checked when
    bundling has ended (before the configuration is evaluated and the
    analysis assembled), when the upload call has returned, and before each
    fetch of the manifest; a check that holds ends the attempt with no
    error, no further call, and the [finally] block.  Hence changes that
    arrive while the configuration is bundled are discarded before any
    upload call: the attempt makes none, and the next attempt starts unless
    bundling failed. *)
Theorem guards_discard_superseded_attempt :
  (forall s, pendingDeployCount s > 1 ->
     (phase s = Bundling ->
      forall code,
        resume s (Bundled (Resolved [code]))
          = (if watcher s then log [SetupWatchers] s else s, Completed GuardedAbort)) /\
     (forall signal host t,
        phase s = Uploading signal host ->
        resume s (Patched (Resolved t)) = (s, Completed GuardedAbort)) /\
     (forall signal host deployTime n,
        phase s = Sleeping signal host deployTime n ->
        resume s Slept = (s, Completed GuardedAbort))) /\
  (forall s ev s1,
     resume s ev = (s1, Completed GuardedAbort) ->
     step s ev = finally_ s1 /\
     phase (step s ev) <> Exited /\
     uploads (step s ev) = uploads s /\
     fetches (step s ev) = fetches s) /\
  (forall s k r,
     reachable s -> watcher s = true -> phase s = Bundling -> (0 < k)%nat ->
     uploads (step (exec (repeat Change k) s) (Bundled r)) = uploads s /\
     (phase (step (exec (repeat Change k) s) (Bundled r)) = Exited \/
      (phase (step (exec (repeat Change k) s) (Bundled r)) = Bundling /\
       pendingDeployCount (step (exec (repeat Change k) s) (Bundled r)) = 1 /\
       deployCalls (step (exec (repeat Change k) s) (Bundled r)) = S (deployCalls s)))).
Proof.
  split; [|split].
  - intros s Hp. assert (Hg : (pendingDeployCount s >? 1) = true) by (apply Z.gtb_lt; lia).
    destruct s as [ph pend ac w tr]. cbn in *. repeat split.
    + intros -> code. unfold Orchestrator.resume, settle, after_bundle. cbn.
      destruct w; cbn; by rewrite Hg.
    + intros signal host t ->. unfold Orchestrator.resume, settle, after_patch. cbn.
      by rewrite Hg.
    + intros signal host deployTime n ->. unfold Orchestrator.resume, poll. cbn.
      by rewrite Hg.
  - intros s ev s1. apply guarded_abort_is_quiet.
  - intros s k r Hreach Hw Hb Hk.
    assert (Hp : pendingDeployCount s >= 1).
    { apply reachable_pending; [done|]. unfold in_flight. by rewrite Hb. }
    destruct (changes_while_bundling k s Hw Hb Hp) as (Hb' & Hp' & Hu' & Hc').
    destruct (bundled_superseded (exec (repeat Change k) s) r Hb' ltac:(lia)) as [Hu Hnext].
    split; [congruence|].
    destruct Hnext as [Hx|(? & ? & ?)]; [by left|right]. repeat split; congruence.
Qed.

(** *** The propagation poller *)

Lemma log_log (l l' : list Obs) (s : State) : log l' (log l s) = log (l ++ l') s.
Proof. unfold log. cbn. by rewrite app_assoc. Qed.

Lemma finally_log_set_phase (l : list Obs) (p : Phase) (s : State) :
  finally_ (log l (set_phase p s)) = finally_ (log l s).
Proof. by rewrite <- (finally_set_phase p (log l s)). Qed.

Lemma fetched_newer (s : State) signal host deployTime n (t : Time) :
  phase s = Fetching signal host deployTime n ->
  time_le deployTime t = true ->
  step s (Fetched (Resolved t)) = finally_ (log [Deployed host] s).
Proof.
  intros Hph Ht. unfold Orchestrator.step, Orchestrator.resume, settle, after_fetch.
  rewrite Hph. cbn. by rewrite Ht.
Qed.

Lemma fetched_older (s : State) signal host deployTime n (t : Time) :
  phase s = Fetching signal host deployTime n ->
  time_le deployTime t = false ->
  step s (Fetched (Resolved t))
    = set_phase (Sleeping (abortController s) host deployTime n)
        (log [Sleep (1000 * n) (abortController s)] s).
Proof.
  intros Hph Ht. unfold Orchestrator.step, Orchestrator.resume, settle, after_fetch.
  rewrite Hph. cbn. by rewrite Ht.
Qed.

Lemma slept_fetches_again (s : State) signal host deployTime n :
  phase s = Sleeping signal host deployTime n ->
  pendingDeployCount s <= 1 ->
  step s Slept
    = set_phase (Fetching (abortController s) host deployTime (n + 1))
        (log [FetchManifest host (abortController s)] s).
Proof.
  intros Hph Hp. unfold Orchestrator.step, Orchestrator.resume, poll. rewrite Hph.
  destruct (pendingDeployCount s >? 1) eqn:Hg; [apply Z.gtb_lt in Hg; lia|reflexivity].
Qed.

(** The loop, from a fetch that is under way: a sleep and a new fetch for
    each manifest that is older than the deployment, and the end at the
    first that is not. *)
Lemma poll_loop (reads : list Time) (last : Time) :
  forall (s : State) signal host deployTime n,
    phase s = Fetching signal host deployTime n ->
    pendingDeployCount s <= 1 ->
    forallb (fun t => negb (time_le deployTime t)) reads = true ->
    time_le deployTime last = true ->
    exec (poll_events reads last) s
      = finally_ (log (backoff host (abortController s) n reads ++ [Deployed host]) s).
Proof.
  induction reads as [|t reads IH]; intros s signal host deployTime n Hph Hp Hold Hnew.
  - unfold poll_events. cbn [flat_map app backoff]. rewrite exec_cons.
    by rewrite (fetched_newer s _ _ _ _ _ Hph Hnew).
  - cbn [forallb] in Hold. apply andb_true_iff in Hold as [Ht Hold].
    apply negb_true_iff in Ht.
    unfold poll_events. cbn [flat_map app backoff]. rewrite !exec_cons.
    rewrite (fetched_older s _ _ _ _ _ Hph Ht).
    rewrite (slept_fetches_again _ (abortController s) host deployTime n) by done.
    fold (poll_events reads last).
    erewrite IH; [|reflexivity|done|done|done].
    cbn [abortController set_phase log].
    rewrite finally_log_set_phase, log_log, finally_log_set_phase, log_log.
    reflexivity.
Qed.

Lemma patched_starts_polling (s : State) signal host (deployTime : Time) :
  phase s = Uploading signal host ->
  pendingDeployCount s <= 1 ->
  step s (Patched (Resolved deployTime))
    = set_phase (Fetching (abortController s) host deployTime 1)
        (log [FetchManifest host (abortController s)] s).
Proof.
  intros Hph Hp. unfold Orchestrator.step, Orchestrator.resume, settle, after_patch, poll.
  rewrite Hph.
  destruct (pendingDeployCount s >? 1) eqn:Hg; [apply Z.gtb_lt in Hg; lia|reflexivity].
Qed.

Lemma fetches_backoff host signal n (reads : list Time) :
  length (List.filter is_fetch (backoff host signal n reads)) = length reads.
Proof.
  revert n. induction reads as [|t reads IH]; intros n; [reflexivity|].
  cbn. by rewrite IH.
Qed.

(** C5: the poller compares with [<=] on the two times; from the return of
    the upload call it fetches the manifest, sleeps [n] seconds after the
    [n]-th manifest that is older than the deployment, and ends the attempt
    as deployed at the first manifest that is not older.  For a deployment
    at [T] and manifests at [T-1], [T-1], [T] it makes three fetches, with
    sleeps of 1000 and 2000 milliseconds between them. *)
Theorem poller_confirms_newer_manifest :
  (forall x y, time_le (Some x) (Some y) = true <-> x <= y) /\
  (forall s signal host deployTime reads last,
     phase s = Uploading signal host ->
     pendingDeployCount s <= 1 ->
     forallb (fun t => negb (time_le deployTime t)) reads = true ->
     time_le deployTime last = true ->
     exec (Patched (Resolved deployTime) :: poll_events reads last) s
       = finally_
           (log (FetchManifest host (abortController s) ::
                 backoff host (abortController s) 1 reads ++ [Deployed host]) s) /\
     fetches (exec (Patched (Resolved deployTime) :: poll_events reads last) s)
       = (fetches s + length reads + 1)%nat) /\
  (forall s signal host T,
     phase s = Uploading signal host ->
     pendingDeployCount s <= 1 ->
     exec [Patched (Resolved (Some T));
           Fetched (Resolved (Some (T - 1))); Slept;
           Fetched (Resolved (Some (T - 1))); Slept;
           Fetched (Resolved (Some T))] s
       = finally_
           (log [FetchManifest host (abortController s);
                 Sleep 1000 (abortController s);
                 FetchManifest host (abortController s);
                 Sleep 2000 (abortController s);
                 FetchManifest host (abortController s);
                 Deployed host] s) /\
     fetches (exec [Patched (Resolved (Some T));
                    Fetched (Resolved (Some (T - 1))); Slept;
                    Fetched (Resolved (Some (T - 1))); Slept;
                    Fetched (Resolved (Some T))] s)
       = (fetches s + 3)%nat).
Proof.
  assert (Hgen : forall s signal host deployTime reads last,
     phase s = Uploading signal host ->
     pendingDeployCount s <= 1 ->
     forallb (fun t => negb (time_le deployTime t)) reads = true ->
     time_le deployTime last = true ->
     exec (Patched (Resolved deployTime) :: poll_events reads last) s
       = finally_
           (log (FetchManifest host (abortController s) ::
                 backoff host (abortController s) 1 reads ++ [Deployed host]) s) /\
     fetches (exec (Patched (Resolved deployTime) :: poll_events reads last) s)
       = (fetches s + length reads + 1)%nat).
  { intros s signal host deployTime reads last Hph Hp Hold Hnew.
    assert (Heq : exec (Patched (Resolved deployTime) :: poll_events reads last) s
       = finally_
           (log (FetchManifest host (abortController s) ::
                 backoff host (abortController s) 1 reads ++ [Deployed host]) s)).
    { rewrite exec_cons, (patched_starts_polling s _ _ _ Hph Hp).
      erewrite poll_loop; [|reflexivity|done|done|done].
      cbn [abortController set_phase log].
      by rewrite finally_log_set_phase, log_log. }
    split; [done|]. rewrite Heq.
    destruct (finally_keeps
                (log (FetchManifest host (abortController s) ::
                      backoff host (abortController s) 1 reads ++ [Deployed host]) s))
      as (_ & -> & _).
    unfold fetches. cbn [trace log]. rewrite count_app. cbn [List.filter is_fetch length].
    rewrite count_app, fetches_backoff. cbn. lia. }
  split; [|split].
  - intros x y. cbn. apply Z.leb_le.
  - exact Hgen.
  - intros s signal host T Hph Hp.
    destruct (Hgen s signal host (Some T) [Some (T - 1); Some (T - 1)] (Some T) Hph Hp)
      as [Heq Hn].
    + cbn. assert (Hlt : (T <=? T - 1) = false) by (apply Z.leb_gt; lia). by rewrite Hlt.
    + cbn. apply Z.leb_le. lia.
    + split; [exact Heq|]. etransitivity; [exact Hn|]. cbn [length]. lia.
Qed.

End OrchestratorFacts.

(** C1 fails as worded for a change that arrives while the analysis is
    assembled: no guard stands between [bundleAnalysis] and [patchSite],
    and the handler has replaced the aborted controller, so the upload call
    of the superseded attempt is made, with the counter at 2 and with the
    signal of the new controller. *)
Lemma change_while_assembling_is_uploaded :
  Orchestrator.phase
    (Orchestrator.exec EvaluateCases.exports_host OrchestratorCases.configPath
       [OrchestratorCases.bundled] (Orchestrator.run true))
    = Orchestrator.Assembling "exports.default = { host: 'shop.example.com' };" OrchestratorCases.host /\
  Orchestrator.exec EvaluateCases.exports_host OrchestratorCases.configPath
    OrchestratorCases.change_while_assembling (Orchestrator.run true)
    = {| Orchestrator.phase := Orchestrator.Uploading 1 OrchestratorCases.host;
         Orchestrator.pendingDeployCount := 2;
         Orchestrator.abortController := 1;
         Orchestrator.watcher := true;
         Orchestrator.trace :=
           [Orchestrator.DeployCall; Orchestrator.SetupWatchers;
            Orchestrator.BundleAnalysisCall (Evaluate.JStr "./.outsmartly/");
            Orchestrator.DetectedChanges;
            Orchestrator.PatchSite OrchestratorCases.host "exports.default = { host: 'shop.example.com' };"
              Assemble.empty_analysis 1] |}.
Proof. split; vm_compute; reflexivity. Qed.

Lemma guards_discard_superseded_attempt_witness :
  Orchestrator.uploads
    (Orchestrator.step EvaluateCases.exports_host OrchestratorCases.configPath
       (Orchestrator.exec EvaluateCases.exports_host OrchestratorCases.configPath
          (repeat Orchestrator.Change 1) (Orchestrator.run true))
       OrchestratorCases.bundled)
    = Orchestrator.uploads (Orchestrator.run true) /\
  Orchestrator.phase
    (Orchestrator.step EvaluateCases.exports_host OrchestratorCases.configPath
       (Orchestrator.exec EvaluateCases.exports_host OrchestratorCases.configPath
          (repeat Orchestrator.Change 1) (Orchestrator.run true))
       OrchestratorCases.bundled)
    = Orchestrator.Bundling.
Proof.
  destruct (proj2 (proj2 (guards_discard_superseded_attempt
                            EvaluateCases.exports_host OrchestratorCases.configPath))
              (Orchestrator.run true) 1%nat
              (Orchestrator.Resolved ["exports.default = { host: 'shop.example.com' };"])
              (Orchestrator.reach_run _ _ true) eq_refl eq_refl (Nat.lt_0_succ 0))
    as [Hu _].
  split; [exact Hu | vm_compute; reflexivity].
Defined.

Lemma single_flight_retry_witness :
  Orchestrator.pendingDeployCount
    (Orchestrator.onChange
       (Orchestrator.exec EvaluateCases.exports_host OrchestratorCases.configPath
          [OrchestratorCases.bundled] (Orchestrator.run true))) = 2 /\
  Orchestrator.deployCalls
    (Orchestrator.exec EvaluateCases.exports_host OrchestratorCases.configPath
       OrchestratorCases.second_attempt
       (Orchestrator.step EvaluateCases.exports_host OrchestratorCases.configPath
          (Orchestrator.exec EvaluateCases.exports_host OrchestratorCases.configPath
             [OrchestratorCases.bundled] (Orchestrator.run true))
          Orchestrator.Change)) = 2%nat /\
  Orchestrator.pendingDeployCount
    (Orchestrator.exec EvaluateCases.exports_host OrchestratorCases.configPath
       OrchestratorCases.second_attempt
       (Orchestrator.step EvaluateCases.exports_host OrchestratorCases.configPath
          (Orchestrator.exec EvaluateCases.exports_host OrchestratorCases.configPath
             [OrchestratorCases.bundled] (Orchestrator.run true))
          Orchestrator.Change)) = 0.
Proof.
  destruct (proj2 (single_flight_retry EvaluateCases.exports_host
                     OrchestratorCases.configPath)
              [OrchestratorCases.bundled] OrchestratorCases.second_attempt
              eq_refl eq_refl eq_refl)
    as (_ & Htwo & _ & Hrest).
  split; [exact Htwo|]. apply Hrest. vm_compute; reflexivity.
Defined.

Lemma poller_confirms_newer_manifest_witness :
  Orchestrator.fetches
    (Orchestrator.exec EvaluateCases.exports_host OrchestratorCases.configPath
       [Orchestrator.Patched (Orchestrator.Resolved (Some 1700000000000));
        Orchestrator.Fetched (Orchestrator.Resolved (Some (1700000000000 - 1)));
        Orchestrator.Slept;
        Orchestrator.Fetched (Orchestrator.Resolved (Some (1700000000000 - 1)));
        Orchestrator.Slept;
        Orchestrator.Fetched (Orchestrator.Resolved (Some 1700000000000))]
       OrchestratorCases.uploading)
    = (Orchestrator.fetches OrchestratorCases.uploading + 3)%nat.
Proof.
  apply (proj2 (proj2 (poller_confirms_newer_manifest EvaluateCases.exports_host
                         OrchestratorCases.configPath))
           OrchestratorCases.uploading 0%nat OrchestratorCases.host 1700000000000).
  - vm_compute; reflexivity.
  - vm_compute; discriminate.
Defined.

(** * Part III: further properties of the code *)

(** ** The configuration path *)
Section ConfigPathFacts.
Context `{PathOps} `{Assemble.FileSystem}.
Import Config.

Lemma probe_config_some (exts : list string) (p : string) :
  probe_config exts = Some p ->
  Assemble.existsSync p = true /\ exists ext, In ext exts /\ p = config_candidate ext.
Proof.
  induction exts as [|ext exts IH]; [discriminate|]. cbn [probe_config].
  destruct (Assemble.existsSync (config_candidate ext)) eqn:He.
  - intros [= <-]. split; [done|]. exists ext. split; [by left|done].
  - intros Hp. destruct (IH Hp) as (Hx & e & Hin & ->). split; [done|].
    exists e. split; [by right|done].
Qed.

Lemma probe_config_first (pre post : list string) (ext : string) :
  (forall e, In e pre -> Assemble.existsSync (config_candidate e) = false) ->
  Assemble.existsSync (config_candidate ext) = true ->
  probe_config (pre ++ ext :: post) = Some (config_candidate ext).
Proof.
  intros Hpre He. induction pre as [|e pre IH]; cbn [probe_config app].
  - by rewrite He.
  - rewrite (Hpre e) by (by left). apply IH. intros e' Hin. apply Hpre. by right.
Qed.

Lemma probe_config_none (exts : list string) :
  probe_config exts = None <->
  forall e, In e exts -> Assemble.existsSync (config_candidate e) = false.
Proof.
  induction exts as [|ext exts IH]; cbn [probe_config].
  - split; [intros _ e []|done].
  - destruct (Assemble.existsSync (config_candidate ext)) eqn:He.
    + split; [discriminate|]. intros Hall. rewrite (Hall ext) in He by (by left). discriminate.
    + rewrite IH. split.
      * intros Hall e [<-|Hin]; [done|by apply Hall].
      * intros Hall e Hin. apply Hall. by right.
Qed.

(** X1: whatever path [findOutsmartlyConfigPath] returns exists on disk, and
    it is the resolved explicit path or the resolved [outsmartly.config]
    with one of the supported extensions. *)
Theorem findOutsmartlyConfigPath_exists (customConfigPath : option string) (fullPath : string) :
  findOutsmartlyConfigPath customConfigPath = inr fullPath ->
  Assemble.existsSync fullPath = true /\
  (fullPath = path_resolve process_cwd (Js.tpl customConfigPath) \/
   exists ext, In ext Resolve.SUPPORTED_EXTENSIONS /\ fullPath = config_candidate ext).
Proof.
  unfold findOutsmartlyConfigPath. destruct (Js.truthy customConfigPath).
  - destruct (Assemble.existsSync (path_resolve process_cwd (Js.tpl customConfigPath))) eqn:He;
      [|discriminate].
    cbn. intros [= <-]. auto.
  - destruct (probe_config Resolve.SUPPORTED_EXTENSIONS) as [p|] eqn:Hp; [|discriminate].
    intros [= <-]. destruct (probe_config_some _ _ Hp) as [Hx Hext]. auto.
Qed.

(** X2: without an explicit path the extensions are probed in the order of
    [SUPPORTED_EXTENSIONS] and the first file that exists is returned,
    whatever exists for the later extensions; the search fails exactly when
    no candidate exists, with an error that names the [.js] candidate. *)
Theorem findOutsmartlyConfigPath_probe_order (customConfigPath : option string) :
  Js.truthy customConfigPath = false ->
  (forall pre ext post,
     Resolve.SUPPORTED_EXTENSIONS = pre ++ ext :: post ->
     (forall e, In e pre -> Assemble.existsSync (config_candidate e) = false) ->
     Assemble.existsSync (config_candidate ext) = true ->
     findOutsmartlyConfigPath customConfigPath = inr (config_candidate ext)) /\
  ((forall e, In e Resolve.SUPPORTED_EXTENSIONS ->
              Assemble.existsSync (config_candidate e) = false) <->
   findOutsmartlyConfigPath customConfigPath =
     inl (Error ("No Outsmartly config file could be found at " +:+ config_candidate ".js"))).
Proof.
  intros Hc. unfold findOutsmartlyConfigPath. rewrite Hc. split.
  - intros pre ext post Hs Hpre He. rewrite Hs.
    by rewrite (probe_config_first pre post ext Hpre He).
  - rewrite <- probe_config_none.
    destruct (probe_config Resolve.SUPPORTED_EXTENSIONS); split; done.
Qed.

(** X3: an explicit path is never replaced by a probed one: when its file
    exists the resolved path is returned, and when it does not the call
    fails with an error that names the path as given, whether or not an
    [outsmartly.config] file exists.  The empty string counts as no path. *)
Theorem findOutsmartlyConfigPath_explicit (customConfigPath : string) :
  (customConfigPath <> "" ->
   findOutsmartlyConfigPath (Some customConfigPath) =
     if Assemble.existsSync (path_resolve process_cwd customConfigPath)
     then inr (path_resolve process_cwd customConfigPath)
     else inl (Error ("No config file could be found at the provided custom path: " +:+
                      customConfigPath))) /\
  findOutsmartlyConfigPath (Some "") = findOutsmartlyConfigPath None.
Proof.
  split; [|reflexivity].
  intros Hne. unfold findOutsmartlyConfigPath. cbn [Js.truthy Js.tpl].
  apply String.eqb_neq in Hne. rewrite Hne. cbn [negb].
  by destruct (Assemble.existsSync (path_resolve process_cwd customConfigPath)).
Qed.

End ConfigPathFacts.

Lemma findOutsmartlyConfigPath_exists_witness :
  @Assemble.existsSync ConfigCases.fs_ts "/home/dev/site/outsmartly.config.ts" = true.
Proof.
  apply (@findOutsmartlyConfigPath_exists Cases.posix ConfigCases.fs_ts None
           "/home/dev/site/outsmartly.config.ts").
  vm_compute; reflexivity.
Defined.

Lemma findOutsmartlyConfigPath_probe_order_witness :
  @Config.findOutsmartlyConfigPath Cases.posix ConfigCases.fs_ts_and_js None
    = inr (@Config.config_candidate Cases.posix ".js").
Proof.
  apply (proj1 (@findOutsmartlyConfigPath_probe_order Cases.posix ConfigCases.fs_ts_and_js
                  None eq_refl)
           [] ".js" [".jsx"; ".mjs"; ".mjsx"; ".cjs"; ".cjsx"; ".ts"; ".tsx"] eq_refl).
  - intros e [].
  - vm_compute; reflexivity.
Defined.

Lemma findOutsmartlyConfigPath_explicit_witness :
  @Config.findOutsmartlyConfigPath Cases.posix ConfigCases.fs_ts_and_js (Some "deploy/edge.js")
    = inl (Error "No config file could be found at the provided custom path: deploy/edge.js").
Proof.
  rewrite (proj1 (@findOutsmartlyConfigPath_explicit Cases.posix ConfigCases.fs_ts_and_js
                    "deploy/edge.js")).
  - vm_compute; reflexivity.
  - discriminate.
Defined.

(** ** The access token *)
Section TokenFacts.
Context `{PathOps}.
Variable homedir : string.
Variable JSON_string : string -> string.
Variable outputFileSync : string -> string -> option JsError.
Import Config.

#[local] Abbreviation findToken := (findBearerToken homedir JSON_string outputFileSync).
#[local] Abbreviation tokenFile := (configFilePath homedir).

(** X4: a non-empty [--token] flag is returned as it is, whatever the
    environment holds; without the flag a non-empty [OUTSMARTLY_TOKEN] is
    returned.  In both cases nothing is asked, written or printed, and the
    token is not validated. *)
Theorem findBearerToken_flag_then_env (token env : option string) (answer t : string) :
  t <> "" ->
  (token = Some t -> findToken token env answer = ([], t)) /\
  (token = None -> env = Some t -> findToken token env answer = ([], t)).
Proof.
  intros Hne. apply String.eqb_neq in Hne.
  split; [intros ->|intros -> ->]; unfold findBearerToken; cbn; by rewrite Hne.
Qed.

(** X5: when neither source gives a non-empty token the prompt is shown
    once, its answer is returned, and the answer is written once to the
    configuration file of the user; a failed write is reported in two lines
    and the answer is returned all the same.  An empty [--token] flag hides
    the environment variable: the prompt is shown although
    [OUTSMARTLY_TOKEN] holds a token. *)
Theorem findBearerToken_prompt (token env : option string) (answer : string) :
  (token = Some "" \/ token = None /\ Js.truthy env = false) ->
  snd (findToken token env answer) = answer /\
  (outputFileSync tokenFile (config_json JSON_string answer) = None ->
   fst (findToken token env answer)
     = [Prompt; OutputFile tokenFile (config_json JSON_string answer)]) /\
  (forall e,
     outputFileSync tokenFile (config_json JSON_string answer) = Some e ->
     fst (findToken token env answer)
       = [Prompt; OutputFile tokenFile (config_json JSON_string answer);
          Print ("Unable to write outsmartly configuration file to: " +:+ tokenFile);
          PrintError e]).
Proof.
  intros Hsrc.
  assert (Hfalsy : Js.truthy (nullish_or token env) = false).
  { destruct Hsrc as [->|[-> Henv]]; [reflexivity|exact Henv]. }
  unfold findBearerToken. rewrite Hfalsy. cbn [negb].
  destruct (outputFileSync tokenFile (config_json JSON_string answer)) as [e|];
    repeat split; try done.
  intros e' [= <-]. reflexivity.
Qed.

End TokenFacts.

Lemma findBearerToken_flag_then_env_witness :
  @Config.findBearerToken Cases.posix "/home/dev" ConfigCases.JSON_string ConfigCases.writable
    (Some "flag-token") (Some "env-token") "typed-token" = ([], "flag-token").
Proof.
  apply (proj1 (@findBearerToken_flag_then_env Cases.posix "/home/dev" ConfigCases.JSON_string
                  ConfigCases.writable (Some "flag-token") (Some "env-token") "typed-token"
                  "flag-token" ltac:(discriminate)) eq_refl).
Defined.

Lemma findBearerToken_prompt_witness :
  snd (@Config.findBearerToken Cases.posix "/home/dev" ConfigCases.JSON_string
         ConfigCases.read_only (Some "") (Some ConfigCases.token) ConfigCases.pasted)
    = ConfigCases.pasted.
Proof.
  apply (proj1 (@findBearerToken_prompt Cases.posix "/home/dev" ConfigCases.JSON_string
                  ConfigCases.read_only (Some "") (Some ConfigCases.token) ConfigCases.pasted
                  (or_introl eq_refl))).
Defined.

(** ** The watched files *)
Section WatcherFacts.
Import Watchers.

Lemma add_modules_sets (modules : list string) (wf prev w : gset string) :
  add_modules modules wf prev w
    = (wf ∪ list_to_set modules, prev ∖ list_to_set modules, w ∪ list_to_set modules).
Proof.
  revert wf prev w. induction modules as [|id modules IH]; intros wf prev w.
  - cbn. f_equal; [f_equal|]; set_solver.
  - cbn [add_modules]. rewrite IH. cbn [list_to_set]. f_equal; [f_equal|]; set_solver.
Qed.

Lemma unwatch_all_sets (filePaths : list string) (w : gset string) :
  unwatch_all filePaths w = w ∖ list_to_set filePaths.
Proof.
  revert w. induction filePaths as [|p filePaths IH]; intros w.
  - cbn. set_solver.
  - cbn [unwatch_all fold_left]. fold (unwatch_all filePaths (w ∖ {[p]})).
    rewrite IH. cbn [list_to_set]. set_solver.
Qed.

Lemma setupWatchers_sets (modules : list string) (s : State) :
  watchedFiles (setupWatchers modules s) = watchedFiles s ∪ list_to_set modules /\
  watched (setupWatchers modules s)
    = (watched s ∪ list_to_set modules) ∖ (watchedFiles s ∖ list_to_set modules).
Proof.
  unfold setupWatchers. rewrite add_modules_sets. cbn [watchedFiles watched].
  split; [done|]. by rewrite unwatch_all_sets, list_to_set_elements_L.
Qed.

(** X6: after [setupWatchers] every module of the bundle is watched; a
    file recorded in [watchedFiles] that is no longer a module is not
    watched; a path that is watched without being recorded (the
    configuration file watched by [run]) stays watched. *)
Theorem setupWatchers_watches_modules (modules : list string) (s : State) (p : string) :
  (In p modules -> p ∈ watched (setupWatchers modules s)) /\
  (p ∈ watchedFiles s -> ~ In p modules -> p ∉ watched (setupWatchers modules s)) /\
  (p ∈ watched s -> p ∉ watchedFiles s -> p ∈ watched (setupWatchers modules s)).
Proof.
  destruct (setupWatchers_sets modules s) as [_ ->].
  rewrite <- !list_elem_of_In. set_solver.
Qed.

(** X7: [watchedFiles] only grows: a call adds the modules and drops
    nothing, also not the files it unwatches; and a second call with the
    same modules changes nothing. *)
Theorem setupWatchers_never_forgets (modules : list string) (s : State) :
  watchedFiles (setupWatchers modules s) = watchedFiles s ∪ list_to_set modules /\
  watchedFiles s ⊆ watchedFiles (setupWatchers modules s) /\
  setupWatchers modules (setupWatchers modules s) = setupWatchers modules s.
Proof.
  destruct (setupWatchers_sets modules s) as [Hwf Hw].
  destruct (setupWatchers_sets modules (setupWatchers modules s)) as [Hwf2 Hw2].
  split; [done|]. split; [set_solver|].
  destruct (setupWatchers modules (setupWatchers modules s)) as [wf2 w2].
  destruct (setupWatchers modules s) as [wf1 w1]. cbn in *. subst.
  f_equal; set_solver.
Qed.

Lemma follows_step (initial wf w : gset string) (b modules : list string) :
  list_to_set b ⊆ wf -> w ⊆ list_to_set b ∪ initial ->
  (w ∪ list_to_set modules) ∖ (wf ∖ list_to_set modules) ⊆ list_to_set modules ∪ initial.
Proof.
  intros Hrec Hout p. rewrite elem_of_difference, !elem_of_union, elem_of_difference.
  intros [[Hw|Hm] Hn]; [|by left].
  destruct (decide (p ∈ (list_to_set modules : gset string))) as [|Hnm]; [by left|].
  right. apply Hout in Hw. apply elem_of_union in Hw as [Hb|]; [|done].
  exfalso. apply Hn. split; [by apply Hrec|done].
Qed.

Lemma passes_invariant (initial : gset string) (bundles : list (list string))
    (modules : list string) :
  list_to_set modules ⊆ watchedFiles (passes initial (bundles ++ [modules])) /\
  list_to_set modules ⊆ watched (passes initial (bundles ++ [modules])) /\
  watched (passes initial (bundles ++ [modules])) ⊆ list_to_set modules ∪ initial.
Proof.
  revert modules. induction bundles as [|b bundles IH] using rev_ind; intros modules.
  - cbn [app passes fold_left].
    destruct (setupWatchers_sets modules {| watchedFiles := ∅; watched := initial |})
      as [-> ->]. cbn [watchedFiles watched]. set_solver.
  - unfold passes. rewrite fold_left_app. cbn [fold_left].
    fold (passes initial (bundles ++ [b])).
    destruct (IH b) as (Hrec & Hin & Hout).
    destruct (setupWatchers_sets modules (passes initial (bundles ++ [b]))) as [-> ->].
    clear IH. split; [set_solver|]. split; [set_solver|].
    by eapply follows_step.
Qed.

(** X8: over any number of bundling passes the watcher follows the last
    bundle: a path that was not watched from the start is watched after a
    pass exactly when it is a module of that pass. *)
Theorem setupWatchers_follows_last_bundle (initial : gset string)
    (bundles : list (list string)) (modules : list string) (p : string) :
  p ∉ initial ->
  (p ∈ watched (passes initial (bundles ++ [modules])) <-> In p modules).
Proof.
  intros Hp. destruct (passes_invariant initial bundles modules) as (_ & H1 & H2).
  rewrite <- list_elem_of_In. set_solver.
Qed.

End WatcherFacts.

Lemma setupWatchers_follows_last_bundle_witness :
  "/home/dev/site/src/old.js"
    ∈ Watchers.watched
        (Watchers.passes {["/home/dev/site/outsmartly.config.js"]}
           ([["/home/dev/site/outsmartly.config.js"; "/home/dev/site/src/old.js"]] ++
            [["/home/dev/site/outsmartly.config.js"; "/home/dev/site/src/new.js"]]))
  <-> In "/home/dev/site/src/old.js"
        ["/home/dev/site/outsmartly.config.js"; "/home/dev/site/src/new.js"].
Proof.
  apply (setupWatchers_follows_last_bundle {["/home/dev/site/outsmartly.config.js"]}).
  vm_compute. intros Hin. discriminate Hin.
Defined.

Lemma setupWatchers_watches_modules_witness :
  "/home/dev/site/src/new.js"
    ∈ Watchers.watched
        (Watchers.setupWatchers ["/home/dev/site/src/new.js"]
           {| Watchers.watchedFiles := {["/home/dev/site/src/old.js"]};
              Watchers.watched := {["/home/dev/site/src/old.js"]} |}).
Proof.
  apply (proj1 (setupWatchers_watches_modules ["/home/dev/site/src/new.js"]
                  {| Watchers.watchedFiles := {["/home/dev/site/src/old.js"]};
                     Watchers.watched := {["/home/dev/site/src/old.js"]} |}
                  "/home/dev/site/src/new.js")).
  by left.
Defined.

(** ** The cancellable timer *)
Section SleepFacts.
Import Sleep.



End SleepFacts.

(** ** The orchestrator: invariants of an execution *)
Section OrchestratorInvariants.
Import Evaluate Orchestrator.
Variable runInNewContext : string -> string -> JsError + option DefaultExport.
Variable configPath : string.

#[local] Abbreviation resume := (Orchestrator.resume runInNewContext configPath).
#[local] Abbreviation step := (Orchestrator.step runInNewContext configPath).
#[local] Abbreviation exec := (Orchestrator.exec runInNewContext configPath).
#[local] Abbreviation reachable := (Orchestrator.reachable runInNewContext configPath).

Ltac unfold_step :=
  unfold Orchestrator.step, Orchestrator.resume, settle, after_bundle, after_assemble,
    after_patch, after_fetch, poll, onChange, abort_sleep, finally_, catch_,
    deploy_enter in *.

Ltac split_cases :=
  repeat match goal with
  | |- context [rollupOutsmartlyConfigFile ?r] => destruct r as [[|? [|? ?]]|[| |]|]; cbn
  | |- context [match ?r with Resolved _ => _ | Rejected _ => _ | ProcessExit => _ end] =>
      destruct r as [?|[| |]|]; cbn
  | |- context [match evaluate ?a ?b ?c with _ => _ end] =>
      destruct (evaluate a b c) as [?|[? ?]]; cbn
  | |- context [if ?b then _ else _] => destruct b eqn:?; cbn
  end.

Ltac counts :=
  unfold deployCalls, uploads, fetches in *; cbn in *;
  rewrite ?(count_app), ?length_app in *; cbn in *; try lia.

Lemma reachable_exec (evs : list Event) (s : State) :
  reachable s -> reachable (exec evs s).
Proof.
  revert s. induction evs as [|ev evs IH]; intros s Hs; [done|].
  rewrite exec_cons. apply IH. by constructor.
Qed.

Lemma one_upload_each_step (s : State) (ev : Event) :
  one_upload_each s -> one_upload_each (step s ev).
Proof.
  destruct s as [ph pend ac w tr]. unfold one_upload_each. unfold_step.
  destruct ph, ev; cbn; intros Hinv; split_cases; counts.
Qed.

Lemma one_upload_each_reachable (s : State) : reachable s -> one_upload_each s.
Proof.
  induction 1 as [watch|s ev Hs IH].
  - unfold one_upload_each. cbn. counts.
  - by apply one_upload_each_step.
Qed.

Lemma sleep_signal_live_reachable (s : State) : reachable s -> sleep_signal_live s.
Proof.
  induction 1 as [watch|s ev Hs IH]; [done|].
  revert IH. clear Hs. destruct s as [ph pend ac w tr]. unfold sleep_signal_live. unfold_step.
  destruct ph, ev; cbn; intros Hinv; subst; rewrite ?Nat.leb_refl; cbn;
    split_cases; try done.
  rewrite Nat.leb_refl in *. discriminate.
Qed.

Lemma single_upload_app (u : bool) (a b : list Obs) :
  single_upload u (a ++ b) = single_upload u a && single_upload (uploaded_after u a) b.
Proof.
  revert u. induction a as [|o a IH]; intros u; [reflexivity|].
  cbn [app single_upload uploaded_after].
  destruct (is_deploy_call o); [apply IH|].
  destruct (is_upload o); [|apply IH].
  rewrite IH. by rewrite andb_assoc.
Qed.

Lemma uploaded_after_app (u : bool) (a b : list Obs) :
  uploaded_after u (a ++ b) = uploaded_after (uploaded_after u a) b.
Proof.
  revert u. induction a as [|o a IH]; intros u; [reflexivity|].
  cbn [app uploaded_after]. apply IH.
Qed.

(** A stretch without [DeployCall] of a trace in which no attempt uploads
    twice holds one upload call at most, and none when the attempt had
    uploaded before the stretch. *)
Lemma single_upload_stretch (u : bool) (attempt rest : list Obs) :
  Forall (fun o => is_deploy_call o = false) attempt ->
  single_upload u (attempt ++ rest) = true ->
  (length (List.filter is_upload attempt) <= (if u then 0 else 1))%nat /\
  uploaded_after u attempt
    = u || negb (length (List.filter is_upload attempt) =? 0)%nat.
Proof.
  intros Hno. revert u. induction Hno as [|o attempt Ho Hno IH]; intros u.
  - intros _. cbn. split; [destruct u; lia|by rewrite orb_false_r].
  - cbn [app single_upload uploaded_after List.filter]. rewrite Ho.
    destruct (is_upload o).
    + intros [Hu Hs]%andb_true_iff. apply negb_true_iff in Hu. subst u.
      destruct (IH true Hs) as [Hlen ->]. cbn [length]. split; [lia|reflexivity].
    + intros Hs. by apply IH.
Qed.

Lemma uploads_once_step (s : State) (ev : Event) :
  uploads_once s -> uploads_once (step s ev).
Proof.
  destruct s as [ph pend ac w tr]. unfold uploads_once. unfold_step.
  destruct ph, ev; cbn; intros [Hs Hu]; split_cases;
    rewrite ?single_upload_app, ?uploaded_after_app; cbn;
    rewrite ?Hs, ?Hu; cbn; try done;
    rewrite ?single_upload_app, ?uploaded_after_app; cbn;
    rewrite ?Hs, ?Hu; cbn; done.
Qed.

Lemma uploads_once_reachable (s : State) : reachable s -> uploads_once s.
Proof.
  induction 1 as [watch|s ev Hs IH]; [by split|]. by apply uploads_once_step.
Qed.

(** X10: each deploy attempt makes at most one upload call, and makes it
    only after its analysis is assembled.  In every state of an execution,
    any stretch of the trace that holds no [DeployCall], and so lies
    within one attempt, holds one upload call at most; and while the
    current attempt bundles or assembles, such a stretch at the end of the
    trace, as the one that follows the last [DeployCall], holds none. *)
Theorem one_upload_per_attempt (s : State) (before attempt after : list Obs) :
  reachable s ->
  trace s = before ++ attempt ++ after ->
  Forall (fun o => is_deploy_call o = false) attempt ->
  (length (List.filter is_upload attempt) <= 1)%nat /\
  (phase s = Bundling \/ (exists code host, phase s = Assembling code host) ->
   after = [] -> List.filter is_upload attempt = []).
Proof.
  intros Hs Htr Hno. destruct (uploads_once_reachable s Hs) as [Hsingle Hcur].
  rewrite Htr in Hsingle, Hcur. rewrite single_upload_app in Hsingle.
  apply andb_true_iff in Hsingle as [_ Hsingle].
  destruct (single_upload_stretch _ _ _ Hno Hsingle) as [Hlen Hafter].
  split; [destruct (uploaded_after false before); lia|].
  intros Hph ->. rewrite app_nil_r in Hcur.
  assert (Hzero : uploaded_after false (before ++ attempt) = false).
  { destruct Hph as [Hb|(code & host & Ha)]; [rewrite Hb in Hcur|rewrite Ha in Hcur]; done. }
  rewrite uploaded_after_app, Hafter in Hzero.
  apply orb_false_elim in Hzero as [_ Hz]. apply negb_false_iff, Nat.eqb_eq in Hz.
  by apply length_zero_iff_nil.
Qed.

(** X11: without [--watch] an execution makes exactly one attempt and at
    most one upload call, whatever happens: file changes are not handled
    and the counter never exceeds 1. *)
Theorem run_without_watch (evs : list Event) :
  deployCalls (exec evs (run false)) = 1%nat /\
  (uploads (exec evs (run false)) <= 1)%nat /\
  pendingDeployCount (exec evs (run false)) <= 1.
Proof.
  assert (Hinv : forall s,
            watcher s = false /\ deployCalls s = 1%nat /\ pendingDeployCount s <= 1 ->
            forall ev,
              watcher (step s ev) = false /\ deployCalls (step s ev) = 1%nat /\
              pendingDeployCount (step s ev) <= 1).
  { intros s (Hw & Hc & Hp) ev. split; [by rewrite watcher_step|].
    destruct (is_change ev) eqn:Hev.
    - destruct ev; try discriminate.
      assert (step s Change = s) as ->; [|done].
      unfold Orchestrator.step, Orchestrator.resume. rewrite Hw. by destruct (phase s).
    - split; [|by apply quiet_pending].
      unfold Orchestrator.step. destruct (resume s ev) as [s1 st] eqn:Hr.
      destruct (resume_quiet _ _ _ _ _ _ Hev Hr) as (Hp1 & Hc1 & _).
      destruct st; [congruence| |unfold deployCalls in *; cbn; congruence].
      destruct (finally_spec s1) as [_ Hrest].
      destruct Hrest as (_ & _ & ->); [lia|congruence]. }
  assert (Hall : forall evs s,
            watcher s = false /\ deployCalls s = 1%nat /\ pendingDeployCount s <= 1 ->
            watcher (exec evs s) = false /\ deployCalls (exec evs s) = 1%nat /\
            pendingDeployCount (exec evs s) <= 1).
  { intros evs'. induction evs' as [|ev evs' IH]; intros s Hs; [done|].
    rewrite exec_cons. apply IH. by apply Hinv. }
  destruct (Hall evs (run false)) as (_ & Hc & Hp).
  { cbn. repeat split; lia. }
  split; [done|]. split; [|done].
  rewrite <- Hc.
  assert (Hr : reachable (exec evs (run false))) by (apply reachable_exec; constructor).
  pose proof (one_upload_each_reachable _ Hr) as Hup. unfold one_upload_each in Hup.
  destruct (phase (exec evs (run false))); lia.
Qed.

(** X12: a file change during a backoff sleep cancels the sleep at once:
    the attempt ends without another fetch and without a failure, and the
    next attempt starts in the same step, with the counter back at 1. *)
Theorem change_during_sleep_restarts (s : State) signal host deployTime n :
  reachable s -> watcher s = true ->
  phase s = Sleeping signal host deployTime n ->
  step s Change = finally_ (onChange s) /\
  phase (step s Change) = Bundling /\
  pendingDeployCount (step s Change) = 1 /\
  deployCalls (step s Change) = S (deployCalls s) /\
  fetches (step s Change) = fetches s /\
  uploads (step s Change) = uploads s.
Proof.
  intros Hs Hw Hph.
  pose proof (sleep_signal_live_reachable s Hs) as Hlive.
  destruct (reachable_pending runInNewContext configPath s Hs) as [_ Hp].
  specialize (Hp ltac:(unfold in_flight; by rewrite Hph)).
  destruct s as [ph pend ac w tr]. unfold sleep_signal_live in Hlive. cbn in *. subst.
  assert (Hg : (pend + 1 >? 1) = true) by (apply Z.gtb_lt; lia).
  unfold_step. cbn. rewrite Hg. cbn. rewrite Nat.leb_refl. cbn. rewrite Hg.
  repeat split; counts.
Qed.

(** X13: any number of file changes while the configuration is bundled
    are folded into one follow-up: left without further changes, the
    execution comes to rest after exactly two attempts, with the counter
    at 0. *)
Theorem changes_are_coalesced (k : nat) (evs : list Event) :
  (0 < k)%nat -> no_change evs = true ->
  pendingDeployCount (exec (repeat Change k) (run true)) = 1 + Z.of_nat k /\
  settles_to 2 (exec evs (exec (repeat Change k) (run true))) /\
  (phase (exec evs (exec (repeat Change k) (run true))) = Idle ->
   deployCalls (exec evs (exec (repeat Change k) (run true))) = 2%nat /\
   pendingDeployCount (exec evs (exec (repeat Change k) (run true))) = 0).
Proof.
  intros Hk Hq.
  destruct (changes_while_bundling runInNewContext configPath k (run true))
    as (Hb & Hp & _ & Hc); [done|done|cbn; lia|].
  assert (Hs : settles_to 2 (exec (repeat Change k) (run true))).
  { right; right; right. unfold in_flight. rewrite Hb, Hp, Hc. cbn. repeat split; lia. }
  destruct (settles_exec runInNewContext configPath 2 evs _ Hq Hs) as [Hfinal _].
  split; [rewrite Hp; cbn; lia|]. split; [done|].
  intros Hi. destruct Hfinal as [Hx|[(_ & ? & ?)|[(Hf & _)|(Hf & _)]]];
    [congruence|done| |]; unfold in_flight in Hf; by rewrite Hi in Hf.
Qed.

(** X14: a bundle of the configuration that has no chunk or several is a
    failure of the attempt, reported with the number of assets, before the
    configuration is evaluated and whatever the counter holds: nothing is
    assembled or uploaded. *)
Theorem bundle_of_wrong_shape_fails (s : State) (output : list string) :
  phase s = Bundling -> length output <> 1%nat ->
  resume s (Bundled (Resolved output))
    = (log [Failed (OtherError
                      (Error ("Rollup generate() returned " +:+
                              pretty (Z.of_nat (length output)) +:+
                              " assets, but we expected only 1.")))] s, Fatal) /\
  uploads (step s (Bundled (Resolved output))) = uploads s /\
  phase (step s (Bundled (Resolved output))) = Exited.
Proof.
  intros Hph Hlen. destruct s as [ph pend ac w tr]. cbn in *. subst.
  unfold Orchestrator.step, Orchestrator.resume, settle, catch_.
  destruct output as [|code [|code' output]]; [|done|]; cbn; repeat split; counts.
Qed.

(** X15: under [--watch] a file change starts an attempt only when none is
    in flight.  At rest it starts one, with the counter at 1.  During an
    attempt that is not sleeping it starts none: it raises the counter,
    replaces the abort controller and leaves the attempt where it is. *)
Theorem change_is_single_flight (s : State) :
  reachable s -> watcher s = true ->
  (phase s = Idle ->
   phase (step s Change) = Bundling /\
   pendingDeployCount (step s Change) = 1 /\
   deployCalls (step s Change) = S (deployCalls s)) /\
  (in_flight s = true ->
   (forall signal host deployTime n, phase s <> Sleeping signal host deployTime n) ->
   phase (step s Change) = phase s /\
   pendingDeployCount (step s Change) = pendingDeployCount s + 1 /\
   abortController (step s Change) = S (abortController s) /\
   deployCalls (step s Change) = deployCalls s /\
   uploads (step s Change) = uploads s).
Proof.
  intros Hs Hw. destruct (reachable_pending runInNewContext configPath s Hs) as [Hidle Hfly].
  destruct s as [ph pend ac w tr]. cbn in *. subst. split.
  - intros ->. pose proof (Hidle eq_refl) as ->. clear Hidle Hfly Hs.
    assert (Hz : (0 + 1 >? 1) = false) by reflexivity.
    unfold_step. unfold deployCalls. cbn. rewrite !Hz. cbn. repeat split; counts.
  - intros Hf Hns. specialize (Hfly Hf).
    assert (Hg : (pend + 1 >? 1) = true) by (apply Z.gtb_lt; lia).
    unfold_step. unfold in_flight in Hf.
    destruct ph; try discriminate Hf; try (exfalso; by eapply Hns);
      unfold deployCalls, uploads; cbn; rewrite ?Hg; cbn; repeat split; counts.
Qed.

(** X16: the rejection of the upload or of a manifest fetch with an
    [AbortError] is not a failure: the attempt ends as it is, nothing is
    reported, and the process goes on with the [finally] block; any other
    rejection is reported as a failure. *)
Theorem abort_is_not_a_failure (s : State) (ev : Thrown -> Event) :
  (exists signal host, phase s = Uploading signal host /\ ev = fun e => Patched (Rejected e)) \/
  (exists signal host deployTime n,
     phase s = Fetching signal host deployTime n /\ ev = fun e => Fetched (Rejected e)) ->
  resume s (ev AbortError) = (s, Completed Aborted) /\
  step s (ev AbortError) = finally_ s /\
  phase (step s (ev AbortError)) <> Exited /\
  (forall e, e <> AbortError -> resume s (ev e) = (log [Failed e] s, Fatal)).
Proof.
  intros Hph. destruct s as [ph pend ac w tr]. cbn in *.
  destruct Hph as [(signal & host & -> & ->)|(signal & host & deployTime & n & -> & ->)];
    cbn; unfold Orchestrator.step, Orchestrator.resume, settle, catch_; cbn.
  all: repeat split; [apply finally_keeps|intros e Hne; by destruct e].
Qed.

End OrchestratorInvariants.

Lemma one_upload_per_attempt_witness :
  (length
     (List.filter Orchestrator.is_upload
        [Orchestrator.BundleAnalysisCall (Evaluate.JStr "./.outsmartly/");
         Orchestrator.PatchSite OrchestratorCases.host
           "exports.default = { host: 'shop.example.com' };" Assemble.empty_analysis 0])
   <= 1)%nat.
Proof.
  apply (one_upload_per_attempt EvaluateCases.exports_host OrchestratorCases.configPath
           OrchestratorCases.uploading [Orchestrator.DeployCall] _ []).
  - apply reachable_exec. constructor.
  - vm_compute; reflexivity.
  - repeat constructor.
Defined.

Lemma change_during_sleep_restarts_witness :
  Orchestrator.phase
    (Orchestrator.step EvaluateCases.exports_host OrchestratorCases.configPath
       (Orchestrator.exec EvaluateCases.exports_host OrchestratorCases.configPath
          [OrchestratorCases.bundled; OrchestratorCases.assembled;
           Orchestrator.Patched (Orchestrator.Resolved (Some 1700000060000));
           Orchestrator.Fetched (Orchestrator.Resolved (Some 1700000000000))]
          (Orchestrator.run true))
       Orchestrator.Change)
    = Orchestrator.Bundling.
Proof.
  apply (change_during_sleep_restarts EvaluateCases.exports_host OrchestratorCases.configPath
           _ 0%nat OrchestratorCases.host (Some 1700000060000) 1).
  - apply reachable_exec. constructor.
  - vm_compute; reflexivity.
  - vm_compute; reflexivity.
Defined.

Lemma changes_are_coalesced_witness :
  Orchestrator.deployCalls
    (Orchestrator.exec EvaluateCases.exports_host OrchestratorCases.configPath
       [OrchestratorCases.bundled; OrchestratorCases.bundled; OrchestratorCases.assembled;
        Orchestrator.Patched (Orchestrator.Resolved (Some 1700000060000));
        Orchestrator.Fetched (Orchestrator.Resolved (Some 1700000060000))]
       (Orchestrator.exec EvaluateCases.exports_host OrchestratorCases.configPath
          (repeat Orchestrator.Change 3) (Orchestrator.run true))) = 2%nat /\
  Orchestrator.pendingDeployCount
    (Orchestrator.exec EvaluateCases.exports_host OrchestratorCases.configPath
       [OrchestratorCases.bundled; OrchestratorCases.bundled; OrchestratorCases.assembled;
        Orchestrator.Patched (Orchestrator.Resolved (Some 1700000060000));
        Orchestrator.Fetched (Orchestrator.Resolved (Some 1700000060000))]
       (Orchestrator.exec EvaluateCases.exports_host OrchestratorCases.configPath
          (repeat Orchestrator.Change 3) (Orchestrator.run true))) = 0.
Proof.
  apply (changes_are_coalesced EvaluateCases.exports_host OrchestratorCases.configPath 3
           [OrchestratorCases.bundled; OrchestratorCases.bundled; OrchestratorCases.assembled;
            Orchestrator.Patched (Orchestrator.Resolved (Some 1700000060000));
            Orchestrator.Fetched (Orchestrator.Resolved (Some 1700000060000))]).
  - lia.
  - reflexivity.
  - vm_compute; reflexivity.
Defined.

Lemma bundle_of_wrong_shape_fails_witness :
  Orchestrator.phase
    (Orchestrator.step EvaluateCases.exports_host OrchestratorCases.configPath
       (Orchestrator.run true) (Orchestrator.Bundled (Orchestrator.Resolved []))) =
    Orchestrator.Exited.
Proof.
  apply (bundle_of_wrong_shape_fails EvaluateCases.exports_host OrchestratorCases.configPath
           (Orchestrator.run true) []).
  - reflexivity.
  - discriminate.
Defined.

Lemma change_is_single_flight_witness :
  Orchestrator.deployCalls
    (Orchestrator.step EvaluateCases.exports_host OrchestratorCases.configPath
       (Orchestrator.run true) Orchestrator.Change)
    = Orchestrator.deployCalls (Orchestrator.run true).
Proof.
  apply (proj2 (change_is_single_flight EvaluateCases.exports_host OrchestratorCases.configPath
                  (Orchestrator.run true) (Orchestrator.reach_run _ _ true) eq_refl)).
  - reflexivity.
  - discriminate.
Defined.

Lemma abort_is_not_a_failure_witness :
  Orchestrator.step EvaluateCases.exports_host OrchestratorCases.configPath
    OrchestratorCases.uploading
    (Orchestrator.Patched (Orchestrator.Rejected Orchestrator.AbortError))
    = Orchestrator.finally_ OrchestratorCases.uploading.
Proof.
  apply (abort_is_not_a_failure EvaluateCases.exports_host OrchestratorCases.configPath
           OrchestratorCases.uploading
           (fun e => Orchestrator.Patched (Orchestrator.Rejected e))).
  left. exists 0%nat, OrchestratorCases.host. split; reflexivity.
Defined.

(** ** Strings *)
Section StringFacts.

Lemma append_cons (x : ascii) (a b : string) : String x a +:+ b = String x (a +:+ b).
Proof. reflexivity. Qed.

Lemma length_append (a b : string) :
  String.length (a +:+ b) = (String.length a + String.length b)%nat.
Proof.
  induction a as [|x a IH]; [reflexivity|]. rewrite append_cons. cbn. by rewrite IH.
Qed.

Lemma substring_all (s : string) : substring 0 (String.length s) s = s.
Proof. induction s as [|x s IH]; [reflexivity|]. cbn. by rewrite IH. Qed.

Lemma substring_append_l (a b : string) : substring 0 (String.length a) (a +:+ b) = a.
Proof.
  induction a as [|x a IH]; [by destruct b|]. rewrite append_cons. cbn. by rewrite IH.
Qed.

Lemma substring_append_r (a b : string) :
  substring (String.length a) (String.length b) (a +:+ b) = b.
Proof.
  induction a as [|x a IH]; [apply substring_all|]. rewrite append_cons. cbn. exact IH.
Qed.

Lemma absent_cons (c x : ascii) (s : string) :
  Text.absent c (String x s) = negb (Ascii.eqb x c) && Text.absent c s.
Proof. reflexivity. Qed.

Lemma indexOf_from_absent (c : ascii) (s : string) (i : Z) :
  Text.absent c s = true -> Js.indexOf_from c s i = -1.
Proof.
  revert i. induction s as [|x s IH]; intros i; [reflexivity|].
  rewrite absent_cons. intros [Hx Hs]%andb_true_iff. apply negb_true_iff in Hx.
  cbn. rewrite Hx. by apply IH.
Qed.

Lemma indexOf_from_first (c : ascii) (a b : string) (i : Z) :
  Text.absent c a = true ->
  Js.indexOf_from c (a +:+ String c b) i = i + Js.len a.
Proof.
  revert i. induction a as [|x a IH]; intros i.
  - intros _. change ("" +:+ String c b) with (String c b). cbn [Js.indexOf_from].
    rewrite Ascii.eqb_refl. unfold Js.len. cbn. lia.
  - rewrite absent_cons. intros [Hx Ha]%andb_true_iff. apply negb_true_iff in Hx.
    rewrite append_cons. cbn [Js.indexOf_from]. rewrite Hx, IH by done.
    unfold Js.len. cbn [String.length]. lia.
Qed.

Lemma lastIndexOf_from_absent (c : ascii) (s : string) (i acc : Z) :
  Text.absent c s = true -> Js.lastIndexOf_from c s i acc = acc.
Proof.
  revert i acc. induction s as [|x s IH]; intros i acc; [reflexivity|].
  rewrite absent_cons. intros [Hx Hs]%andb_true_iff. apply negb_true_iff in Hx.
  cbn. rewrite Hx. by apply IH.
Qed.

Lemma lastIndexOf_from_last (c : ascii) (a b : string) (i acc : Z) :
  Text.absent c b = true ->
  Js.lastIndexOf_from c (a +:+ String c b) i acc = i + Js.len a.
Proof.
  intros Hb. revert i acc. induction a as [|x a IH]; intros i acc.
  - change ("" +:+ String c b) with (String c b). cbn [Js.lastIndexOf_from].
    rewrite Ascii.eqb_refl, lastIndexOf_from_absent by done. unfold Js.len. cbn. lia.
  - rewrite append_cons. cbn [Js.lastIndexOf_from]. rewrite IH.
    unfold Js.len. cbn [String.length]. lia.
Qed.

Lemma no_line_terminator_absent (s : string) :
  Js.no_line_terminator s = true -> Text.absent "010" s = true.
Proof.
  unfold Js.no_line_terminator, Text.absent, Js.isLineTerminator.
  induction (list_ascii_of_string s) as [|x l IH]; [done|]. cbn.
  intros [Hx Hl]%andb_true_iff. rewrite IH by done.
  apply negb_true_iff, orb_false_elim in Hx as [-> _]. reflexivity.
Qed.

(** [s.slice(0, n)] of a string that starts with [a], for [n] the length of [a]. *)
Lemma slice_prefix (a b : string) :
  Js.slice (a +:+ b) 0 (Js.len a) = a.
Proof.
  unfold Js.slice, Js.len. rewrite length_append.
  cbn [Z.ltb Z.compare]. rewrite Z.min_l by lia.
  replace (0 <? 0) with false by reflexivity.
  destruct (Z.of_nat (String.length a) <? 0) eqn:Hlt; [apply Z.ltb_lt in Hlt; lia|].
  rewrite Z.min_l by lia. rewrite Z.sub_0_r, Z.max_l by lia.
  rewrite Nat2Z.id. apply substring_append_l.
Qed.

(** [s.slice(n)] of a string that starts with [a], for [n] the length of [a]. *)
Lemma slice_from_suffix (a b : string) :
  Js.slice_from (a +:+ b) (Js.len a) = b.
Proof.
  unfold Js.slice_from, Js.slice, Js.len. rewrite length_append.
  destruct (Z.of_nat (String.length a) <? 0) eqn:Hlt; [apply Z.ltb_lt in Hlt; lia|].
  destruct (Z.of_nat (String.length a + String.length b) <? 0) eqn:Hlt2;
    [apply Z.ltb_lt in Hlt2; lia|].
  rewrite !Z.min_l by lia. rewrite Nat2Z.id.
  replace (Z.to_nat _) with (String.length b) by lia.
  apply substring_append_r.
Qed.

(** [s.slice(0, -1)] drops the last character. *)
Lemma slice_drop_last (a : string) (c : ascii) :
  Js.slice (a +:+ String c "") 0 (-1) = a.
Proof.
  unfold Js.slice, Js.len. rewrite length_append. cbn [String.length].
  replace (0 <? 0) with false by reflexivity.
  replace (-1 <? 0) with true by reflexivity.
  rewrite Z.min_l by lia. rewrite (Z.max_l _ 0) by lia.
  rewrite Z.sub_0_r, Z.max_l by lia.
  replace (Z.to_nat (Z.of_nat (String.length a + 1) + -1)) with (String.length a) by lia.
  apply substring_append_l.
Qed.

(** [s.slice(0)] is the whole string. *)
Lemma slice_from_zero (s : string) : Js.slice_from s 0 = s.
Proof.
  unfold Js.slice_from, Js.slice, Js.len.
  replace (0 <? 0) with false by reflexivity.
  destruct (Z.of_nat (String.length s) <? 0) eqn:Hlt; [apply Z.ltb_lt in Hlt; lia|].
  rewrite !Z.min_l by lia. rewrite Z.sub_0_r, Z.max_l by lia.
  rewrite Nat2Z.id. apply substring_all.
Qed.

End StringFacts.

(** ** The analysis assembler: snapshots, descriptors, output *)
Section ObjectFacts.
Context {V : Type}.

Lemma assign_proto (obj : gmap string V) (v : V) : Js.assign obj "__proto__" v = obj.
Proof. reflexivity. Qed.

Lemma assign_other (obj : gmap string V) (k : string) (v : V) :
  k <> "__proto__" -> Js.assign obj k v = <[k := v]> obj.
Proof. intros Hk. unfold Js.assign. apply String.eqb_neq in Hk. by rewrite Hk. Qed.

(** After [obj[k] = v] the test [k in obj] holds: by the new property, or
    for [__proto__] by inheritance. *)
Lemma has_assign_same (obj : gmap string V) (k : string) (v : V) :
  Js.has (Js.assign obj k v) k = true.
Proof.
  unfold Js.has, Js.assign. destruct (k =? "__proto__")%string eqn:Hk.
  - apply String.eqb_eq in Hk as ->. apply orb_true_r.
  - rewrite lookup_insert_eq. rewrite bool_decide_eq_true_2 by eauto. reflexivity.
Qed.

Lemma has_assign_mono (obj : gmap string V) (k k' : string) (v : V) :
  Js.has obj k' = true -> Js.has (Js.assign obj k v) k' = true.
Proof.
  unfold Js.has, Js.assign. destruct (k =? "__proto__")%string; [done|].
  intros [Hown|Hinh]%orb_true_iff; [|by rewrite Hinh, orb_true_r].
  apply bool_decide_eq_true in Hown. apply orb_true_iff. left.
  apply bool_decide_eq_true. destruct (decide (k = k')) as [->|Hne].
  - rewrite lookup_insert_eq. eauto.
  - by rewrite lookup_insert_ne.
Qed.

Lemma dom_assign (obj : gmap string V) (k : string) (v : V) :
  dom (Js.assign obj k v)
    = dom obj ∪ (if (k =? "__proto__")%string then ∅ else {[k]} : gset string).
Proof.
  unfold Js.assign. destruct (k =? "__proto__")%string.
  - set_solver.
  - rewrite dom_insert_L. set_solver.
Qed.

End ObjectFacts.

Section AssembleMore.
Context `{PathOps} `{Assemble.FileSystem}.
Variable JSON_parse : string -> JsError + Assemble.ComponentAnalysis.
Variable rollup_generate :
  gmap string string -> gmap string (option string) -> M (list Assemble.OutputEntry).
Import Assemble Output.

(** The marker of a line [// <path>]. *)
Lemma match_path_comment_marker (path : string) :
  path <> "" -> Js.no_line_terminator path = true ->
  Js.match_path_comment ("// " +:+ path) = Some path.
Proof.
  intros Hne Hlt. unfold Js.match_path_comment.
  assert (Hp : String.prefix "// " ("// " +:+ path) = true)
    by (apply prefix_correct, (substring_append_l "// " path)).
  rewrite Hp.
  change (substring 3 (String.length ("// " +:+ path) - 3) ("// " +:+ path))
    with (substring 0 (String.length path - 0) path).
  rewrite Nat.sub_0_r, substring_all, Hlt.
  apply String.eqb_neq in Hne. by rewrite Hne.
Qed.

(** The turn of the loop over [modules/] for a snapshot [// <path>], a
    newline and a body. *)
Lemma read_module_marked (dependenciesDir filename path body : string)
    (vfsForRollup : gmap string (option string)) :
  path <> "" -> Js.no_line_terminator path = true ->
  Js.startsWith path "node_modules/" = false ->
  readFileSync (path_join dependenciesDir filename)
    = inr ("// " +:+ path +:+ nl +:+ body) ->
  read_module dependenciesDir vfsForRollup filename
    = ([], Ret (Js.assign vfsForRollup path (Some body))).
Proof.
  intros Hne Hlt Hnm Hread. unfold read_module. rewrite Hread. cbn [lift]. rewrite bind_ret_l.
  assert (Hidx : Js.indexOf ("// " +:+ path +:+ nl +:+ body) "010" = Js.len ("// " +:+ path)).
  { unfold Js.indexOf.
    change ("// " +:+ path +:+ nl +:+ body) with (("// " +:+ path) +:+ String "010" body).
    rewrite indexOf_from_first; [lia|].
    change (Text.absent "010" ("// " +:+ path)) with (Text.absent "010" path).
    by apply no_line_terminator_absent. }
  assert (Hfirst : firstLine ("// " +:+ path +:+ nl +:+ body) = "// " +:+ path).
  { unfold firstLine. rewrite Hidx.
    change ("// " +:+ path +:+ nl +:+ body) with (("// " +:+ path) +:+ String "010" body).
    apply slice_prefix. }
  rewrite Hfirst, Hidx, (match_path_comment_marker path Hne Hlt), Hnm.
  replace (Js.len ("// " +:+ path) + 1) with (Js.len ("// " +:+ path +:+ nl)).
  - replace ("// " +:+ path +:+ nl +:+ body) with (("// " +:+ path +:+ nl) +:+ body)
      by (by rewrite !append_assoc).
    by rewrite slice_from_suffix.
  - unfold Js.len. change ("// " +:+ path +:+ nl) with (String "/" (String "/" (String " " (path +:+ nl)))).
    change ("// " +:+ path) with (String "/" (String "/" (String " " path))).
    cbn [String.length]. rewrite length_append. cbn. lia.
Qed.

(** X17: a snapshot written as [// <path>], a newline and a body is read
    back under [<path>] with exactly the body, whatever the body holds
    (further newlines included), for every path that is not empty, has no
    line terminator, is not under [node_modules/] and is not [__proto__].
    A snapshot whose path is [__proto__] is read without an error and
    leaves the virtual file system as it was: the assignment under that
    name makes no entry. *)
Theorem read_module_round_trip (dependenciesDir filename path body : string)
    (vfsForRollup : gmap string (option string)) :
  path <> "" -> Js.no_line_terminator path = true ->
  Js.startsWith path "node_modules/" = false ->
  readFileSync (path_join dependenciesDir filename)
    = inr ("// " +:+ path +:+ nl +:+ body) ->
  (path <> "__proto__" ->
   read_module dependenciesDir vfsForRollup filename
     = ([], Ret (<[path := Some body]> vfsForRollup))) /\
  (path = "__proto__" ->
   read_module dependenciesDir vfsForRollup filename = ([], Ret vfsForRollup)).
Proof.
  intros Hne Hlt Hnm Hread.
  rewrite (read_module_marked _ _ _ _ vfsForRollup Hne Hlt Hnm Hread). split.
  - intros Hp. by rewrite assign_other.
  - intros ->. reflexivity.
Qed.

(** X18: a snapshot that is a marker line [// <path><c>] without a newline
    is not taken by its marker: [indexOf] gives [-1], so the first line is
    the content without its last character [<c>].  When [<path>] is empty
    the snapshot is rejected as malformed.  Otherwise it is accepted: under
    [node_modules/], or for the path [__proto__], it leaves the virtual
    file system as it was; for any other path the entry is made under
    [<path>], the marker's path without its last character, and holds the
    whole file, marker included. *)
Theorem read_module_without_newline (dependenciesDir filename path : string)
    (last : ascii) (vfsForRollup : gmap string (option string)) :
  Js.no_line_terminator path = true ->
  Ascii.eqb last "010" = false ->
  readFileSync (path_join dependenciesDir filename)
    = inr ("// " +:+ path +:+ String last "") ->
  (path = "" ->
   read_module dependenciesDir vfsForRollup filename
     = ([], Throw (Error "Malformed path for module: // "))) /\
  (path <> "" ->
   Js.startsWith path "node_modules/" = true \/ path = "__proto__" ->
   read_module dependenciesDir vfsForRollup filename = ([], Ret vfsForRollup)) /\
  (path <> "" ->
   Js.startsWith path "node_modules/" = false -> path <> "__proto__" ->
   read_module dependenciesDir vfsForRollup filename
     = ([], Ret (<[path := Some ("// " +:+ path +:+ String last "")]> vfsForRollup))).
Proof.
  intros Hlt Hlast Hread. unfold read_module. rewrite Hread. cbn [lift].
  rewrite bind_ret_l.
  assert (Hidx : Js.indexOf ("// " +:+ path +:+ String last "") "010" = -1).
  { apply indexOf_from_absent.
    change (Text.absent "010" ("// " +:+ path +:+ String last ""))
      with (Text.absent "010" (path +:+ String last "")).
    pose proof (no_line_terminator_absent _ Hlt) as Habs. revert Habs. clear -Hlast.
    induction path as [|x p IH].
    - intros _. change ("" +:+ String last "") with (String last "").
      rewrite absent_cons, Hlast. reflexivity.
    - rewrite append_cons, !absent_cons. intros [-> Hp]%andb_true_iff.
      by rewrite IH. }
  assert (Hfirst : firstLine ("// " +:+ path +:+ String last "") = "// " +:+ path).
  { unfold firstLine. rewrite Hidx.
    replace ("// " +:+ path +:+ String last "") with (("// " +:+ path) +:+ String last "")
      by (by rewrite !append_assoc).
    apply slice_drop_last. }
  rewrite Hfirst, Hidx. change (-1 + 1) with 0. rewrite slice_from_zero.
  split; [|split].
  - intros ->. reflexivity.
  - intros Hne Hskip. rewrite (match_path_comment_marker path Hne Hlt).
    destruct Hskip as [->| ->]; reflexivity.
  - intros Hne Hnm Hp. rewrite (match_path_comment_marker path Hne Hlt), Hnm.
    by rewrite assign_other.
Qed.

(** The accumulators before the first descriptor are consistent. *)
Lemma consistent_initial (v : gmap string (option string)) :
  consistent {| input := ∅; vfsForRollup := v; acc_components := ∅; hasAnalysis := false |}.
Proof.
  split; [|split]; cbn.
  - intros k f Hk. by rewrite lookup_empty in Hk.
  - done.
  - apply map_Forall_empty.
Qed.

(** One turn of the descriptor loop keeps them consistent. *)
Lemma read_component_consistent analysisDir acc filePath l acc' :
  consistent acc ->
  read_component JSON_parse analysisDir acc filePath = (l, Ret acc') ->
  consistent acc'.
Proof.
  intros (Hin & Hhas & Hst). unfold read_component.
  destruct (Js.endsWith filePath ".json"); [|by intros [= _ <-]].
  destruct (readFileSync _) as [e|content]; [discriminate|]. cbn [lift]. rewrite bind_ret_l.
  destruct (JSON_parse content) as [e|c]; [discriminate|]. cbn [lift]. rewrite bind_ret_l.
  intros [= _ <-]. split; [|split]; cbn.
  - intros k f. unfold Js.assign at 1.
    destruct (_ =? "__proto__")%string.
    + intros Hk. apply has_assign_mono. by eapply Hin.
    + intros [[_ <-]|[_ Hk]]%lookup_insert_Some.
      * apply has_assign_same.
      * apply has_assign_mono. by eapply Hin.
  - discriminate.
  - unfold Js.assign. destruct (scope c =? "__proto__")%string; [done|].
    by apply map_Forall_insert_2.
Qed.

Lemma read_components_consistent analysisDir filePaths acc l acc' :
  consistent acc ->
  read_components JSON_parse analysisDir filePaths acc = (l, Ret acc') ->
  consistent acc'.
Proof.
  revert acc l. induction filePaths as [|p ps IH]; intros acc l Hc.
  - by intros [= _ <-].
  - cbn [read_components].
    destruct (read_component JSON_parse analysisDir acc p) as [l1 [a1|e1|c1]] eqn:H1;
      cbn [bind]; [|discriminate..].
    destruct (read_components JSON_parse analysisDir ps a1) as [l2 o2] eqn:H2.
    intros [= _ ->]. eapply IH; [|exact H2]. by eapply read_component_consistent.
Qed.

(** What the [try] block returns: the empty analysis, or the components of
    the descriptor loop. *)
Lemma bundleAnalysis_try_ret tmpDir log a :
  bundleAnalysis_try JSON_parse rollup_generate tmpDir = (log, Ret a) ->
  a = empty_analysis \/
  exists v filePaths l acc,
    read_components JSON_parse (path_join tmpDir "analysis") filePaths
      {| input := ∅; vfsForRollup := v; acc_components := ∅; hasAnalysis := false |}
      = (l, Ret acc) /\
    components a = acc_components acc.
Proof.
  unfold bundleAnalysis_try.
  destruct (readdirSync (path_join tmpDir "analysis")) as [e|filePaths]; [discriminate|].
  cbn [lift]. rewrite bind_ret_l.
  destruct (read_all_modules _) as [l0 [v|e|c]]; cbn [bind]; [|discriminate..].
  destruct (read_components _ _ _ _) as [l1 [acc|e|c]] eqn:Hrc; cbn [bind]; [|discriminate..].
  destruct (hasAnalysis acc); cbn [negb].
  - destruct (rollup_generate _ _) as [l2 [output|e|c]]; cbn [bind app]; [|discriminate..].
    destruct (collect output ∅) as [l3 [vfs|e|c]]; cbn [bind]; [|discriminate..].
    intros [= _ <-]. right. exists v, filePaths, l1, acc. by split.
  - intros [= _ <-]. by left.
Qed.

(** X19: whatever [bundleAnalysis] returns, each of its components is filed
    under its own scope and carries no raw thunk. *)
Theorem bundleAnalysis_components_stored (tmpDir : string) (log : list Effect)
    (a : Analysis) (k : string) (c : ComponentAnalysis) :
  bundleAnalysis JSON_parse rollup_generate tmpDir = (log, Ret a) ->
  components a !! k = Some c ->
  stored k c.
Proof.
  unfold bundleAnalysis. destruct (existsSync tmpDir); cbn [negb].
  - destruct (bundleAnalysis_try JSON_parse rollup_generate tmpDir) as [l [a0|e|x]] eqn:Ht;
      cbn [try_catch]; [|discriminate..].
    intros [= _ <-]. apply bundleAnalysis_try_ret in Ht as [->|(v & ps & l1 & acc & Hrc & ->)].
    + intros Hk. cbn in Hk. by rewrite lookup_empty in Hk.
    + intros Hk.
      destruct (read_components_consistent _ _ _ _ _ (consistent_initial v) Hrc)
        as (_ & _ & Hst).
      by apply (Hst k c).
  - intros [= _ <-] Hk. cbn in Hk. by rewrite lookup_empty in Hk.
Qed.


Lemma collect_dom (output : list OutputEntry) (vfs0 : gmap string string) :
  forallb is_text output = true ->
  exists vfs, collect output vfs0 = ([], Ret vfs) /\
              dom vfs = dom vfs0 ∪ list_to_set (stored_names output).
Proof.
  clear JSON_parse rollup_generate.
  revert vfs0. induction output as [|entry output IH]; intros vfs0.
  - intros _. exists vfs0. split; [reflexivity|]. cbn. set_solver.
  - destruct entry as [fileName code|fileName [s|bytes]|type];
      cbn [forallb is_text andb collect]; try discriminate.
    + intros Hall. destruct (IH (Js.assign vfs0 fileName code) Hall) as (vfs & -> & Hdom).
      exists vfs. split; [reflexivity|]. rewrite Hdom, dom_assign.
      unfold stored_names. cbn [text_names flat_map app List.filter].
      fold (text_names output). destruct (fileName =? "__proto__")%string; cbn; set_solver.
    + intros Hall. destruct (IH (Js.assign vfs0 fileName s) Hall) as (vfs & -> & Hdom).
      exists vfs. split; [reflexivity|]. rewrite Hdom, dom_assign.
      unfold stored_names. cbn [text_names flat_map app List.filter].
      fold (text_names output). destruct (fileName =? "__proto__")%string; cbn; set_solver.
Qed.

Lemma collect_throws (output : list OutputEntry) (vfs0 : gmap string string) :
  forallb is_text output = false -> exists e, collect output vfs0 = ([], Throw e).
Proof.
  clear JSON_parse rollup_generate.
  revert vfs0. induction output as [|entry output IH]; intros vfs0; [discriminate|].
  destruct entry as [fileName code|fileName [s|bytes]|type];
    cbn [forallb is_text andb collect]; eauto.
Qed.

Lemma stored_names_all (names : list string) :
  ~ In "__proto__" names ->
  List.filter (fun fileName => negb (fileName =? "__proto__")%string) names = names.
Proof.
  induction names as [|n names IH]; [done|]. cbn [In List.filter]. intros Hn.
  destruct (n =? "__proto__")%string eqn:He.
  - apply String.eqb_eq in He. exfalso. apply Hn. by left.
  - cbn. rewrite IH; [done|]. intros Hin. apply Hn. by right.
Qed.

(** X21: the loop over [output] is all or nothing.  When every entry is a
    chunk or an asset with a string source, the result has exactly the keys
    it started with and the emitted file names, the name [__proto__] apart,
    under which the assignment makes no entry; otherwise it throws and no
    file system is returned.  Nothing is printed either way. *)
Theorem collect_all_or_nothing (output : list OutputEntry) (vfs0 : gmap string string) :
  (forallb is_text output = true ->
   exists vfs, collect output vfs0 = ([], Ret vfs) /\
               dom vfs = dom vfs0 ∪ list_to_set (stored_names output) /\
               (~ In "__proto__" (text_names output) ->
                dom vfs = dom vfs0 ∪ list_to_set (text_names output))) /\
  (forallb is_text output = false -> exists e, collect output vfs0 = ([], Throw e)).
Proof.
  clear JSON_parse rollup_generate.
  split; [|apply collect_throws].
  intros Hall. destruct (collect_dom output vfs0 Hall) as (vfs & Hc & Hdom).
  exists vfs. split; [done|]. split; [done|].
  intros Hn. rewrite Hdom. unfold stored_names. by rewrite stored_names_all.
Qed.

Lemma absent_append_present (c : ascii) (a b : string) :
  Text.absent c (a +:+ String c b) = false.
Proof.
  induction a as [|x a IH].
  - change ("" +:+ String c b) with (String c b). rewrite absent_cons, Ascii.eqb_refl.
    reflexivity.
  - rewrite append_cons, absent_cons, IH. apply andb_false_r.
Qed.

(** X22: the key of an entry point is its file name up to the last dot.
    For a descriptor whose file name is [<base>.<ext>], with no dot in
    [<ext>], a turn of the descriptor loop sets [hasAnalysis], enters the
    thunk in the virtual file system under the file name, enters
    [input[<base>]], replacing what was entered under that key by a file of
    another extension, and files the cleared component under its scope.
    The two last assignments make no entry when the name is [__proto__]:
    then the entry points, or the components, are left as they were. *)
Theorem entry_key_is_name_up_to_last_dot (analysisDir filePath content base ext : string)
    (component : ComponentAnalysis) (acc : Acc) :
  Js.endsWith filePath ".json" = true ->
  readFileSync (path_join analysisDir filePath) = inr content ->
  JSON_parse content = inr component ->
  filename component = base +:+ "." +:+ ext ->
  Text.absent "." ext = true ->
  exists acc',
    read_component JSON_parse analysisDir acc filePath = ([], Ret acc') /\
    hasAnalysis acc' = true /\
    vfsForRollup acc'
      = <[filename component := moduleThunkRaw component]> (vfsForRollup acc) /\
    (base <> "__proto__" -> input acc' = <[base := filename component]> (input acc)) /\
    (base = "__proto__" -> input acc' = input acc) /\
    (scope component <> "__proto__" ->
     acc_components acc'
       = <[scope component := clear_thunk component]> (acc_components acc)) /\
    (scope component = "__proto__" -> acc_components acc' = acc_components acc).
Proof.
  intros Hj Hr Hp Hf Hext. unfold read_component.
  rewrite Hj, Hr. cbn [lift]. rewrite bind_ret_l, Hp. cbn [lift]. rewrite bind_ret_l.
  assert (Hkey : Js.slice (filename component) 0 (Js.lastIndexOf (filename component) ".")
                 = base).
  { rewrite Hf. unfold Js.lastIndexOf.
    change (base +:+ "." +:+ ext) with (base +:+ String "." ext).
    rewrite lastIndexOf_from_last by done. rewrite Z.add_0_l. apply slice_prefix. }
  assert (Hfile : filename component <> "__proto__").
  { intros Heq. rewrite Heq in Hf.
    assert (Habs : Text.absent "." "__proto__" = true) by reflexivity.
    rewrite Hf in Habs. change (base +:+ "." +:+ ext) with (base +:+ String "." ext) in Habs.
    by rewrite absent_append_present in Habs. }
  rewrite Hkey. eexists. split; [reflexivity|]. cbn.
  split; [done|]. split; [by apply assign_other|].
  split; [by apply assign_other|]. split; [by intros ->|].
  split; [by apply assign_other|]. by intros ->.
Qed.

End AssembleMore.

Lemma read_module_round_trip_witness :
  @Assemble.read_module Cases.posix AssembleCases.fs_modules_only
    (@path_join Cases.posix (@path_join Cases.posix AssembleCases.tmpDir "analysis") "modules")
    ∅ "0.js"
  = ([], Ret (<["src/util.js" := Some ("export const a = 1;" +:+ Assemble.nl)]> ∅)).
Proof.
  apply (proj1 (@read_module_round_trip Cases.posix AssembleCases.fs_modules_only
                  (@path_join Cases.posix (@path_join Cases.posix AssembleCases.tmpDir "analysis")
                     "modules")
                  "0.js" "src/util.js" ("export const a = 1;" +:+ Assemble.nl) ∅
                  ltac:(discriminate) eq_refl eq_refl ltac:(vm_compute; reflexivity))).
  discriminate.
Defined.

Lemma read_module_without_newline_witness :
  @Assemble.read_module Cases.posix OutputCases.fs_no_newline
    (@path_join Cases.posix (@path_join Cases.posix AssembleCases.tmpDir "analysis") "modules")
    ∅ "0.js"
  = ([], Ret (<["src/util.j" := Some "// src/util.js"]> ∅)).
Proof.
  apply (proj2 (proj2 (@read_module_without_newline Cases.posix OutputCases.fs_no_newline
                         (@path_join Cases.posix
                            (@path_join Cases.posix AssembleCases.tmpDir "analysis") "modules")
                         "0.js" "src/util.j" "s"%char ∅
                         eq_refl eq_refl ltac:(vm_compute; reflexivity)))).
  - discriminate.
  - reflexivity.
  - discriminate.
Defined.

Lemma bundleAnalysis_components_stored_witness :
  Output.stored "a1b2c3" (Assemble.clear_thunk DescriptorCases.hero).
Proof.
  apply (@bundleAnalysis_components_stored Cases.posix DescriptorCases.fs_component
           DescriptorCases.JSON_parse AssembleCases.rollup_generate AssembleCases.tmpDir
           [RollupCall {["components/Hero" := "components/Hero.tsx"]}]
           {| Assemble.components := {["a1b2c3" := Assemble.clear_thunk DescriptorCases.hero]};
              Assemble.vfs := ∅ |}).
  - vm_compute; reflexivity.
  - vm_compute; reflexivity.
Defined.


Lemma entry_key_is_name_up_to_last_dot_witness :
  exists acc',
    @Assemble.read_component Cases.posix DescriptorCases.fs_component
      DescriptorCases.JSON_parse
      (@path_join Cases.posix AssembleCases.tmpDir "analysis") OutputCases.acc0 "Hero.json"
    = ([], Ret acc') /\
    Assemble.input acc' = {["components/Hero" := "components/Hero.tsx"]}.
Proof.
  destruct (@entry_key_is_name_up_to_last_dot Cases.posix DescriptorCases.fs_component
              DescriptorCases.JSON_parse
              (@path_join Cases.posix AssembleCases.tmpDir "analysis") "Hero.json"
              "{ scope, filename, moduleThunkRaw }" "components/Hero" "tsx"
              DescriptorCases.hero OutputCases.acc0
              eq_refl ltac:(vm_compute; reflexivity) eq_refl eq_refl eq_refl)
    as (acc' & Hrun & _ & _ & Hin & _).
  exists acc'. split; [exact Hrun|]. apply Hin. discriminate.
Defined.

Lemma collect_all_or_nothing_witness :
  exists vfs,
    Assemble.collect OutputCases.output_text ∅ = ([], Ret vfs) /\
    dom vfs = dom (∅ : gmap string string)
                ∪ list_to_set (Output.text_names OutputCases.output_text).
Proof.
  destruct (proj1 (collect_all_or_nothing OutputCases.output_text ∅) eq_refl)
    as (vfs & Hrun & _ & Hdom).
  exists vfs. split; [exact Hrun|]. apply Hdom.
  vm_compute. intros [Hn|[Hn|[Hn|[]]]]; discriminate Hn.
Defined.

(** A descriptor whose file name is [__proto__.js] sets [hasAnalysis] and
    enters no entry point: the bundler is called with an empty [input]. *)
Example bundleAnalysis_empty_input :
  fst (@Assemble.bundleAnalysis Cases.posix DescriptorCases.fs_component
         OutputCases.JSON_parse_proto AssembleCases.rollup_generate AssembleCases.tmpDir)
  = [RollupCall ∅].
Proof. vm_compute; reflexivity. Qed.

(** ** The resolver and the warning printer *)
Section ResolveMore.
Context `{PathOps} {V : Type}.
Variable vfsForRollup : gmap string V.
Import Resolve.

(** X23: the resolver is stable: what it answers for one specifier and
    importer, it answers for that answer from any importer, and from none. *)
Theorem resolveId_stable (id r : string) (importer importer' : option string) :
  resolveId vfsForRollup id importer = Some r ->
  resolveId vfsForRollup r importer' = Some r.
Proof.
  intros Hr. apply resolveId_in_vfs in Hr. unfold resolveId. by rewrite Hr.
Qed.

End ResolveMore.

Lemma resolveId_stable_witness :
  @Resolve.resolveId Cases.posix _ ResolveCases.vfs_foo_bar "components/Foo.tsx" None
    = Some "components/Foo.tsx".
Proof.
  apply (@resolveId_stable Cases.posix _ ResolveCases.vfs_foo_bar
           "./Foo" "components/Foo.tsx" ResolveCases.importer None).
  vm_compute; reflexivity.
Defined.

Section WarnMore.
Context `{PathOps}.
Import Warn.

(** X24: whatever the warning holds, [handleRollupError] prints between two
    and five lines, all of them strings: the [[!]] headline first and an
    empty line last, with the url, the location and the frame between them
    when present.  It never throws, and it ends the process with status 1
    exactly when [fatal] is set. *)
Theorem handleRollupError_output_frame (err : RollupWarning) (fatal : bool) :
  head (fst (handleRollupError err fatal)) = Some (ConsoleError ("[!] " +:+ describe err)) /\
  last (fst (handleRollupError err fatal)) = Some (ConsoleError "") /\
  (2 <= length (fst (handleRollupError err fatal)) <= 5)%nat /\
  Forall (fun e => exists line, e = ConsoleError line) (fst (handleRollupError err fatal)) /\
  snd (handleRollupError err fatal) = if fatal then Exit 1 else Ret tt.
Proof.
  unfold handleRollupError, when, console_error, chalk_bold, chalk_red, chalk_cyan, chalk_dim.
  destruct (Js.truthy (url err)), (loc err) as [l|], (Js.truthy (id err)),
    (Js.truthy (frame err)), fatal; cbn;
    (split; [reflexivity|]); (split; [reflexivity|]); (split; [lia|]);
    (split; [|reflexivity]); repeat constructor; eauto.
Qed.

End WarnMore.
